(** * Neural Notebook: document model, tagged-content parser, controller

    A shallow embedding of the notebook core of the repository:
    - [NotebookCell] and [NotebookDocument] (identical in
      [NeuralNotebook_V1.py] and [src/notebook_utils.py]),
    - the two variants of [to_dict] and of [parse_tagged_content]
      (modules [V1] and [Utils]),
    - the placeholder bookkeeping of [NotebookApp]
      ([parse_and_update_cells], [handle_ollama_error]),
    - the JSON extraction of [OllamaWorker.generate_notebook_structure].

    Python [str] values are Rocq strings; a character is a code point
    below 256.  Python values that flow through [json.loads] and the
    cell fields are the type [json] (numbers: integers only). *)

From Stdlib Require Import ZArith NArith Ascii String List Bool Lia.
From Stdlib Require Import DecimalString.
Import ListNotations.

Local Open Scope list_scope.
Local Open Scope string_scope.

(** ** Python string primitives *)

Module Str.

(** [str.isspace] on one character (code points below 256): the ASCII
    white space 9..13 and 32, the separators 28..31, NEL (133) and the
    no-break space (160).  The regular expression class [\s] on [str]
    patterns is the same set. *)
Definition isspace (c : ascii) : bool :=
  let n := N_of_ascii c in
  ((9 <=? n) && (n <=? 13) || (28 <=? n) && (n <=? 32)
   || (n =? 133) || (n =? 160))%N.

Fixpoint lstrip (s : string) : string :=
  match s with
  | String c s' => if isspace c then lstrip s' else s
  | EmptyString => EmptyString
  end.

Fixpoint rstrip (s : string) : string :=
  match s with
  | EmptyString => EmptyString
  | String c s' =>
      match rstrip s' with
      | EmptyString => if isspace c then EmptyString else String c EmptyString
      | r => String c r
      end
  end.

(** [s.strip()] *)
Definition strip (s : string) : string := rstrip (lstrip s).

(** [s.startswith(p)] *)
Definition startswith (s p : string) : bool := String.prefix p s.

(** [s[n:]] for [0 <= n] *)
Fixpoint drop (n : nat) (s : string) : string :=
  match n, s with
  | O, _ => s
  | S k, String _ s' => drop k s'
  | S _, EmptyString => EmptyString
  end.

(** [s[:n]] for [0 <= n] *)
Fixpoint take (n : nat) (s : string) : string :=
  match n, s with
  | S k, String c s' => String c (take k s')
  | _, _ => EmptyString
  end.

(** [s.find(sub)], [None] standing for [-1] *)
Fixpoint find (s sub : string) : option nat :=
  if startswith s sub then Some O
  else match s with
       | EmptyString => None
       | String _ s' => option_map S (find s' sub)
       end.

(** [s.rfind(sub)], [None] standing for [-1] *)
Fixpoint rfind (s sub : string) : option nat :=
  match s with
  | EmptyString => if startswith s sub then Some O else None
  | String _ s' =>
      match rfind s' sub with
      | Some i => Some (S i)
      | None => if startswith s sub then Some O else None
      end
  end.

(** [sub in s] *)
Definition contains (s sub : string) : bool :=
  match find s sub with Some _ => true | None => false end.

(** [s.split(sep)[0]] for a non-empty separator *)
Definition split_head (s sep : string) : string :=
  match find s sep with
  | Some i => take i s
  | None => s
  end.

(** [sep.join(parts)] *)
Definition join (sep : string) (parts : list string) : string :=
  String.concat sep parts.

(** The index that Python reports: [-1] when absent. *)
Definition index_Z (r : option nat) : Z :=
  match r with Some i => Z.of_nat i | None => (-1)%Z end.

(** [s[a:b]] for [0 <= a] and [0 <= b] *)
Definition slice (s : string) (a b : nat) : string :=
  take (b - a) (drop a s).

End Str.

(** ** The fragment of [re] the parser uses

    A pattern is given by its anchored matcher: [m s] is the outcome of
    matching the pattern at the first character of [s], namely the length
    of the match (and, for patterns with a group, the text of group 1).
    None of the patterns below matches the empty string, so the scanners
    resume right after a match and otherwise advance by one character. *)

Module Re.

(** [re.finditer(p, s)]: group 1 of the successive leftmost matches.
    [skip] counts the characters of the current match still to pass. *)
Fixpoint finditer_from (m : string -> option (nat * string))
    (s : string) (skip : nat) : list string :=
  match skip with
  | S k =>
      match s with
      | EmptyString => []
      | String _ s' => finditer_from m s' k
      end
  | O =>
      match m s with
      | Some (len, g) =>
          g :: match s with
               | EmptyString => []
               | String _ s' => finditer_from m s' (len - 1)
               end
      | None =>
          match s with
          | EmptyString => []
          | String _ s' => finditer_from m s' 0
          end
      end
  end.

Definition finditer (m : string -> option (nat * string)) (s : string)
  : list string := finditer_from m s 0.

(** [re.sub(p, '', s)]: every match erased. *)
Fixpoint erase_from (m : string -> option nat) (s : string) (skip : nat)
  : string :=
  match s with
  | EmptyString => EmptyString
  | String c s' =>
      match skip with
      | S k => erase_from m s' k
      | O =>
          match m s with
          | Some len => erase_from m s' (len - 1)
          | None => String c (erase_from m s' 0)
          end
      end
  end.

Definition erase (m : string -> option nat) (s : string) : string :=
  erase_from m s 0.

(** [re.split(p, s)] for a pattern that is one capturing group: the
    pieces between the matches, interleaved with the matched texts.  The
    result is never empty; it is returned as its head and its tail. *)
Fixpoint split_from (m : string -> option nat) (s : string) (skip : nat)
  : string * list string :=
  match s with
  | EmptyString => (EmptyString, [])
  | String c s' =>
      match skip with
      | S k => split_from m s' k
      | O =>
          match m s with
          | Some len =>
              let '(h, t) := split_from m s' (len - 1) in
              (EmptyString, Str.take len s :: h :: t)
          | None =>
              let '(h, t) := split_from m s' 0 in
              (String c h, t)
          end
      end
  end.

Definition split (m : string -> option nat) (s : string) : list string :=
  let '(h, t) := split_from m s 0 in h :: t.

(** Length of the longest run of [\s] characters at the start of [s]:
    what a greedy [\s*] consumes. *)
Fixpoint spaces (s : string) : nat :=
  match s with
  | String c s' => if Str.isspace c then S (spaces s') else O
  | EmptyString => O
  end.

(** What [\n?] consumes. *)
Definition opt_newline (s : string) : nat :=
  match s with
  | String "010"%char _ => 1
  | _ => 0
  end.

(** [lit] followed by [tail], where [tail] tells how much the rest of the
    pattern consumes after the literal. *)
Definition lit_then (lit : string) (tail : string -> nat) (s : string)
  : option nat :=
  if Str.startswith s lit
  then Some (String.length lit + tail (Str.drop (String.length lit) s))
  else None.

(** [p|q]: the first alternative that matches. *)
Definition alt (p q : string -> option nat) (s : string) : option nat :=
  match p s with
  | Some n => Some n
  | None => q s
  end.

(** [open(.*?)close] under [re.DOTALL]: the body is the shortest text
    after [open] that is followed by [close]. *)
Definition region (open close : string) (s : string)
  : option (nat * string) :=
  if Str.startswith s open then
    let rest := Str.drop (String.length open) s in
    match Str.find rest close with
    | Some j => Some (String.length open + j + String.length close,
                      Str.take j rest)
    | None => None
    end
  else None.

End Re.

(** ** Python values and exceptions *)

(** The values [json.loads] builds and the cell fields hold.  A [dict]
    is the list of its items in insertion order (keys are distinct). *)
#[warnings="-register-all"]
Inductive json : Type :=
| JNull
| JBool (b : bool)
| JInt (z : Z)
| JStr (s : string)
| JList (l : list json)
| JDict (d : list (string * json)).

Inductive exn : Type :=
| AttributeError
| TypeError
| JSONDecodeError
| OtherError (msg : string).

Inductive result (A : Type) : Type :=
| Ok (a : A)
| Raise (e : exn).
Arguments Ok {A} a.
Arguments Raise {A} e.

Definition bind {A B : Type} (r : result A) (k : A -> result B) : result B :=
  match r with
  | Ok a => k a
  | Raise e => Raise e
  end.

Notation "x <- r ;; k" := (bind r (fun x => k))
  (at level 61, r at next level, right associativity).

Definition nl : string := String "010"%char EmptyString.

Module Py.

(** Truth value of a Python object ([bool(v)]). *)
Definition truthy (v : json) : bool :=
  match v with
  | JNull => false
  | JBool b => b
  | JInt z => negb (z =? 0)%Z
  | JStr s => negb (String.eqb s "")
  | JList l => match l with [] => false | _ => true end
  | JDict d => match d with [] => false | _ => true end
  end.

Fixpoint dict_lookup (d : list (string * json)) (k : string) : option json :=
  match d with
  | [] => None
  | (k', v) :: d' => if String.eqb k' k then Some v else dict_lookup d' k
  end.

(** [v.get(k, default)]: only a [dict] has the method. *)
Definition get (v : json) (k : string) (default : json) : result json :=
  match v with
  | JDict d =>
      match dict_lookup d k with
      | Some x => Ok x
      | None => Ok default
      end
  | _ => Raise AttributeError
  end.

(** [k in v] for a [dict] [v]. *)
Definition has_key (d : list (string * json)) (k : string) : bool :=
  match dict_lookup d k with Some _ => true | None => false end.

Fixpoint chars (s : string) : list json :=
  match s with
  | EmptyString => []
  | String c s' => JStr (String c EmptyString) :: chars s'
  end.

(** The elements a [for] loop draws from [v]. *)
Definition iterate (v : json) : result (list json) :=
  match v with
  | JList l => Ok l
  | JDict d => Ok (map (fun kv => JStr (fst kv)) d)
  | JStr s => Ok (chars s)
  | _ => Raise TypeError
  end.

(** [v == s] for a string literal [s]. *)
Definition eq_str (v : json) (s : string) : bool :=
  match v with
  | JStr t => String.eqb t s
  | _ => false
  end.

(** Decimal text of an integer, as [str(n)] prints it. *)
Definition str_of_Z (z : Z) : string :=
  DecimalString.NilZero.string_of_int (Z.to_int z).

Definition hex_digit (n : N) : ascii :=
  if (n <? 10)%N then ascii_of_N (48 + n) else ascii_of_N (87 + n).

Definition squote : ascii := "039"%char.
Definition dquote : ascii := "034"%char.
Definition backslash : ascii := "092"%char.

Definition has_char (c : ascii) (s : string) : bool :=
  existsb (Ascii.eqb c) (list_ascii_of_string s).

(** One character inside [repr] of a [str] delimited by [q]. *)
Definition repr_char (q c : ascii) : string :=
  let n := N_of_ascii c in
  if Ascii.eqb c q || Ascii.eqb c backslash
  then String backslash (String c EmptyString)
  else if (n =? 9)%N then String backslash "t"
  else if (n =? 10)%N then String backslash "n"
  else if (n =? 13)%N then String backslash "r"
  else if ((n <? 32) || (n =? 127)
           || (128 <=? n) && (n <=? 160) || (n =? 173))%N
  then String backslash
         (String "x" (String (hex_digit (n / 16))
                        (String (hex_digit (n mod 16)) EmptyString)))
  else String c EmptyString.

Definition repr_str (s : string) : string :=
  let q := if has_char squote s && negb (has_char dquote s)
           then dquote else squote in
  String q (String.concat ""
              (map (repr_char q) (list_ascii_of_string s)))
  ++ String q EmptyString.

Fixpoint repr (v : json) : string :=
  match v with
  | JNull => "None"
  | JBool true => "True"
  | JBool false => "False"
  | JInt z => str_of_Z z
  | JStr s => repr_str s
  | JList l => "[" ++ String.concat ", " (map repr l) ++ "]"
  | JDict d =>
      "{" ++ String.concat ", "
               (map (fun kv => match kv with
                               | (k, x) => repr_str k ++ ": " ++ repr x
                               end) d)
      ++ "}"
  end.

(** [str(v)], the text an f-string field shows. *)
Definition str (v : json) : string :=
  match v with
  | JStr s => s
  | _ => repr v
  end.

(** ["".join(parts)]: every part has to be a [str]. *)
Fixpoint join_empty (parts : list json) : result string :=
  match parts with
  | [] => Ok ""
  | JStr s :: rest => r <- join_empty rest ;; Ok (s ++ r)
  | _ :: _ => Raise TypeError
  end.

End Py.

(** ** Document model *)

(** [NotebookCell]: the four attributes set by [__init__]. *)
Record NotebookCell : Type := mkCell {
  cell_type : json;
  source : list json;
  outputs : json;
  cell_metadata : json
}.

(** [x if isinstance(x, list) else [x]] *)
Definition as_list (x : json) : list json :=
  match x with
  | JList l => l
  | _ => [x]
  end.

(** [NotebookCell(cell_type, source, outputs)]; an omitted [outputs] is
    [None], that is [JNull]. *)
Definition new_cell (ty src outs : json) : NotebookCell :=
  {| cell_type := ty;
     source := as_list src;
     outputs := if Py.truthy outs then outs else JList [];
     cell_metadata := JDict [] |}.

(** [NotebookCell(ty, text)] with two [str] arguments. *)
Definition text_cell (ty text : string) : NotebookCell :=
  new_cell (JStr ty) (JStr text) JNull.

(** [NotebookCell.to_dict] *)
Definition cell_to_dict (c : NotebookCell) : json :=
  let base := [("cell_type", cell_type c);
               ("metadata", cell_metadata c);
               ("source", JList (source c))] in
  if Py.eq_str (cell_type c) "code"
  then JDict (base ++ [("execution_count", JNull); ("outputs", outputs c)])%list
  else JDict base.

Record NotebookDocument : Type := mkDoc {
  cells : list NotebookCell;
  metadata : json
}.

Definition default_metadata : json :=
  JDict
    [("kernelspec",
      JDict [("display_name", JStr "Python 3");
             ("language", JStr "python");
             ("name", JStr "python3")]);
     ("language_info",
      JDict [("codemirror_mode",
              JDict [("name", JStr "ipython"); ("version", JInt 3)]);
             ("file_extension", JStr ".py");
             ("mimetype", JStr "text/x-python");
             ("name", JStr "python");
             ("nbconvert_exporter", JStr "python");
             ("pygments_lexer", JStr "ipython3");
             ("version", JStr "3.8.10")])].

(** [NotebookDocument()] *)
Definition new_document : NotebookDocument :=
  {| cells := []; metadata := default_metadata |}.

Definition in_range (index : Z) (cs : list NotebookCell) : bool :=
  ((0 <=? index) && (index <? Z.of_nat (length cs)))%Z.

Definition with_cells (doc : NotebookDocument) (cs : list NotebookCell)
  : NotebookDocument :=
  {| cells := cs; metadata := metadata doc |}.

(** [list.insert(i, x)] and [del l[i]] for an index already in range. *)
Definition list_insert {A : Type} (i : nat) (x : A) (l : list A) : list A :=
  (firstn i l ++ x :: skipn i l)%list.

Definition list_del {A : Type} (i : nat) (l : list A) : list A :=
  (firstn i l ++ skipn (S i) l)%list.

(** [add_cell(cell, index)]; [index=None] is the default. *)
Definition add_cell (doc : NotebookDocument) (cell : NotebookCell)
    (index : option Z) : NotebookDocument :=
  match index with
  | Some i =>
      if in_range i (cells doc)
      then with_cells doc (list_insert (Z.to_nat i) cell (cells doc))
      else with_cells doc (cells doc ++ [cell])%list
  | None => with_cells doc (cells doc ++ [cell])%list
  end.

Definition set_source (c : NotebookCell) (content : json) : NotebookCell :=
  {| cell_type := cell_type c;
     source := as_list content;
     outputs := outputs c;
     cell_metadata := cell_metadata c |}.

Fixpoint list_update {A : Type} (i : nat) (f : A -> A) (l : list A) : list A :=
  match l, i with
  | [], _ => []
  | x :: l', O => f x :: l'
  | x :: l', S k => x :: list_update k f l'
  end.

(** [update_cell(index, content)]: the document after the call and the
    flag it returns.  The cells are held by value, which is what the call
    does when no cell object is listed twice; [Objects.update_cell] below
    has the objects. *)
Definition update_cell (doc : NotebookDocument) (index : Z) (content : json)
  : NotebookDocument * bool :=
  if in_range index (cells doc)
  then (with_cells doc
          (list_update (Z.to_nat index) (fun c => set_source c content)
             (cells doc)), true)
  else (doc, false).

(** [delete_cell(index)] *)
Definition delete_cell (doc : NotebookDocument) (index : Z)
  : NotebookDocument * bool :=
  if in_range index (cells doc)
  then (with_cells doc (list_del (Z.to_nat index) (cells doc)), true)
  else (doc, false).

(** One entry of [to_plain_text]; [i] is the position of the cell. *)
Definition plain_entry (i : nat) (c : NotebookCell) : result string :=
  content <- Py.join_empty (source c) ;;
  Ok ("## Cell " ++ Py.str_of_Z (Z.of_nat i + 1) ++ " ("
      ++ Py.str (cell_type c) ++ "):" ++ nl ++ content ++ nl ++ nl).

Fixpoint plain_entries (i : nat) (cs : list NotebookCell)
  : result (list string) :=
  match cs with
  | [] => Ok []
  | c :: rest =>
      e <- plain_entry i c ;;
      es <- plain_entries (S i) rest ;;
      Ok (e :: es)
  end.

Definition plain_header : string := "# Notebook Content:" ++ nl ++ nl.

(** [to_plain_text()] *)
Definition to_plain_text (doc : NotebookDocument) : result string :=
  es <- plain_entries 0 (cells doc) ;;
  Ok (plain_header ++ String.concat "" es).

(** The body of the loop of [from_json] for one [cell_data]. *)
Definition cell_of_json (cell_data : json) : result NotebookCell :=
  ty <- Py.get cell_data "cell_type" (JStr "code") ;;
  src <- Py.get cell_data "source" (JList []) ;;
  outs <- Py.get cell_data "outputs" (JList []) ;;
  md <- Py.get cell_data "metadata" (JDict []) ;;
  let cell := new_cell ty src outs in
  Ok {| cell_type := cell_type cell;
        source := source cell;
        outputs := outputs cell;
        cell_metadata := md |}.

Fixpoint load_cells (doc : NotebookDocument) (items : list json)
  : result NotebookDocument :=
  match items with
  | [] => Ok doc
  | cell_data :: rest =>
      cell <- cell_of_json cell_data ;;
      load_cells (add_cell doc cell None) rest
  end.

(** [from_json] after [data = json.loads(json_str)]. *)
Definition from_json_data (data : json) : result NotebookDocument :=
  let doc := new_document in
  md <- Py.get data "metadata" (metadata doc) ;;
  let doc := {| cells := cells doc; metadata := md |} in
  cs <- Py.get data "cells" (JList []) ;;
  items <- Py.iterate cs ;;
  load_cells doc items.

(** [from_json(json_str)]; [loads] is [json.loads], with [None] for the
    texts it rejects. *)
Definition from_json (loads : string -> option json) (json_str : string)
  : result NotebookDocument :=
  match loads json_str with
  | Some data => from_json_data data
  | None => Raise JSONDecodeError
  end.

(** ** [src/notebook_utils.py] *)

Module Utils.

(** [any(s.strip() for s in source)]: stops at the first non-blank
    string; an element without [strip] raises. *)
Fixpoint any_strip (src : list json) : result bool :=
  match src with
  | [] => Ok false
  | JStr s :: rest =>
      if negb (String.eqb (Str.strip s) "") then Ok true else any_strip rest
  | _ :: _ => Raise AttributeError
  end.

(** The condition of the comprehension in [to_dict]:
    [cell.source and any(s.strip() for s in cell.source)]. *)
Definition keeps (c : NotebookCell) : result bool :=
  match source c with
  | [] => Ok false
  | src => any_strip src
  end.

Fixpoint dict_cells (cs : list NotebookCell) : result (list json) :=
  match cs with
  | [] => Ok []
  | c :: rest =>
      k <- keeps c ;;
      ds <- dict_cells rest ;;
      Ok (if k then cell_to_dict c :: ds else ds)
  end.

(** [NotebookDocument.to_dict] *)
Definition to_dict (doc : NotebookDocument) : result json :=
  ds <- dict_cells (cells doc) ;;
  Ok (JDict [("cells", JList ds);
             ("metadata", metadata doc);
             ("nbformat", JInt 4);
             ("nbformat_minor", JInt 5)]).

(** The tail of both fence alternatives, [\s*\n?]. *)
Definition spaces_newline (r : string) : nat :=
  Re.spaces r + Re.opt_newline (Str.drop (Re.spaces r) r).

(** [```python\s*\n?|```\s*\n?] *)
Definition fence_marker : string -> option nat :=
  Re.alt (Re.lit_then "```python" spaces_newline)
         (Re.lit_then "```" spaces_newline).

(** The cells of one entry of [cell_patterns]. *)
Definition md_cells (content : string) : list NotebookCell :=
  map (fun body => text_cell "markdown" (Str.strip body))
      (Re.finditer (Re.region "<md>" "</md>") content).

Definition code_cells (content : string) : list NotebookCell :=
  map (fun body =>
         text_cell "code" (Re.erase fence_marker (Str.strip body)))
      (Re.finditer (Re.region "<code>" "</code>") content).

(** The text the patterns are run on: stripped, and cut at the first
    [<version_complete>]. *)
Definition clean (content : string) : string :=
  let content := Str.strip content in
  if Str.contains content "<version_complete>"
  then Str.strip (Str.split_head content "<version_complete>")
  else content.

(** [NotebookDocument.parse_tagged_content] *)
Definition parse_tagged_content (content : string) : list NotebookCell :=
  let content := clean content in
  (md_cells content ++ code_cells content)%list.

End Utils.

(** ** [NeuralNotebook_V1.py] *)

Module V1.

(** [NotebookDocument.to_dict]: every cell is emitted. *)
Definition to_dict (doc : NotebookDocument) : result json :=
  Ok (JDict [("cells", JList (map cell_to_dict (cells doc)));
             ("metadata", metadata doc);
             ("nbformat", JInt 4);
             ("nbformat_minor", JInt 5)]).

Definition lit (l : string) : string -> option nat :=
  Re.lit_then l (fun _ => 0).

(** [```python\n?] and [```\n?] *)
Definition python_fence : string -> option nat :=
  Re.lit_then "```python" Re.opt_newline.
Definition bare_fence : string -> option nat :=
  Re.lit_then "```" Re.opt_newline.

(** [(<(?:md|code)>|</(?:md|code)>)] *)
Definition tag : string -> option nat :=
  Re.alt (Re.alt (lit "<md>") (lit "<code>"))
         (Re.alt (lit "</md>") (lit "</code>")).

(** [(```python[\s\S]*?```)] *)
Definition fenced_block (s : string) : option nat :=
  option_map fst (Re.region "```python" "```" s).

(** The variables of the loop over [parts]. *)
Record scan : Type := mkScan {
  out : list NotebookCell;
  current_type : option string;
  current_content : list string
}.

(** [if current_type and current_content: cells.append(...)] *)
Definition flush (st : scan) : list NotebookCell :=
  match current_type st, current_content st with
  | Some ty, _ :: _ =>
      (out st ++ [text_cell ty (Str.join nl (current_content st))])%list
  | _, _ => out st
  end.

Definition tagged_step (st : scan) (part : string) : scan :=
  if negb (String.eqb (Str.strip part) "") then
    if String.eqb part "<md>" then
      {| out := flush st; current_type := Some "markdown";
         current_content := [] |}
    else if String.eqb part "<code>" then
      {| out := flush st; current_type := Some "code";
         current_content := [] |}
    else if negb (Str.startswith part "</") then
      match current_type st with
      | Some _ =>
          {| out := out st; current_type := current_type st;
             current_content :=
               (current_content st ++ [Str.strip part])%list |}
      | None => st
      end
    else st
  else st.

Definition tagged_cells (content : string) : list NotebookCell :=
  let content := Re.erase python_fence content in
  let content := Re.erase bare_fence content in
  let parts := Re.split tag content in
  flush (fold_left tagged_step parts
           {| out := []; current_type := None; current_content := [] |}).

Definition fallback_step (acc : list NotebookCell) (part : string)
  : list NotebookCell :=
  if negb (String.eqb (Str.strip part) "") then
    if Str.startswith part "```python" then
      let code := Str.strip (Re.erase (Re.alt python_fence bare_fence) part) in
      if negb (String.eqb code "")
      then (acc ++ [text_cell "code" code])%list else acc
    else
      let markdown := Str.strip part in
      if negb (String.eqb markdown "")
      then (acc ++ [text_cell "markdown" markdown])%list else acc
  else acc.

Definition fallback_cells (content : string) : list NotebookCell :=
  fold_left fallback_step (Re.split fenced_block content) [].

(** [NotebookDocument.parse_tagged_content] *)
Definition parse_tagged_content (content : string) : list NotebookCell :=
  if Str.contains content "<md>" || Str.contains content "<code>"
  then tagged_cells content
  else fallback_cells content.

End V1.

(** ** [NotebookApp]: the placeholder bookkeeping

    The attributes the two handlers read and write.  Message boxes, the
    status label and [update_editor] only display. *)

Record NotebookApp : Type := mkApp {
  notebook : NotebookDocument;
  generating_cell_index : option Z;
  derive_mode_in_progress : bool
}.

(** The loop [for i, cell in enumerate(new_cells)] of
    [parse_and_update_cells], entered at position [i]. *)
Fixpoint add_cells (doc : NotebookDocument) (g : Z) (i : nat)
    (new_cells : list NotebookCell) : NotebookDocument :=
  match new_cells with
  | [] => doc
  | cell :: rest =>
      let insert_position := (g + Z.of_nat i)%Z in
      add_cells (add_cell doc cell (Some insert_position)) g (S i) rest
  end.

Section Controller.

(** [self.notebook.parse_tagged_content] of the variant at hand. *)
Variable parse : string -> list NotebookCell.

(** [parse_and_update_cells(content)]; an index that is [None] makes the
    comparison in [delete_cell] raise. *)
Definition parse_and_update_cells (app : NotebookApp) (content : string)
  : result NotebookApp :=
  match parse content with
  | [] => Ok app
  | new_cells =>
      match generating_cell_index app with
      | None => Raise TypeError
      | Some g =>
          let doc := fst (delete_cell (notebook app) g) in
          let doc := add_cells doc g 0 new_cells in
          Ok {| notebook := doc;
                generating_cell_index :=
                  Some (g + (Z.of_nat (length new_cells) - 1))%Z;
                derive_mode_in_progress := derive_mode_in_progress app |}
      end
  end.

End Controller.

(** [handle_ollama_error(error_msg)] *)
Definition handle_ollama_error (app : NotebookApp) (error_msg : string)
  : NotebookApp :=
  let app :=
    match generating_cell_index app with
    | Some g =>
        {| notebook := fst (delete_cell (notebook app) g);
           generating_cell_index := None;
           derive_mode_in_progress := derive_mode_in_progress app |}
    | None => app
    end in
  if derive_mode_in_progress app
  then {| notebook := notebook app;
          generating_cell_index := generating_cell_index app;
          derive_mode_in_progress := false |}
  else app.

(** ** [OllamaWorker.generate_notebook_structure] *)

Section Structure.

(** [json.loads]: a value, [JSONDecodeError], or another exception. *)
Variable loads : string -> result json.
(** [str.capitalize] *)
Variable capitalize : string -> string.

Definition intro_structure (prompt : string) : json :=
  JDict
    [("title", JStr (capitalize (Str.strip prompt)));
     ("sections",
      JList
        [JDict
           [("title", JStr "Introduction");
            ("type", JStr "section");
            ("cells",
             JList
               [JDict [("type", JStr "markdown");
                       ("content",
                        JStr ("# " ++ prompt ++ nl ++ nl
                              ++ "This notebook will explore " ++ prompt))];
                JDict [("type", JStr "code");
                       ("purpose", JStr "Setup");
                       ("content", JStr "# Initial setup and imports")]])]])].

Definition main_structure (prompt : string) : json :=
  JDict
    [("title", JStr (capitalize (Str.strip prompt)));
     ("sections",
      JList
        [JDict
           [("title", JStr "Main Section");
            ("type", JStr "section");
            ("cells",
             JList [JDict [("type", JStr "markdown");
                           ("content", JStr ("# " ++ prompt))]])]])].

(** [isinstance(structure, dict) and 'title' in structure and
    'sections' in structure] *)
Definition well_formed (structure : json) : bool :=
  match structure with
  | JDict d => Py.has_key d "title" && Py.has_key d "sections"
  | _ => false
  end.

(** The text between the first opening and the last closing brace, when
    the guard [json_start >= 0 and json_end > json_start] holds. *)
Definition extract_json (result : string) : option string :=
  let result := Str.strip result in
  let json_start := Str.index_Z (Str.find result "{") in
  let json_end := (Str.index_Z (Str.rfind result "}") + 1)%Z in
  if ((0 <=? json_start) && (json_start <? json_end))%Z
  then Some (Str.slice result (Z.to_nat json_start) (Z.to_nat json_end))
  else None.

(** [generate_notebook_structure(prompt)]; [chat] is the text the model
    streamed, or the exception the request ended with. *)
Definition generate_notebook_structure (chat : result string)
    (prompt : string) : json :=
  match chat with
  | Raise _ => main_structure prompt
  | Ok result =>
      match extract_json result with
      | Some json_str =>
          match loads json_str with
          | Ok structure =>
              if well_formed structure then structure
              else intro_structure prompt
          | Raise JSONDecodeError => intro_structure prompt
          | Raise _ => main_structure prompt
          end
      | None => intro_structure prompt
      end
  end.

End Structure.

(** ** Inputs used in the examples *)

Definition sample_doc : NotebookDocument :=
  add_cell (add_cell new_document (text_cell "markdown" "# Title") None)
           (text_cell "code" "x = 1") None.

Definition sample_app : NotebookApp :=
  {| notebook :=
       add_cell sample_doc (text_cell "code" "# Generating...") (Some 1%Z);
     generating_cell_index := Some 1%Z;
     derive_mode_in_progress := true |}.

(** The number of entries of [structure['sections']]. *)
Definition sections_count (structure : json) : option nat :=
  match structure with
  | JDict d =>
      match Py.dict_lookup d "sections" with
      | Some (JList l) => Some (length l)
      | _ => None
      end
  | _ => None
  end.

(** A stand-in for [json.loads] that knows one text. *)
Definition sample_loads (s : string) : result json :=
  if String.eqb s "{T}"
  then Ok (JDict [("title", JStr "T"); ("sections", JList [])])
  else Raise JSONDecodeError.

(** The top-level fields of the persisted format. *)
Definition required_fields : list string :=
  ["cells"; "metadata"; "nbformat"; "nbformat_minor"].

Definition is_dict (v : json) : bool :=
  match v with JDict _ => true | _ => false end.

(** [d.get(k, default)] on the items of a dict. *)
Definition field_or (d : list (string * json)) (k : string) (default : json)
  : json :=
  match Py.dict_lookup d k with
  | Some x => x
  | None => default
  end.

(** A cell object without the key [cell_type]. *)
Definition lacks_cell_type (cell_data : json) : Prop :=
  match cell_data with
  | JDict cd => Py.dict_lookup cd "cell_type" = None
  | _ => False
  end.

Definition is_markdown (c : NotebookCell) : bool :=
  Py.eq_str (cell_type c) "markdown".

(** No markdown cell of the list carries outputs. *)
Definition markdown_without_outputs (cs : list NotebookCell) : Prop :=
  Forall (fun c => is_markdown c = true -> outputs c = JList []) cs.

(** A notebook file whose markdown cell has an [outputs] array. *)
Definition stream_output : json := JDict [("output_type", JStr "stream")].

Definition markdown_cell_with_outputs : json :=
  JDict [("cell_type", JStr "markdown");
         ("metadata", JDict []);
         ("source", JList [JStr "# Notes"]);
         ("outputs", JList [stream_output])].

Definition notebook_with_markdown_outputs : json :=
  JDict [("cells", JList [markdown_cell_with_outputs]);
         ("metadata", JDict []);
         ("nbformat", JInt 4);
         ("nbformat_minor", JInt 5)].

(** Every element of a [source] list is a [str]. *)
Definition str_source (c : NotebookCell) : Prop :=
  Forall (fun x => exists s, x = JStr s) (source c).

(** The concatenated source of a cell, ["".join(cell.source)]. *)
Fixpoint concat_source (src : list json) : string :=
  match src with
  | JStr s :: rest => s ++ concat_source rest
  | _ :: rest => concat_source rest
  | [] => ""
  end.

Definition source_text (c : NotebookCell) : string :=
  concat_source (source c).

(** Empty or made of white space only. *)
Definition blank (s : string) : bool :=
  forallb Str.isspace (list_ascii_of_string s).

(** The entry of [to_plain_text] for the cell at position [i]. *)
Definition entry_text (i : nat) (c : NotebookCell) : string :=
  "## Cell " ++ Py.str_of_Z (Z.of_nat i + 1) ++ " ("
  ++ Py.str (cell_type c) ++ "):" ++ nl ++ source_text c ++ nl ++ nl.

Fixpoint entries_from (i : nat) (cs : list NotebookCell) : list string :=
  match cs with
  | [] => []
  | c :: rest => entry_text i c :: entries_from (S i) rest
  end.

(** The array under the key [cells] of a serialized document. *)
Definition emitted_cells (d : json) : option (list json) :=
  match d with
  | JDict items =>
      match Py.dict_lookup items "cells" with
      | Some (JList l) => Some l
      | _ => None
      end
  | _ => None
  end.

(** A document with an empty placeholder cell and a cell with text. *)
Definition draft_doc : NotebookDocument :=
  add_cell (add_cell new_document (text_cell "code" "") None)
           (text_cell "markdown" "# Title") None.

(** [sub] occurs in [s]. *)
Definition occurs (sub s : string) : Prop :=
  exists a b : string, s = a ++ sub ++ b.

(** The two example texts of the parser, and a text whose [<code>]
    region is still open. *)
Definition title_and_print : string :=
  "<md>" ++ nl ++ "# Title" ++ nl ++ "</md>" ++ nl ++ nl ++ "<code>" ++ nl
  ++ "```python" ++ nl ++ "print(1)" ++ nl ++ "```" ++ nl ++ "</code>".

Definition untagged_text : string :=
  "Some text" ++ nl ++ "```python" ++ nl ++ "x=1" ++ nl ++ "```" ++ nl
  ++ "More text".

Definition open_code_text : string := "<code>" ++ nl ++ "x = 1".

(** No occurrence of [sub] in [a ++ t] reaches into [t]. *)
Definition confined (sub a t : string) : Prop :=
  forall k, Str.startswith (Str.drop k (a ++ t)) sub = true ->
            k + String.length sub <= String.length a.

(** Texts without white space. *)
Definition solid (s : string) : bool :=
  forallb (fun c => negb (Str.isspace c)) (list_ascii_of_string s).

(** The cells the two patterns match in a text. *)
Definition scan_cells (content : string) : list NotebookCell :=
  (Utils.md_cells content ++ Utils.code_cells content)%list.

Definition version_marker : string := "<version_complete>".

(** A cell that [to_dict] and [from_json] carry over unchanged: outputs
    are a non-empty value or the empty list, and only a code cell has
    any. *)
Definition persistable (c : NotebookCell) : Prop :=
  (outputs c = JList [] \/
   (Py.eq_str (cell_type c) "code" = true /\ Py.truthy (outputs c) = true)).

(** The content a caller may pass to [update_cell] so that the source
    stays a list of strings: a string, or a list of strings. *)
Definition str_content (content : json) : Prop :=
  Forall (fun x => exists s, x = JStr s) (as_list content).

(** A cell as the parsers build it: [NotebookCell(kind, text)] with kind
    [markdown] or [code]. *)
Definition parsed_cell (c : NotebookCell) : Prop :=
  exists (ty text : string),
    c = text_cell ty text /\ (ty = "markdown" \/ ty = "code").

(** A parsed cell whose text is not blank. *)
Definition filled_cell (c : NotebookCell) : Prop :=
  exists (ty text : string),
    c = text_cell ty text /\ (ty = "markdown" \/ ty = "code") /\
    blank text = false.

(** ** [NotebookApp]: selection and generation requests

    The further attributes of [NotebookApp] the methods below use;
    [notebook_app] holds the three attributes modelled above. *)

Record Window : Type := mkWindow {
  notebook_app : NotebookApp;
  current_editing_cell : option Z;
  generation_mode : string;
  ollama_model : string;
  iteration_count : Z
}.

Definition with_app (w : Window) (a : NotebookApp) : Window :=
  {| notebook_app := a;
     current_editing_cell := current_editing_cell w;
     generation_mode := generation_mode w;
     ollama_model := ollama_model w;
     iteration_count := iteration_count w |}.

Definition with_notebook (a : NotebookApp) (doc : NotebookDocument)
  : NotebookApp :=
  {| notebook := doc;
     generating_cell_index := generating_cell_index a;
     derive_mode_in_progress := derive_mode_in_progress a |}.

(** [s.endswith(suffix)] *)
Definition endswith (s suffix : string) : bool :=
  (String.length suffix <=? String.length s)%nat
  && String.eqb (Str.drop (String.length s - String.length suffix) s) suffix.

(** Methods with the same text in [NeuralNotebook_V1.py] and
    [src/neural_notebook_ui.py]. *)
Module App.

(** [delete_current_cell()]; the flag tells whether a cell was deleted
    (otherwise the warning is shown). *)
Definition delete_current_cell (w : Window) : Window * bool :=
  match current_editing_cell w with
  | Some cur =>
      if in_range cur (cells (notebook (notebook_app w))) then
        let '(doc, deleted) := delete_cell (notebook (notebook_app w)) cur in
        if deleted then
          let n := Z.of_nat (length (cells doc)) in
          ({| notebook_app := with_notebook (notebook_app w) doc;
              current_editing_cell :=
                if (0 <? n)%Z then Some (Z.min cur (n - 1)) else None;
              generation_mode := generation_mode w;
              ollama_model := ollama_model w;
              iteration_count := iteration_count w |}, true)
        else (w, false)
      else (w, false)
  | None => (w, false)
  end.

(** [new_notebook()] *)
Definition new_notebook (w : Window) : Window :=
  let doc := new_document in
  let doc :=
    add_cell doc
      (text_cell "markdown"
         ("# New Neural Notebook" ++ nl ++ nl
          ++ "Create powerful notebooks with AI assistance.")) None in
  let doc :=
    add_cell doc (text_cell "code" ("# Your code here" ++ nl))
      None in
  {| notebook_app := with_notebook (notebook_app w) doc;
     current_editing_cell := Some 0%Z;
     generation_mode := generation_mode w;
     ollama_model := ollama_model w;
     iteration_count := iteration_count w |}.

(** [update_status_bar()]: a selection that names no cell is dropped. *)
Definition update_status_bar (w : Window) : Window :=
  match current_editing_cell w with
  | Some cur =>
      if in_range cur (cells (notebook (notebook_app w))) then w
      else {| notebook_app := notebook_app w;
              current_editing_cell := None;
              generation_mode := generation_mode w;
              ollama_model := ollama_model w;
              iteration_count := iteration_count w |}
  | None => w
  end.

(** [add_cell(cell_type)] of the window. *)
Definition add_cell (w : Window) (cell_type : string) : Window :=
  let default_content :=
    if String.eqb cell_type "code"
    then "# Your code here" ++ nl else "## New Section" ++ nl in
  let cell := text_cell cell_type default_content in
  match current_editing_cell w with
  | Some cur =>
      {| notebook_app := with_notebook (notebook_app w)
                  (add_cell (notebook (notebook_app w)) cell
                     (Some (cur + 1)%Z));
         current_editing_cell := Some (cur + 1)%Z;
         generation_mode := generation_mode w;
         ollama_model := ollama_model w;
         iteration_count := iteration_count w |}
  | None =>
      with_app w
        (with_notebook (notebook_app w)
           (add_cell (notebook (notebook_app w)) cell None))
  end.

End App.

(** The selection is absent or names a cell. *)
Definition selection_ok (w : Window) : Prop :=
  match current_editing_cell w with
  | Some cur =>
      (0 <= cur < Z.of_nat (length (cells (notebook (notebook_app w)))))%Z
  | None => True
  end.

(** The placeholder is appended and its index recorded:
    [add_cell(cell); generating_cell_index = len(cells) - 1]. *)
Definition append_placeholder (a : NotebookApp) (cell : NotebookCell)
  : NotebookApp :=
  let doc := add_cell (notebook a) cell None in
  {| notebook := doc;
     generating_cell_index := Some (Z.of_nat (length (cells doc)) - 1)%Z;
     derive_mode_in_progress := derive_mode_in_progress a |}.

(** ** [NotebookApp] of [NeuralNotebook_V1.py]

    The entry points give the attributes they write.  The context text
    ([to_plain_text]) and the refresh of the editor they compute on the
    way raise only when a source holds something else than strings. *)

Module V1App.

(** [generate_with_ollama(cell_type)] in single mode, from the point
    where the prompt dialog has been accepted: the placeholder cell is
    inserted and its index recorded.  [ollama_model w] is the model
    selected in the box, which the method adopts first; the request
    itself runs in the worker thread. *)
Definition generate_with_ollama (w : Window) (cell_type : string) : Window :=
  let placeholder_text :=
    "Generating " ++ cell_type ++ " content with " ++ ollama_model w
    ++ "..." in
  let cell := text_cell cell_type placeholder_text in
  match current_editing_cell w with
  | Some cur =>
      {| notebook_app :=
           {| notebook :=
                add_cell (notebook (notebook_app w)) cell (Some (cur + 1)%Z);
              generating_cell_index := Some (cur + 1)%Z;
              derive_mode_in_progress :=
                derive_mode_in_progress (notebook_app w) |};
         current_editing_cell := Some (cur + 1)%Z;
         generation_mode := generation_mode w;
         ollama_model := ollama_model w;
         iteration_count := iteration_count w |}
  | None => with_app w (append_placeholder (notebook_app w) cell)
  end.

(** [continue_derive_mode()] *)
Definition continue_derive_mode (w : Window) : Window :=
  let n := (iteration_count w + 1)%Z in
  let cell :=
    text_cell "code"
      ("# Continuing notebook generation (iteration " ++ Py.str_of_Z n
       ++ ")...") in
  {| notebook_app := append_placeholder (notebook_app w) cell;
     current_editing_cell := current_editing_cell w;
     generation_mode := generation_mode w;
     ollama_model := ollama_model w;
     iteration_count := n |}.

(** [generate_in_derive_mode(cell_type)].  [prompt] is what the input
    dialog returned ([None]: cancelled or empty); [build_on_existing] is
    the answer to the question asked when the notebook has more than one
    cell. *)
Definition generate_in_derive_mode (w : Window) (prompt : option string)
    (build_on_existing : bool) : Window :=
  if derive_mode_in_progress (notebook_app w) then continue_derive_mode w
  else
    match prompt with
    | None => w
    | Some prompt =>
        let title :=
          text_cell "markdown"
            ("# " ++ prompt ++ nl ++ nl ++ "Generating notebook...") in
        let fresh := add_cell new_document title None in
        let doc :=
          if (Z.of_nat (length (cells (notebook (notebook_app w)))) <=? 1)%Z
          then fresh
          else if build_on_existing then notebook (notebook_app w) else fresh in
        {| notebook_app :=
             append_placeholder
               {| notebook := doc;
                  generating_cell_index :=
                    generating_cell_index (notebook_app w);
                  derive_mode_in_progress := true |}
               (text_cell "code" "# Generating initial code...");
           current_editing_cell := current_editing_cell w;
           generation_mode := generation_mode w;
           ollama_model := ollama_model w;
           iteration_count := 0 |}
    end.

(** [handle_ollama_result(result)]: the attributes it writes, up to its
    closing [update_editor()], which [Slot.handle_ollama_result] adds. *)
Definition handle_ollama_result (w : Window)
  : string -> result Window := fun result =>
  match generating_cell_index (notebook_app w) with
  | None => Ok w
  | Some g =>
      if String.eqb (generation_mode w) "derive"
         && derive_mode_in_progress (notebook_app w)
      then
        if Str.contains result "<version_complete>" then
          let content := Str.split_head result "<version_complete>" in
          a <- parse_and_update_cells V1.parse_tagged_content (notebook_app w)
                 content ;;
          Ok (with_app w
                {| notebook := notebook a;
                   generating_cell_index := generating_cell_index a;
                   derive_mode_in_progress := false |})
        else if negb (endswith (Str.strip result) "...") then
          a <- parse_and_update_cells V1.parse_tagged_content (notebook_app w)
                 result ;;
          Ok (with_app w a)
        else
          Ok (with_app w
                (with_notebook (notebook_app w)
                   (fst (update_cell (notebook (notebook_app w)) g
                           (JStr result)))))
      else
        a <- parse_and_update_cells V1.parse_tagged_content (notebook_app w)
               result ;;
        Ok (with_app w a)
  end.

End V1App.

(** ** [NotebookApp] of [src/neural_notebook_ui.py] *)

Module UIApp.

(** [generate_with_ollama(cell_type)] in single mode, from the point
    where the prompt dialog has been accepted: two placeholder cells are
    inserted at [current_editing_cell or len(cells)]. *)
Definition generate_with_ollama (w : Window) : Window :=
  let n := Z.of_nat (length (cells (notebook (notebook_app w)))) in
  let index :=
    match current_editing_cell w with
    | Some cur => if (cur =? 0)%Z then n else cur
    | None => n
    end in
  let doc :=
    add_cell (notebook (notebook_app w))
      (text_cell "markdown" "Generating documentation...") (Some index) in
  let doc :=
    add_cell doc (text_cell "code" "Generating code...")
      (Some (index + 1)%Z) in
  with_app w
    {| notebook := doc;
       generating_cell_index := Some index;
       derive_mode_in_progress := derive_mode_in_progress (notebook_app w) |}.

End UIApp.

(** ** The results of a request, one after the other

    [result_ready] is connected to [handle_ollama_result]: the window
    handles the texts in the order the worker emits them. *)
Fixpoint handle_results {S : Type} (handle : S -> string -> result S)
    (w : S) (results : list string) : result S :=
  match results with
  | [] => Ok w
  | r :: rest => w' <- handle w r ;; handle_results handle w' rest
  end.

(** [v[k]] for a string key [k]: only a dict has such keys. *)
Definition subscript (v : json) (k : string) : result json :=
  match v with
  | JDict d =>
      match Py.dict_lookup d k with
      | Some x => Ok x
      | None => Raise (OtherError "KeyError")
      end
  | _ => Raise TypeError
  end.

(** ** [OllamaWorker]: what a streamed response is turned into *)

(** A streamed response: the [content] of the parts that arrive, and the
    exception that ends the stream, if one does. *)
Record stream : Type := mkStream {
  parts : list string;
  failure : option exn
}.

(** The signals of the worker. *)
Inductive signal : Type :=
| result_ready (text : string)
| error_occurred (message : string)
| structure_ready (structure : json).

Definition result_texts (signals : list signal) : list string :=
  flat_map (fun s => match s with result_ready t => [t] | _ => [] end)
           signals.

(** The loop [result += content; self.result_ready.emit(result)]. *)
Fixpoint emit_cumulative (result : string) (contents : list string)
  : list string :=
  match contents with
  | [] => []
  | content :: rest =>
      let result := result ++ content in
      result :: emit_cumulative result rest
  end.

(** The loop of [generate_section]: the texts emitted and the text left
    in [complete_result]. *)
Fixpoint section_loop (complete_result : string) (contents : list string)
  : list string * string :=
  match contents with
  | [] => ([], complete_result)
  | content :: rest =>
      let complete_result := complete_result ++ content in
      if Str.contains content "</md>" || Str.contains content "</code>"
      then
        let (emitted, left) := section_loop "" rest in
        (complete_result :: emitted, left)
      else section_loop complete_result rest
  end.

(** [generate_section(section, context)]: the texts it emits and the text
    it returns.  The prompt is formatted with [section['title']] before the
    [try]; what fails inside is answered with the failure notice. *)
Definition generate_section (section : json) (chat : stream)
  : result (list string * string) :=
  title <- subscript section "title" ;;
  let (emitted, complete_result) := section_loop "" (parts chat) in
  match failure chat with
  | None => Ok (emitted, complete_result)
  | Some _ =>
      Ok (emitted,
          "<md>" ++ nl ++ "## " ++ Py.str title ++ nl
          ++ "Content generation failed" ++ nl ++ "</md>")
  end.

Section Worker.

(** [json.loads], [str.capitalize] and [str(e)] for an exception. *)
Variable loads : string -> result json.
Variable capitalize : string -> string.
Variable describe : exn -> string.

Definition error_signal (e : option exn) : list signal :=
  match e with
  | Some e => [error_occurred (describe e)]
  | None => []
  end.

(** The loop over [structure['sections']]; [chats i] is the response to
    the request of the section at position [i].  The value of
    [generate_section] is traversed by [for cell in cells]. *)
Fixpoint sections_loop (sections : list json) (chats : nat -> stream)
    (i : nat) : list signal * option exn :=
  match sections with
  | [] => ([], None)
  | section :: rest =>
      match generate_section section (chats i) with
      | Raise e => ([], Some e)
      | Ok (emitted, cells) =>
          let (later, e) := sections_loop rest chats (S i) in
          ((map result_ready emitted
            ++ map result_ready (map Py.str (Py.chars cells))
            ++ later)%list, e)
      end
  end.

(** [generate_content(prompt, ..., is_derive_mode)] of
    [src/ollama_agent.py]: the signals in the order of emission. *)
Definition generate_content (structure_chat : result string)
    (chats : nat -> stream) (prompt : string) (is_derive_mode : bool)
  : list signal :=
  if is_derive_mode then
    let structure :=
      generate_notebook_structure loads capitalize structure_chat prompt in
    structure_ready structure ::
    match (sections <- subscript structure "sections" ;;
           Py.iterate sections) with
    | Raise e => error_signal (Some e)
    | Ok sections =>
        let (signals, e) := sections_loop sections chats 0 in
        (signals ++ error_signal e)%list
    end
  else
    (map result_ready (emit_cumulative "" (parts (chats 0)))
     ++ error_signal (failure (chats 0)))%list.

End Worker.

(** A section of the structure: a dict with a [title]. *)
Definition titled (section : json) : Prop :=
  exists title : json, subscript section "title" = Ok title.

Definition closes_cell (content : string) : bool :=
  Str.contains content "</md>" || Str.contains content "</code>".

Definition whole_text (chat : stream) : string :=
  String.concat "" (parts chat).

(** ** The list of models, [fetch_ollama_models] *)

(** [s.split(sep)] for a separator of one character. *)
Fixpoint split_char (sep : ascii) (s : string) : list string :=
  match s with
  | EmptyString => [EmptyString]
  | String c s' =>
      if Ascii.eqb c sep then EmptyString :: split_char sep s'
      else match split_char sep s' with
           | line :: lines => String c line :: lines
           | [] => [String c EmptyString]
           end
  end.

(** [s.split()]: the words between runs of white space. *)
Fixpoint split_words (s : string) : list string :=
  match s with
  | EmptyString => []
  | String c s' =>
      if Str.isspace c then split_words s'
      else
        match s' with
        | String d _ =>
            if Str.isspace d then String c EmptyString :: split_words s'
            else match split_words s' with
                 | word :: words => String c word :: words
                 | [] => [String c EmptyString]
                 end
        | EmptyString => [String c EmptyString]
        end
  end.

(** The names read off the lines after the header. *)
Definition model_names (lines : list string) : list string :=
  flat_map (fun line =>
              match split_words line with
              | model_name :: _ => [model_name]
              | [] => []
              end) lines.

(** [fetch_ollama_models()]: the entries of the model box afterwards.
    [proc] is the outcome of running [ollama list]: the return code and
    the decoded standard output, or the exception raised on the way. *)
Definition fetch_ollama_models (proc : result (Z * string)) : list string :=
  match proc with
  | Raise _ => ["Error loading models"]
  | Ok (returncode, output) =>
      if negb (returncode =? 0)%Z then ["Error loading models"]
      else
        let lines := split_char "010" (Str.strip output) in
        if (1 <? length lines)%nat then
          match model_names (tl lines) with
          | [] => ["No models found"]
          | models => models
          end
        else ["No models found"]
  end.

(** [selected_model in ["No models found", "Error loading models"]] *)
Definition no_model (selected_model : string) : bool :=
  String.eqb selected_model "No models found"
  || String.eqb selected_model "Error loading models".

(** ** The refresh of the editor

    [update_editor()] builds the page from [cell.cell_type] and
    ["".join(cell.source)] of every cell in turn; the join raises
    [TypeError] on a source element that is not a [str].  What is modelled
    is the pair the page shows for each cell; the page itself is only
    displayed. *)
Fixpoint shown_cells (cs : list NotebookCell)
  : result (list (string * string)) :=
  match cs with
  | [] => Ok []
  | cell :: rest =>
      cell_content <- Py.join_empty (source cell) ;;
      more <- shown_cells rest ;;
      Ok ((Py.str (cell_type cell), cell_content) :: more)
  end.

Definition update_editor (doc : NotebookDocument)
  : result (list (string * string)) :=
  shown_cells (cells doc).

(** ** The slots as a whole

    [handle_ollama_result] and [handle_ollama_error] with the refresh of
    the editor they contain: the state the method leaves and the exception
    that escapes it, if any. *)
Module Slot.

(** [handle_ollama_result(result)] of [NeuralNotebook_V1.py]: without a
    placeholder index it returns at once; otherwise the state is updated
    as [V1App.handle_ollama_result] says and the editor refreshed. *)
Definition handle_ollama_result (w : Window)
  : string -> Window * option exn := fun result =>
  match generating_cell_index (notebook_app w) with
  | None => (w, None)
  | Some _ =>
      match V1App.handle_ollama_result w result with
      | Raise e => (w, Some e)
      | Ok w' =>
          match update_editor (notebook (notebook_app w')) with
          | Raise e => (w', Some e)
          | Ok _ => (w', None)
          end
      end
  end.

(** [handle_ollama_error(error_msg)]: the editor is refreshed after the
    placeholder is removed and the index cleared, and before the derive
    flag is reset. *)
Definition handle_ollama_error (app : NotebookApp) (error_msg : string)
  : NotebookApp * option exn :=
  let reset app :=
    if derive_mode_in_progress app
    then {| notebook := notebook app;
            generating_cell_index := generating_cell_index app;
            derive_mode_in_progress := false |}
    else app in
  match generating_cell_index app with
  | Some g =>
      let app :=
        {| notebook := fst (delete_cell (notebook app) g);
           generating_cell_index := None;
           derive_mode_in_progress := derive_mode_in_progress app |} in
      match update_editor (notebook app) with
      | Raise e => (app, Some e)
      | Ok _ => (reset app, None)
      end
  | None => (reset app, None)
  end.

End Slot.

(** ** Cells as objects

    [self.cells] lists cell objects, and [update_cell] assigns to the
    [source] attribute of the object it finds there, so an object that is
    listed more than once changes at every position.  [cell_refs] are the
    entries of [self.cells] by identity and [object_state] is the state of
    each object. *)
Record ObjectDocument : Type := mkObjects {
  object_state : nat -> NotebookCell;
  cell_refs : list nat;
  object_metadata : json
}.

(** The document with every entry replaced by the state of its object. *)
Definition by_value (d : ObjectDocument) : NotebookDocument :=
  {| cells := map (object_state d) (cell_refs d);
     metadata := object_metadata d |}.

Module Objects.

(** [update_cell(index, content)] *)
Definition update_cell (d : ObjectDocument) (index : Z) (content : json)
  : ObjectDocument * bool :=
  if ((0 <=? index) && (index <? Z.of_nat (length (cell_refs d))))%Z then
    match nth_error (cell_refs d) (Z.to_nat index) with
    | Some r =>
        ({| object_state :=
              fun r' => if Nat.eqb r' r
                        then set_source (object_state d r') content
                        else object_state d r';
            cell_refs := cell_refs d;
            object_metadata := object_metadata d |}, true)
    | None => (d, true)
    end
  else (d, false).

End Objects.

(** A document that lists one cell object twice, followed by another. *)
Definition shared_doc : ObjectDocument :=
  {| object_state :=
       fun r => match r with
                | O => text_cell "markdown" "# Title"
                | _ => text_cell "code" "x = 1"
                end;
     cell_refs := [0; 0; 1];
     object_metadata := default_metadata |}.

(** A window on [sample_doc] with its second cell selected. *)
Definition sample_window : Window :=
  {| notebook_app :=
       {| notebook := sample_doc;
          generating_cell_index := None;
          derive_mode_in_progress := false |};
     current_editing_cell := Some 1%Z;
     generation_mode := "single";
     ollama_model := "llama3";
     iteration_count := 0 |}.

(** * Properties *)

(** ** Index-guarded mutation of the cell list *)

Lemma in_range_spec (index : Z) (cs : list NotebookCell) :
  in_range index cs = true <-> (0 <= index < Z.of_nat (length cs))%Z.
Proof.
  unfold in_range. rewrite andb_true_iff, Z.leb_le, Z.ltb_lt. tauto.
Qed.

Lemma in_range_false (index : Z) (cs : list NotebookCell) :
  in_range index cs = false <->
  (index < 0 \/ Z.of_nat (length cs) <= index)%Z.
Proof.
  unfold in_range. rewrite andb_false_iff, Z.leb_gt, Z.ltb_ge. tauto.
Qed.

Lemma with_cells_same (doc : NotebookDocument) :
  with_cells doc (cells doc) = doc.
Proof. destruct doc; reflexivity. Qed.

Lemma length_list_del {A : Type} (i : nat) (l : list A) :
  i < length l -> length (list_del i l) = length l - 1.
Proof.
  intros Hi. unfold list_del.
  rewrite length_app, length_firstn, length_skipn. lia.
Qed.

Lemma length_list_update {A : Type} (f : A -> A) (l : list A) (i : nat) :
  length (list_update i f l) = length l.
Proof.
  revert i. induction l as [|x l IH]; intros [|i]; simpl; auto.
Qed.

(** C8. [delete_cell] and [update_cell] with an index outside
    [0 <= index < len(cells)] return [False] and leave the document as it
    was (same cells, same contents); with an index in range they return
    [True]. *)
Theorem delete_update_index_guard
    (doc : NotebookDocument) (index : Z) (content : json) :
  ((index < 0 \/ Z.of_nat (length (cells doc)) <= index)%Z ->
     delete_cell doc index = (doc, false) /\
     update_cell doc index content = (doc, false))
  /\
  ((0 <= index < Z.of_nat (length (cells doc)))%Z ->
     snd (delete_cell doc index) = true /\
     snd (update_cell doc index content) = true).
Proof.
  split; intros H.
  - apply in_range_false in H. unfold delete_cell, update_cell.
    rewrite H. split; reflexivity.
  - apply in_range_spec in H. unfold delete_cell, update_cell.
    rewrite H. split; reflexivity.
Qed.

Lemma delete_update_index_guard_witness :
  (delete_cell sample_doc 2 = (sample_doc, false) /\
   update_cell sample_doc 2 (JStr "y") = (sample_doc, false))
  /\
  (delete_cell sample_doc (-1) = (sample_doc, false) /\
   update_cell sample_doc (-1) (JStr "y") = (sample_doc, false))
  /\
  (snd (delete_cell sample_doc 1) = true /\
   snd (update_cell sample_doc 1 (JStr "y")) = true).
Proof.
  split; [|split].
  - apply (proj1 (delete_update_index_guard sample_doc 2 (JStr "y"))).
    right. simpl. lia.
  - apply (proj1 (delete_update_index_guard sample_doc (-1) (JStr "y"))).
    left. lia.
  - apply (proj2 (delete_update_index_guard sample_doc 1 (JStr "y"))).
    simpl. lia.
Defined.

(** ** The error handler *)

(** C6.  A single-cell request on a notebook of two cells with the second
    one selected, followed by a failure.  In [NeuralNotebook_V1.py] the
    error handler removes the placeholder and the cells are those from
    before the request.  In [src/neural_notebook_ui.py] the request inserts
    two placeholders and records the first, so after the error handler the
    cell [Generating code...] is still in the notebook, with the index
    cleared. *)
Theorem failed_request_placeholders :
  let v1 := V1App.generate_with_ollama sample_window "code" in
  let ui := UIApp.generate_with_ollama sample_window in
  cells (notebook (notebook_app v1))
  = [text_cell "markdown" "# Title"; text_cell "code" "x = 1";
     text_cell "code" "Generating code content with llama3..."] /\
  Slot.handle_ollama_error (notebook_app v1) "timeout"
  = ({| notebook := sample_doc;
        generating_cell_index := None;
        derive_mode_in_progress := false |}, None) /\
  cells (notebook (notebook_app ui))
  = [text_cell "markdown" "# Title";
     text_cell "markdown" "Generating documentation...";
     text_cell "code" "Generating code..."; text_cell "code" "x = 1"] /\
  generating_cell_index (notebook_app ui) = Some 1%Z /\
  cells (notebook (fst (Slot.handle_ollama_error (notebook_app ui) "timeout")))
  = [text_cell "markdown" "# Title"; text_cell "code" "Generating code...";
     text_cell "code" "x = 1"] /\
  generating_cell_index
    (fst (Slot.handle_ollama_error (notebook_app ui) "timeout")) = None /\
  snd (Slot.handle_ollama_error (notebook_app ui) "timeout") = None.
Proof. repeat split. Qed.

(** ** Replacing the placeholder by the parsed cells *)

Lemma add_cell_at (doc : NotebookDocument) (cell : NotebookCell)
    (pre post : list NotebookCell) :
  cells doc = (pre ++ post)%list ->
  add_cell doc cell (Some (Z.of_nat (length pre)))
  = with_cells doc (pre ++ cell :: post)%list.
Proof.
  intros Hc. unfold add_cell.
  destruct (in_range (Z.of_nat (length pre)) (cells doc)) eqn:E.
  - unfold list_insert. rewrite Nat2Z.id, Hc.
    rewrite firstn_app, firstn_all, Nat.sub_diag, firstn_0, app_nil_r.
    rewrite skipn_app, skipn_all, Nat.sub_diag, skipn_0. reflexivity.
  - apply in_range_false in E. rewrite Hc, length_app in E.
    assert (Hp : post = []) by (destruct post; [reflexivity | simpl in E; lia]).
    subst post. rewrite Hc, app_nil_r. reflexivity.
Qed.

Lemma add_cells_splice (new_cells : list NotebookCell) :
  forall (doc : NotebookDocument) (g : Z) (i : nat)
         (pre done post : list NotebookCell),
    cells doc = (pre ++ done ++ post)%list ->
    Z.of_nat (length pre) = g ->
    length done = i ->
    add_cells doc g i new_cells
    = with_cells doc (pre ++ done ++ new_cells ++ post)%list.
Proof.
  induction new_cells as [|cell rest IH]; intros doc g i pre done post Hc Hg Hi.
  - simpl. rewrite <- Hc. symmetry. apply with_cells_same.
  - cbn [add_cells].
    assert (Hpos : (g + Z.of_nat i)%Z = Z.of_nat (length (pre ++ done)%list))
      by (rewrite length_app; lia).
    rewrite Hpos.
    rewrite (add_cell_at doc cell (pre ++ done)%list post)
      by (rewrite Hc, app_assoc; reflexivity).
    rewrite (IH _ g (S i) pre (done ++ [cell])%list post).
    + unfold with_cells. simpl. f_equal.
      rewrite <- !app_assoc. reflexivity.
    + simpl. rewrite <- !app_assoc. reflexivity.
    + exact Hg.
    + rewrite length_app. simpl. lia.
Qed.

Lemma parse_and_update_cells_cells
    (parse : string -> list NotebookCell) (app : NotebookApp)
    (content : string) (g : Z) :
  generating_cell_index app = Some g ->
  (0 <= g < Z.of_nat (length (cells (notebook app))))%Z ->
  parse content <> [] ->
  parse_and_update_cells parse app content
  = Ok {| notebook :=
            with_cells (notebook app)
              (firstn (Z.to_nat g) (cells (notebook app))
               ++ parse content
               ++ skipn (S (Z.to_nat g)) (cells (notebook app)))%list;
          generating_cell_index :=
            Some (g + (Z.of_nat (length (parse content)) - 1))%Z;
          derive_mode_in_progress := derive_mode_in_progress app |}.
Proof.
  intros Hg Hr Hne. unfold parse_and_update_cells. rewrite Hg.
  destruct (parse content) as [|c new] eqn:Hp; [congruence |].
  do 2 f_equal.
  unfold delete_cell. pose proof Hr as Hr'. apply in_range_spec in Hr'.
  rewrite Hr'. cbn [fst].
  rewrite (add_cells_splice (c :: new) _ g 0
             (firstn (Z.to_nat g) (cells (notebook app))) []
             (skipn (S (Z.to_nat g)) (cells (notebook app)))).
  - reflexivity.
  - reflexivity.
  - rewrite length_firstn. lia.
  - reflexivity.
Qed.

(** C10. If [parse_tagged_content] yields no cell, [parse_and_update_cells]
    changes nothing.  If it yields [n >= 1] cells while the placeholder
    index [g] is in range, the cell at [g] is replaced by the parsed cells
    in parse order: cells below [g] stay, cells after [g] move up by
    [n - 1], the cell count changes by [n - 1], and the placeholder index
    becomes [g + n - 1], the position of the last inserted cell. *)
Theorem parse_and_update_cells_replaces_placeholder
    (parse : string -> list NotebookCell) (app : NotebookApp)
    (content : string) :
  (parse content = [] -> parse_and_update_cells parse app content = Ok app)
  /\
  (forall g : Z,
     generating_cell_index app = Some g ->
     (0 <= g < Z.of_nat (length (cells (notebook app))))%Z ->
     parse content <> [] ->
     exists app' : NotebookApp,
       let old := cells (notebook app) in
       let new := cells (notebook app') in
       let parsed := parse content in
       let n := length parsed in
       let k := Z.to_nat g in
       parse_and_update_cells parse app content = Ok app' /\
       new = (firstn k old ++ parsed ++ skipn (S k) old)%list /\
       length new + 1 = length old + n /\
       generating_cell_index app' = Some (g + Z.of_nat n - 1)%Z /\
       (forall i, i < k -> nth_error new i = nth_error old i) /\
       (forall i, i < n -> nth_error new (k + i) = nth_error parsed i) /\
       (forall j, k < j -> nth_error new (j + n - 1) = nth_error old j) /\
       nth_error new (Z.to_nat (g + Z.of_nat n - 1))
       = nth_error parsed (n - 1) /\
       metadata (notebook app') = metadata (notebook app) /\
       derive_mode_in_progress app' = derive_mode_in_progress app).
Proof.
  split.
  - intros Hp. unfold parse_and_update_cells. rewrite Hp. reflexivity.
  - intros g Hg Hr Hne.
    eexists. cbn zeta.
    split; [apply (parse_and_update_cells_cells parse app content g Hg Hr Hne) |].
    cbn [notebook generating_cell_index derive_mode_in_progress
         with_cells cells metadata].
    set (old := cells (notebook app)) in *.
    set (parsed := parse content) in *.
    set (k := Z.to_nat g).
    assert (Hk : k < length old) by (unfold k; lia).
    assert (Hn : 0 < length parsed)
      by (destruct parsed; [congruence | simpl; lia]).
    assert (Hf : length (firstn k old) = k)
      by (rewrite length_firstn; lia).
    repeat split.
    + rewrite !length_app, Hf, length_skipn. lia.
    + f_equal. lia.
    + intros i Hi. rewrite nth_error_app1 by lia.
      rewrite nth_error_firstn.
      apply Nat.ltb_lt in Hi. rewrite Hi. reflexivity.
    + intros i Hi. rewrite nth_error_app2 by lia.
      rewrite Hf. replace (k + i - k) with i by lia.
      apply nth_error_app1. exact Hi.
    + intros j Hj. rewrite nth_error_app2 by lia.
      rewrite nth_error_app2 by lia.
      rewrite Hf, nth_error_skipn. f_equal. lia.
    + replace (Z.to_nat (g + Z.of_nat (length parsed) - 1))
        with (k + (length parsed - 1)) by (unfold k; lia).
      rewrite nth_error_app2 by lia.
      rewrite Hf. replace (k + (length parsed - 1) - k)
        with (length parsed - 1) by lia.
      apply nth_error_app1. lia.
Qed.

Lemma parse_and_update_cells_replaces_placeholder_witness :
  parse_and_update_cells Utils.parse_tagged_content sample_app "<md>"
  = Ok sample_app
  /\
  exists app' : NotebookApp,
    parse_and_update_cells Utils.parse_tagged_content sample_app
      "<md>a</md><code>b</code>" = Ok app' /\
    cells (notebook app')
    = [text_cell "markdown" "# Title"; text_cell "markdown" "a";
       text_cell "code" "b"; text_cell "code" "x = 1"] /\
    generating_cell_index app' = Some 2%Z.
Proof.
  split.
  - apply (proj1 (parse_and_update_cells_replaces_placeholder
                    Utils.parse_tagged_content sample_app "<md>")).
    reflexivity.
  - destruct (proj2 (parse_and_update_cells_replaces_placeholder
                       Utils.parse_tagged_content sample_app
                       "<md>a</md><code>b</code>") 1%Z eq_refl)
      as (app' & Hrun & Hcells & _ & Hidx & _).
    + simpl. lia.
    + discriminate.
    + exists app'. split; [exact Hrun | split; [| exact Hidx]].
      rewrite Hcells. reflexivity.
Defined.

(** ** Searching a string *)

Lemma find_Some (sub : string) :
  forall (s : string) (i : nat),
    Str.find s sub = Some i ->
    Str.startswith (Str.drop i s) sub = true /\
    (forall k, k < i -> Str.startswith (Str.drop k s) sub = false) /\
    i + String.length sub <= String.length s.
Proof.
  assert (Hlen : forall s, Str.startswith s sub = true ->
                           String.length sub <= String.length s).
  { unfold Str.startswith. revert sub. clear.
    induction sub as [|c sub IH]; intros [|d s] H; simpl in *;
      try lia; try discriminate.
    destruct (ascii_dec c d); [|discriminate].
    apply IH in H. lia. }
  induction s as [|c s IH]; intros i H.
  - cbn [Str.find Str.rfind] in H. destruct (Str.startswith "" sub) eqn:E; [|discriminate].
    injection H as <-. repeat split; [exact E | intros k Hk; lia |].
    apply Hlen in E. simpl in *. lia.
  - cbn [Str.find] in H.
    destruct (Str.startswith (String c s) sub) eqn:E.
    + injection H as <-. repeat split; [exact E | intros k Hk; lia |].
      apply Hlen in E. lia.
    + destruct (Str.find s sub) as [j|] eqn:Ej; [|discriminate].
      simpl in H. injection H as <-.
      destruct (IH j eq_refl) as (H1 & H2 & H3).
      repeat split.
      * exact H1.
      * intros [|k] Hk; [exact E | apply H2; lia].
      * simpl. lia.
Qed.

Lemma find_None (sub : string) :
  forall s : string,
    Str.find s sub = None ->
    forall k, Str.startswith (Str.drop k s) sub = false.
Proof.
  induction s as [|c s IH]; intros H k.
  - cbn [Str.find Str.rfind] in H. destruct (Str.startswith "" sub) eqn:E; [discriminate |].
    destruct k; exact E.
  - cbn [Str.find] in H.
    destruct (Str.startswith (String c s) sub) eqn:E; [discriminate |].
    destruct (Str.find s sub) eqn:Ej; [discriminate |].
    destruct k; [exact E | apply IH; reflexivity].
Qed.

Lemma rfind_Some (sub : string) :
  forall (s : string) (j : nat),
    Str.rfind s sub = Some j ->
    Str.startswith (Str.drop j s) sub = true /\
    (forall k, j < k -> k <= String.length s ->
               Str.startswith (Str.drop k s) sub = false).
Proof.
  induction s as [|c s IH]; intros j H.
  - cbn [Str.find Str.rfind] in H. destruct (Str.startswith "" sub) eqn:E; [|discriminate].
    injection H as <-. split; [exact E |]. intros k Hk Hl. simpl in Hl. lia.
  - cbn [Str.rfind] in H. destruct (Str.rfind s sub) as [i|] eqn:Ei.
    + injection H as <-. destruct (IH i eq_refl) as [H1 H2].
      split; [exact H1 |].
      intros [|k] Hk Hl; [lia |]. apply H2; simpl in Hl; lia.
    + destruct (Str.startswith (String c s) sub) eqn:E; [|discriminate].
      injection H as <-. split; [exact E |].
      intros [|k] Hk Hl; [lia |]. simpl.
      clear - Ei Hl. simpl in Hl. apply le_S_n in Hl.
      revert k Hl. induction s as [|d s IHs]; intros k Hl.
      * cbn [Str.rfind] in Ei. destruct (Str.startswith "" sub) eqn:E0; [discriminate |].
        destruct k; exact E0.
      * cbn [Str.rfind] in Ei. destruct (Str.rfind s sub) eqn:Es;
          [discriminate |].
        destruct (Str.startswith (String d s) sub) eqn:E1; [discriminate |].
        destruct k; [exact E1 |]. simpl in *. apply IHs; [reflexivity | lia].
Qed.

(** ** The structure step of derive mode *)

Lemma extract_json_spec (text json_str : string) :
  extract_json text = Some json_str ->
  exists i j : nat,
    Str.find (Str.strip text) "{" = Some i /\
    Str.rfind (Str.strip text) "}" = Some j /\
    i <= j /\
    json_str = Str.slice (Str.strip text) i (S j).
Proof.
  unfold extract_json.
  destruct (Str.find (Str.strip text) "{") as [i|] eqn:Ei;
    destruct (Str.rfind (Str.strip text) "}") as [j|] eqn:Ej;
    cbn [Str.index_Z];
    match goal with
    | |- context [if ?b then _ else _] => destruct b eqn:Eb
    end; try discriminate; try lia.
  intros H. injection H as <-. exists i, j.
  apply andb_true_iff in Eb. destruct Eb as [_ Eb].
  apply Z.ltb_lt in Eb.
  repeat split; [lia |]. f_equal; lia.
Qed.

(** C7. [generate_notebook_structure] takes the text from the first
    opening brace to the last closing brace of the stripped response and
    returns what [json.loads] makes of it when that is a dict with the keys
    [title] and [sections]; in every other case (request failed, no braces,
    text rejected by [json.loads], keys missing) it returns one of the two
    default structures, each with a title and exactly one section.  It
    always returns a structure: no outcome of the request or of
    [json.loads] reaches the caller as an exception. *)
Theorem generate_notebook_structure_recovers
    (loads : string -> result json) (capitalize : string -> string)
    (chat : result string) (prompt : string) :
  let r := generate_notebook_structure loads capitalize chat prompt in
  (forall text json_str structure,
     chat = Ok text ->
     extract_json text = Some json_str ->
     loads json_str = Ok structure ->
     well_formed structure = true ->
     r = structure /\
     exists i j : nat,
       Str.find (Str.strip text) "{" = Some i /\
       Str.rfind (Str.strip text) "}" = Some j /\
       json_str = Str.slice (Str.strip text) i (S j))
  /\
  (~ (exists text json_str structure,
        chat = Ok text /\
        extract_json text = Some json_str /\
        loads json_str = Ok structure /\
        well_formed structure = true) ->
   r = intro_structure capitalize prompt \/
   r = main_structure capitalize prompt)
  /\
  well_formed r = true
  /\
  well_formed (intro_structure capitalize prompt) = true /\
  sections_count (intro_structure capitalize prompt) = Some 1 /\
  well_formed (main_structure capitalize prompt) = true /\
  sections_count (main_structure capitalize prompt) = Some 1.
Proof.
  cbn zeta. split; [|split; [|split]].
  - intros text json_str structure Hc He Hl Hw.
    unfold generate_notebook_structure. rewrite Hc, He, Hl, Hw.
    split; [reflexivity |].
    destruct (extract_json_spec _ _ He) as (i & j & Hi & Hj & _ & Hs).
    exists i, j. auto.
  - intros Hno. unfold generate_notebook_structure.
    destruct chat as [text|e]; [|right; reflexivity].
    destruct (extract_json text) as [json_str|] eqn:He; [|left; reflexivity].
    destruct (loads json_str) as [structure|e] eqn:Hl.
    + destruct (well_formed structure) eqn:Hw; [|left; reflexivity].
      exfalso. apply Hno. exists text, json_str, structure. auto.
    + destruct e; auto.
  - unfold generate_notebook_structure.
    destruct chat as [text|e]; [|reflexivity].
    destruct (extract_json text) as [json_str|]; [|reflexivity].
    destruct (loads json_str) as [structure|e].
    + destruct (well_formed structure) eqn:Hw; [exact Hw | reflexivity].
    + destruct e; reflexivity.
  - repeat split.
Qed.

Lemma generate_notebook_structure_recovers_witness :
  generate_notebook_structure sample_loads (fun s => s)
    (Ok "Here you go: {T} enjoy") "stats"
  = JDict [("title", JStr "T"); ("sections", JList [])]
  /\
  (generate_notebook_structure sample_loads (fun s => s)
     (Ok "no json here") "stats"
   = intro_structure (fun s => s) "stats" \/
   generate_notebook_structure sample_loads (fun s => s)
     (Ok "no json here") "stats"
   = main_structure (fun s => s) "stats").
Proof.
  split.
  - apply (proj1 (generate_notebook_structure_recovers sample_loads
                    (fun s => s) (Ok "Here you go: {T} enjoy") "stats")
             "Here you go: {T} enjoy" "{T}"
             (JDict [("title", JStr "T"); ("sections", JList [])]));
      reflexivity.
  - apply (proj1 (proj2 (generate_notebook_structure_recovers sample_loads
                           (fun s => s) (Ok "no json here") "stats"))).
    intros (text & json_str & structure & Hc & He & _).
    injection Hc as <-. discriminate He.
Defined.

(** ** Loading a document *)

Lemma get_dict (d : list (string * json)) (k : string) (default : json) :
  Py.get (JDict d) k default = Ok (field_or d k default).
Proof.
  unfold Py.get, field_or. destruct (Py.dict_lookup d k); reflexivity.
Qed.

Lemma from_json_data_dict (d : list (string * json)) :
  from_json_data (JDict d)
  = (items <- Py.iterate (field_or d "cells" (JList [])) ;;
     load_cells {| cells := [];
                   metadata := field_or d "metadata" default_metadata |}
                items).
Proof. unfold from_json_data. rewrite !get_dict. reflexivity. Qed.

Lemma cell_of_json_dict (cd : list (string * json)) :
  cell_of_json (JDict cd)
  = Ok {| cell_type := field_or cd "cell_type" (JStr "code");
          source := as_list (field_or cd "source" (JList []));
          outputs := if Py.truthy (field_or cd "outputs" (JList []))
                     then field_or cd "outputs" (JList [])
                     else JList [];
          cell_metadata := field_or cd "metadata" (JDict []) |}.
Proof. unfold cell_of_json. rewrite !get_dict. reflexivity. Qed.

Lemma load_cells_dicts (items : list json) :
  Forall (fun item => is_dict item = true) items ->
  forall doc : NotebookDocument,
  exists cs : list NotebookCell,
    load_cells doc items = Ok (with_cells doc (cells doc ++ cs)%list) /\
    Forall2 (fun item c => cell_of_json item = Ok c) items cs.
Proof.
  induction 1 as [|item items Hd _ IH]; intros doc.
  - exists []. simpl. rewrite app_nil_r, with_cells_same. auto.
  - destruct item; try discriminate.
    cbn [load_cells]. rewrite cell_of_json_dict. cbn [bind].
    set (c := {| cell_type := _ |}).
    destruct (IH (add_cell doc c None)) as (cs & Hl & Hf).
    exists (c :: cs). split.
    + rewrite Hl. unfold add_cell, with_cells. simpl.
      rewrite <- app_assoc. reflexivity.
    + constructor; [apply cell_of_json_dict | exact Hf].
Qed.

(** C3 (counterexample).  The object with none of the four top-level
    fields loads without any failure, as the empty document. *)
Lemma from_json_missing_fields_counterexample :
  Forall (fun k => Py.has_key [] k = false) required_fields /\
  from_json_data (JDict []) = Ok new_document.
Proof.
  split; [repeat constructor | reflexivity].
Qed.

(** C3 (amended).  [from_json] requires no top-level field: on any text
    that [json.loads] turns into an object it reads only [cells] and
    [metadata], an absent [cells] counts as the empty list and an absent
    [metadata] as the default metadata, and the load succeeds whenever the
    entries of [cells] are objects.  A cell object without [cell_type]
    becomes a cell of type [code]. *)
Theorem from_json_defaults (d : list (string * json)) :
  let md := field_or d "metadata" default_metadata in
  (Py.dict_lookup d "cells" = None ->
   from_json_data (JDict d) = Ok {| cells := []; metadata := md |})
  /\
  (forall items : list json,
     Py.iterate (field_or d "cells" (JList [])) = Ok items ->
     Forall (fun item => is_dict item = true) items ->
     exists cs : list NotebookCell,
       from_json_data (JDict d) = Ok {| cells := cs; metadata := md |} /\
       Forall2 (fun item c => cell_of_json item = Ok c) items cs /\
       Forall2 (fun item c => lacks_cell_type item ->
                              cell_type c = JStr "code") items cs)
  /\
  (forall d' : list (string * json),
     Py.dict_lookup d' "cells" = Py.dict_lookup d "cells" ->
     Py.dict_lookup d' "metadata" = Py.dict_lookup d "metadata" ->
     from_json_data (JDict d') = from_json_data (JDict d))
  /\
  (forall (loads : string -> option json) (json_str : string),
     loads json_str = Some (JDict d) ->
     from_json loads json_str = from_json_data (JDict d)).
Proof.
  cbn zeta. split; [|split; [|split]];
    [| | |intros loads json_str Hl; unfold from_json; rewrite Hl;
          reflexivity].
  - intros Hc. rewrite from_json_data_dict. unfold field_or at 1.
    rewrite Hc. reflexivity.
  - intros items Hi Hd. rewrite from_json_data_dict, Hi. cbn [bind].
    destruct (load_cells_dicts items Hd
                {| cells := [];
                   metadata := field_or d "metadata" default_metadata |})
      as (cs & Hl & Hf).
    exists cs. split; [exact Hl | split; [exact Hf |]].
    clear Hl Hi. induction Hf as [|item c items cs Hc _ IH];
      constructor.
    + destruct item; try contradiction. intros Hlack.
      rewrite cell_of_json_dict in Hc. injection Hc as <-.
      cbn [cell_type]. unfold field_or. simpl in Hlack.
      rewrite Hlack. reflexivity.
    + apply IH. inversion Hd; assumption.
  - intros d' Hc Hm. rewrite !from_json_data_dict. unfold field_or.
    rewrite Hc, Hm. reflexivity.
Qed.

Lemma from_json_defaults_witness :
  from_json_data (JDict [("nbformat", JInt 4)])
  = Ok {| cells := []; metadata := default_metadata |}
  /\
  exists cs : list NotebookCell,
    from_json_data (JDict [("cells", JList [JDict [("source", JStr "x")]])])
    = Ok {| cells := cs; metadata := default_metadata |} /\
    Forall2 (fun item c => lacks_cell_type item -> cell_type c = JStr "code")
            [JDict [("source", JStr "x")]] cs.
Proof.
  split.
  - apply (proj1 (from_json_defaults [("nbformat", JInt 4)])). reflexivity.
  - destruct (proj1 (proj2 (from_json_defaults
                 [("cells", JList [JDict [("source", JStr "x")]])]))
                [JDict [("source", JStr "x")]] eq_refl)
      as (cs & Hl & _ & Hc).
    + repeat constructor.
    + exists cs. split; [exact Hl | exact Hc].
Defined.

(** ** Outputs of markdown cells *)

Lemma Forall_firstn_keep {A : Type} (P : A -> Prop) (n : nat) (l : list A) :
  Forall P l -> Forall P (firstn n l).
Proof.
  revert n. induction l as [|x l IH]; intros [|n] H; simpl; auto.
  inversion H; subst. constructor; auto.
Qed.

Lemma Forall_skipn_keep {A : Type} (P : A -> Prop) (n : nat) (l : list A) :
  Forall P l -> Forall P (skipn n l).
Proof.
  revert n. induction l as [|x l IH]; intros [|n] H; simpl; auto.
  inversion H; subst. auto.
Qed.

Lemma fold_left_keeps {A B : Type} (f : A -> B -> A) (P : A -> Prop) :
  (forall a b, P a -> P (f a b)) ->
  forall (l : list B) (a : A), P a -> P (fold_left f l a).
Proof.
  intros Hf. induction l as [|b l IH]; intros a Ha; simpl; auto.
Qed.

Lemma text_cell_outputs (ty text : string) :
  outputs (text_cell ty text) = JList [].
Proof. reflexivity. Qed.

Lemma utils_parse_outputs (content : string) :
  Forall (fun c => outputs c = JList []) (Utils.parse_tagged_content content).
Proof.
  unfold Utils.parse_tagged_content, Utils.md_cells, Utils.code_cells.
  apply Forall_app. split; apply Forall_map, Forall_forall; reflexivity.
Qed.

Lemma v1_flush_outputs (st : V1.scan) :
  Forall (fun c => outputs c = JList []) (V1.out st) ->
  Forall (fun c => outputs c = JList []) (V1.flush st).
Proof.
  intros H. unfold V1.flush.
  destruct (V1.current_type st); [|exact H].
  destruct (V1.current_content st); [exact H |].
  apply Forall_app. split; [exact H | repeat constructor].
Qed.

Lemma v1_parse_outputs (content : string) :
  Forall (fun c => outputs c = JList []) (V1.parse_tagged_content content).
Proof.
  unfold V1.parse_tagged_content.
  destruct (Str.contains content "<md>" || Str.contains content "<code>").
  - unfold V1.tagged_cells. apply v1_flush_outputs.
    apply fold_left_keeps with
      (P := fun st => Forall (fun c => outputs c = JList []) (V1.out st));
      [|constructor].
    intros st part H. unfold V1.tagged_step.
    repeat match goal with
           | |- context [if ?b then _ else _] => destruct b
           | |- context [match V1.current_type ?s with _ => _ end] =>
               destruct (V1.current_type s) eqn:?
           end; cbn [V1.out]; auto using v1_flush_outputs.
  - unfold V1.fallback_cells.
    apply fold_left_keeps with
      (P := Forall (fun c => outputs c = JList [])); [|constructor].
    intros acc part H. unfold V1.fallback_step.
    repeat match goal with
           | |- context [if ?b then _ else _] => destruct b
           end; auto; apply Forall_app; split; auto; repeat constructor.
Qed.

Lemma list_update_Forall {A : Type} (P : A -> Prop) (f : A -> A) :
  (forall x, P x -> P (f x)) ->
  forall (l : list A) (i : nat), Forall P l -> Forall P (list_update i f l).
Proof.
  intros Hf. induction l as [|x l IH]; intros [|i] H; simpl; auto;
    inversion H; subst; constructor; auto.
Qed.

(** C9 (counterexample).  Loading a notebook whose markdown cell has an
    [outputs] array yields a markdown cell that carries those outputs. *)
Lemma from_json_markdown_outputs_counterexample :
  exists c : NotebookCell,
    from_json_data notebook_with_markdown_outputs
    = Ok {| cells := [c]; metadata := JDict [] |} /\
    is_markdown c = true /\
    outputs c = JList [stream_output] /\
    ~ markdown_without_outputs [c].
Proof.
  eexists. split; [reflexivity |]. split; [reflexivity |].
  split; [reflexivity |].
  intros H. inversion H as [|c cs Hc _]; subst.
  specialize (Hc eq_refl). discriminate Hc.
Qed.

(** C9 (amended).  [to_dict] of a markdown cell has the three keys
    [cell_type], [metadata], [source] and neither [outputs] nor
    [execution_count].  Cells built by [parse_tagged_content] (both
    variants) have empty outputs, and [add_cell] of a cell without
    outputs, [update_cell] and [delete_cell] keep the property that no
    markdown cell carries outputs.  [from_json] copies any non-empty
    [outputs] of a cell object into the cell, whatever its type. *)
Theorem markdown_outputs_never_serialized :
  (forall c : NotebookCell,
     is_markdown c = true ->
     cell_to_dict c = JDict [("cell_type", cell_type c);
                             ("metadata", cell_metadata c);
                             ("source", JList (source c))])
  /\
  (forall content : string,
     Forall (fun c => outputs c = JList [])
            (Utils.parse_tagged_content content) /\
     Forall (fun c => outputs c = JList [])
            (V1.parse_tagged_content content))
  /\
  (forall (doc : NotebookDocument) (cell : NotebookCell) (index : option Z)
          (i : Z) (content : json),
     markdown_without_outputs (cells doc) ->
     (outputs cell = JList [] ->
      markdown_without_outputs (cells (add_cell doc cell index))) /\
     markdown_without_outputs (cells (fst (update_cell doc i content))) /\
     markdown_without_outputs (cells (fst (delete_cell doc i))))
  /\
  (forall (cd : list (string * json)) (outs : json),
     Py.dict_lookup cd "outputs" = Some outs ->
     Py.truthy outs = true ->
     exists c : NotebookCell,
       cell_of_json (JDict cd) = Ok c /\ outputs c = outs).
Proof.
  split; [|split; [|split]].
  - intros c Hm. unfold cell_to_dict, is_markdown in *.
    destruct (cell_type c) as [| | |s| |]; try discriminate.
    simpl in Hm. apply String.eqb_eq in Hm. subst s. reflexivity.
  - intros content. split; [apply utils_parse_outputs | apply v1_parse_outputs].
  - intros doc cell index i content H. unfold markdown_without_outputs in *.
    split; [|split].
    + intros Hc. unfold add_cell.
      assert (Happ : Forall (fun c => is_markdown c = true ->
                                      outputs c = JList [])
                            (cells doc ++ [cell])%list)
        by (apply Forall_app; split; [exact H | repeat constructor; auto]).
      destruct index as [j|]; [|exact Happ].
      destruct (in_range j (cells doc)); [|exact Happ].
      cbn [with_cells cells]. unfold list_insert. apply Forall_app. split.
      * apply Forall_firstn_keep, H.
      * constructor; [auto | apply Forall_skipn_keep, H].
    + unfold update_cell. destruct (in_range i (cells doc)); [|exact H].
      cbn [fst with_cells cells]. apply list_update_Forall; [|exact H].
      intros c Hc. exact Hc.
    + unfold delete_cell. destruct (in_range i (cells doc)); [|exact H].
      cbn [fst with_cells cells]. unfold list_del. apply Forall_app. split.
      * apply Forall_firstn_keep, H.
      * apply Forall_skipn_keep, H.
  - intros cd outs Hl Ht. eexists. split; [apply cell_of_json_dict |].
    cbn [outputs]. unfold field_or. rewrite Hl, Ht. reflexivity.
Qed.

Lemma markdown_outputs_never_serialized_witness :
  cell_to_dict (text_cell "markdown" "# Title")
  = JDict [("cell_type", JStr "markdown");
           ("metadata", JDict []);
           ("source", JList [JStr "# Title"])]
  /\
  markdown_without_outputs
    (cells (add_cell sample_doc (text_cell "markdown" "note") (Some 0%Z)))
  /\
  exists c : NotebookCell,
    cell_of_json markdown_cell_with_outputs = Ok c /\
    outputs c = JList [stream_output].
Proof.
  destruct markdown_outputs_never_serialized as (Hd & _ & Hops & Hload).
  split; [|split].
  - apply (Hd (text_cell "markdown" "# Title")). reflexivity.
  - apply (Hops sample_doc (text_cell "markdown" "note") (Some 0%Z)
             0%Z JNull).
    + repeat constructor.
    + reflexivity.
  - apply (Hload _ (JList [stream_output])); reflexivity.
Defined.

(** ** Serialized view and context view *)

Lemma rstrip_empty (s : string) :
  Str.rstrip s = "" <-> blank s = true.
Proof.
  unfold blank. induction s as [|c s IH]; simpl; [tauto |].
  destruct (Str.rstrip s) eqn:E.
  - destruct (Str.isspace c); simpl.
    + rewrite <- IH. tauto.
    + split; discriminate.
  - split; [discriminate |]. intros H. apply andb_true_iff in H.
    destruct H as [_ H]. apply IH in H. discriminate H.
Qed.

Lemma lstrip_blank (s : string) :
  blank (Str.lstrip s) = blank s.
Proof.
  unfold blank. induction s as [|c s IH]; simpl; [reflexivity |].
  destruct (Str.isspace c) eqn:E; simpl; [exact IH |].
  rewrite E. reflexivity.
Qed.

Lemma strip_empty (s : string) :
  String.eqb (Str.strip s) "" = blank s.
Proof.
  unfold Str.strip. rewrite <- (lstrip_blank s).
  destruct (blank (Str.lstrip s)) eqn:E.
  - apply rstrip_empty in E. rewrite E. reflexivity.
  - apply String.eqb_neq. intros H. apply rstrip_empty in H. congruence.
Qed.

Lemma blank_app (a b : string) :
  blank (a ++ b) = blank a && blank b.
Proof.
  unfold blank. induction a as [|c a IH]; simpl; [reflexivity |].
  rewrite IH. apply andb_assoc.
Qed.

Lemma any_strip_str (src : list json) :
  Forall (fun x => exists s, x = JStr s) src ->
  Utils.any_strip src = Ok (negb (blank (concat_source src))).
Proof.
  induction 1 as [|x src [s ->] _ IH]; [reflexivity |].
  cbn [Utils.any_strip concat_source]. rewrite strip_empty, blank_app.
  destruct (blank s); simpl; [exact IH | reflexivity].
Qed.

Lemma keeps_str (c : NotebookCell) :
  str_source c -> Utils.keeps c = Ok (negb (blank (source_text c))).
Proof.
  intros H. unfold Utils.keeps, source_text, str_source in *.
  destruct (source c) eqn:E; [reflexivity |].
  apply any_strip_str. exact H.
Qed.

Lemma dict_cells_str (cs : list NotebookCell) :
  Forall str_source cs ->
  Utils.dict_cells cs
  = Ok (map cell_to_dict
          (filter (fun c => negb (blank (source_text c))) cs)).
Proof.
  induction 1 as [|c cs Hc _ IH]; [reflexivity |].
  cbn [Utils.dict_cells filter]. rewrite (keeps_str c Hc), IH. cbn [bind].
  destruct (negb (blank (source_text c))); reflexivity.
Qed.

Lemma join_empty_str (src : list json) :
  Forall (fun x => exists s, x = JStr s) src ->
  Py.join_empty src = Ok (concat_source src).
Proof.
  induction 1 as [|x src [s ->] _ IH]; [reflexivity |].
  cbn [Py.join_empty concat_source]. rewrite IH. reflexivity.
Qed.

Lemma plain_entries_str (cs : list NotebookCell) :
  Forall str_source cs ->
  forall i : nat, plain_entries i cs = Ok (entries_from i cs).
Proof.
  induction 1 as [|c cs Hc _ IH]; intros i; [reflexivity |].
  cbn [plain_entries entries_from]. unfold plain_entry.
  rewrite (join_empty_str _ Hc). cbn [bind]. rewrite IH. reflexivity.
Qed.

Lemma length_entries_from (cs : list NotebookCell) :
  forall i : nat, length (entries_from i cs) = length cs.
Proof.
  induction cs as [|c cs IH]; intros i; simpl; [reflexivity |].
  rewrite IH. reflexivity.
Qed.

(** C4 (counterexample).  [to_dict] of [NeuralNotebook_V1.py] emits the
    cell with empty source along with the other one. *)
Lemma v1_to_dict_keeps_empty_counterexample :
  exists d : json,
    V1.to_dict draft_doc = Ok d /\
    emitted_cells d
    = Some [cell_to_dict (text_cell "code" "");
            cell_to_dict (text_cell "markdown" "# Title")] /\
    blank (source_text (text_cell "code" "")) = true.
Proof.
  eexists. split; [reflexivity |]. split; reflexivity.
Qed.

(** C4 (amended).  On a document whose sources are strings, [to_dict] of
    [notebook_utils.py] emits exactly the cells whose concatenated source
    is not blank, in order, while [to_dict] of [NeuralNotebook_V1.py] emits
    every cell; [to_plain_text] (the same in both files) renders one
    numbered entry per cell, blank or not.  On the document with one empty
    cell and one cell with text, [notebook_utils.to_dict] emits one cell
    and [to_plain_text] two entries. *)
Theorem to_dict_filters_to_plain_text_keeps (doc : NotebookDocument) :
  Forall str_source (cells doc) ->
  (exists d : json,
     Utils.to_dict doc = Ok d /\
     emitted_cells d
     = Some (map cell_to_dict
               (filter (fun c => negb (blank (source_text c)))
                       (cells doc))))
  /\
  (exists d : json,
     V1.to_dict doc = Ok d /\
     emitted_cells d = Some (map cell_to_dict (cells doc)))
  /\
  to_plain_text doc
  = Ok (plain_header ++ String.concat "" (entries_from 0 (cells doc)))
  /\
  length (entries_from 0 (cells doc)) = length (cells doc).
Proof.
  intros H. split; [|split; [|split]].
  - unfold Utils.to_dict. rewrite (dict_cells_str _ H). cbn [bind].
    eexists. split; reflexivity.
  - unfold V1.to_dict. eexists. split; reflexivity.
  - unfold to_plain_text. rewrite (plain_entries_str _ H). reflexivity.
  - apply length_entries_from.
Qed.

Lemma to_dict_filters_to_plain_text_keeps_witness :
  (exists d : json,
     Utils.to_dict draft_doc = Ok d /\
     emitted_cells d = Some [cell_to_dict (text_cell "markdown" "# Title")])
  /\
  to_plain_text draft_doc
  = Ok (plain_header
        ++ "## Cell 1 (code):" ++ nl ++ nl ++ nl
        ++ "## Cell 2 (markdown):" ++ nl ++ "# Title" ++ nl ++ nl).
Proof.
  assert (Hs : Forall str_source (cells draft_doc)).
  { repeat constructor; eexists; reflexivity. }
  destruct (to_dict_filters_to_plain_text_keeps draft_doc Hs)
    as ((d & Hd & He) & _ & Hp & _).
  split.
  - exists d. split; [exact Hd | rewrite He; reflexivity].
  - rewrite Hp. reflexivity.
Defined.

(** ** The tagged-content parser *)

Lemma append_assoc (a b c : string) : (a ++ b) ++ c = a ++ (b ++ c).
Proof. induction a as [|x a IH]; simpl; [reflexivity | rewrite IH; reflexivity]. Qed.

Lemma append_nil_r (a : string) : a ++ "" = a.
Proof. induction a as [|x a IH]; simpl; [reflexivity | rewrite IH; reflexivity]. Qed.

Lemma take_drop (n : nat) (s : string) : Str.take n s ++ Str.drop n s = s.
Proof.
  revert n. induction s as [|c s IH]; intros [|n]; simpl; try reflexivity.
  rewrite IH. reflexivity.
Qed.

Lemma startswith_app (p : string) :
  forall s : string,
    Str.startswith s p = true -> s = p ++ Str.drop (String.length p) s.
Proof.
  unfold Str.startswith. induction p as [|c p IH]; intros [|d s] H;
    simpl in *; try reflexivity; try discriminate.
  destruct (ascii_dec c d) as [->|]; [|discriminate].
  f_equal. apply IH. exact H.
Qed.

Lemma startswith_self (p b : string) : Str.startswith (p ++ b) p = true.
Proof.
  unfold Str.startswith. induction p as [|c p IH]; simpl.
  - destruct b; reflexivity.
  - destruct (ascii_dec c c); [exact IH | congruence].
Qed.

Lemma drop_app (a b : string) : Str.drop (String.length a) (a ++ b) = b.
Proof. induction a as [|c a IH]; simpl; [destruct b; reflexivity | exact IH]. Qed.

Lemma occurs_trans (x t s : string) : occurs x t -> occurs t s -> occurs x s.
Proof.
  intros (a & b & ->) (a' & b' & ->).
  exists (a' ++ a), (b ++ b'). rewrite !append_assoc. reflexivity.
Qed.

Lemma occurs_contains (sub s : string) :
  occurs sub s -> Str.contains s sub = true.
Proof.
  intros (a & b & ->). unfold Str.contains.
  destruct (Str.find (a ++ sub ++ b) sub) eqn:E; [reflexivity |].
  pose proof (find_None sub _ E (String.length a)) as H.
  rewrite drop_app, startswith_self in H. discriminate H.
Qed.

Lemma lstrip_occurs (s : string) : occurs (Str.lstrip s) s.
Proof.
  induction s as [|c s IH]; simpl.
  - exists "", "". reflexivity.
  - destruct (Str.isspace c).
    + destruct IH as (a & b & H). exists (String c a), b.
      simpl. rewrite <- H. reflexivity.
    + exists "", "". simpl. rewrite append_nil_r. reflexivity.
Qed.

Lemma rstrip_occurs (s : string) : occurs (Str.rstrip s) s.
Proof.
  assert (H : exists b, s = Str.rstrip s ++ b).
  { induction s as [|c s [b IH]]; simpl; [exists ""; reflexivity |].
    destruct (Str.rstrip s) eqn:E.
    - destruct (Str.isspace c).
      + exists (String c s). reflexivity.
      + exists b. simpl. simpl in IH. rewrite <- IH. reflexivity.
    - exists b. simpl. simpl in IH. rewrite <- IH. reflexivity. }
  destruct H as [b H]. exists "", b. exact H.
Qed.

Lemma strip_occurs (s : string) : occurs (Str.strip s) s.
Proof.
  unfold Str.strip.
  apply occurs_trans with (t := Str.lstrip s);
    [apply rstrip_occurs | apply lstrip_occurs].
Qed.

Lemma take_occurs (n : nat) (s : string) : occurs (Str.take n s) s.
Proof.
  exists "", (Str.drop n s). simpl. symmetry. apply take_drop.
Qed.

Lemma drop_occurs (n : nat) (s : string) : occurs (Str.drop n s) s.
Proof.
  exists (Str.take n s), "". rewrite append_nil_r. symmetry. apply take_drop.
Qed.

Lemma clean_occurs (content : string) : occurs (Utils.clean content) content.
Proof.
  unfold Utils.clean.
  destruct (Str.contains (Str.strip content) "<version_complete>").
  - apply occurs_trans with (t := Str.strip content); [|apply strip_occurs].
    apply occurs_trans
      with (t := Str.split_head (Str.strip content) "<version_complete>");
      [apply strip_occurs |].
    unfold Str.split_head.
    destruct (Str.find (Str.strip content) "<version_complete>").
    + apply take_occurs.
    + exists "", "". simpl. rewrite append_nil_r. reflexivity.
  - apply strip_occurs.
Qed.

(** Every group reported by [finditer] is the group of a match of the
    pattern at some position of the text. *)
Lemma finditer_from_origin (m : string -> option (nat * string)) (g : string) :
  forall (s : string) (skip : nat),
    In g (Re.finditer_from m s skip) ->
    exists (k len : nat), m (Str.drop k s) = Some (len, g).
Proof.
  induction s as [|c s IH]; intros skip H.
  - destruct skip; simpl in H; [|contradiction].
    destruct (m "") as [[len g']|] eqn:E; [|contradiction].
    destruct H as [<-|[]]. exists 0, len. exact E.
  - destruct skip as [|skip]; cbn [Re.finditer_from] in H.
    + destruct (m (String c s)) as [[len g']|] eqn:E.
      * destruct H as [<-|H]; [exists 0, len; exact E |].
        destruct (IH _ H) as (k & l & Hk). exists (S k), l. exact Hk.
      * destruct (IH _ H) as (k & l & Hk). exists (S k), l. exact Hk.
    + destruct (IH _ H) as (k & l & Hk). exists (S k), l. exact Hk.
Qed.

Lemma region_occurs (open close s g : string) (len : nat) :
  close <> "" ->
  Re.region open close s = Some (len, g) ->
  occurs (open ++ g ++ close) s /\ Str.contains g close = false.
Proof.
  intros Hne. unfold Re.region. destruct (Str.startswith s open) eqn:Eo; [|discriminate].
  destruct (Str.find (Str.drop (String.length open) s) close) as [j|] eqn:Ej;
    [|discriminate].
  intros H. injection H as _ <-.
  destruct (find_Some close _ _ Ej) as (Hc & Hfirst & Hlen).
  split.
  - apply startswith_app in Eo. apply startswith_app in Hc.
    set (rest := Str.drop (String.length open) s) in *.
    exists "", (Str.drop (String.length close) (Str.drop j rest)).
    cbn [append]. rewrite !append_assoc, <- Hc, take_drop. exact Eo.
  - set (rest := Str.drop (String.length open) s) in *.
    unfold Str.contains.
    destruct (Str.find (Str.take j rest) close) as [i|] eqn:Ei;
      [|reflexivity].
    exfalso. destruct (find_Some close _ _ Ei) as (Hi & _ & Hil).
    assert (Htl : String.length (Str.take j rest) <= j).
    { clear. revert j. induction rest as [|c r IH]; intros [|j]; simpl;
        try lia. specialize (IH j). lia. }
    destruct (Nat.eq_dec (String.length close) 0) as [Hz|Hz].
    + destruct close; [congruence | discriminate].
    + assert (Hij : i < j) by lia.
      specialize (Hfirst i Hij).
      apply startswith_app in Hi.
      assert (Hd : Str.drop i rest
                   = Str.drop i (Str.take j rest) ++ Str.drop j rest).
      { clear - Hij Htl Hil Hz. revert i j Hij Htl Hil.
        induction rest as [|c r IH]; intros i j Hij Htl Hil.
        - destruct j; simpl in *; lia.
        - destruct j as [|j]; [lia |]. destruct i as [|i]; simpl.
          + rewrite take_drop. reflexivity.
          + simpl in Htl, Hil. apply IH; lia. }
      rewrite Hd, Hi, append_assoc, startswith_self in Hfirst.
      discriminate Hfirst.
Qed.

Lemma occurs_prefix_part (a b s : string) : occurs (a ++ b) s -> occurs a s.
Proof.
  intros (x & y & ->). exists x, (b ++ y). rewrite append_assoc. reflexivity.
Qed.

Lemma occurs_suffix_part (a b s : string) : occurs (a ++ b) s -> occurs b s.
Proof.
  intros (x & y & ->). exists (x ++ a), y. rewrite !append_assoc. reflexivity.
Qed.

(** Every cell of the [notebook_utils] parser is the body of a complete
    region of the input. *)
Lemma utils_cells_complete (content : string) (c : NotebookCell) :
  In c (Utils.parse_tagged_content content) ->
  (exists body : string,
     occurs ("<md>" ++ body ++ "</md>") content /\
     Str.contains body "</md>" = false /\
     c = text_cell "markdown" (Str.strip body))
  \/
  (exists body : string,
     occurs ("<code>" ++ body ++ "</code>") content /\
     Str.contains body "</code>" = false /\
     c = text_cell "code" (Re.erase Utils.fence_marker (Str.strip body))).
Proof.
  unfold Utils.parse_tagged_content, Utils.md_cells, Utils.code_cells.
  intros H. apply in_app_or in H. destruct H as [H|H];
    apply in_map_iff in H; destruct H as (body & <- & H);
    apply finditer_from_origin in H; destruct H as (k & len & H);
    apply region_occurs in H; try discriminate; destruct H as [Ho Hc];
    [left | right]; exists body; (split; [|split; [exact Hc | reflexivity]]);
    (eapply occurs_trans; [exact Ho |]);
    (eapply occurs_trans; [apply drop_occurs | apply clean_occurs]).
Qed.

Lemma no_cells {A : Type} (l : list A) : (forall x, ~ In x l) -> l = [].
Proof.
  destruct l as [|x l]; [reflexivity |]. intros H.
  exfalso. apply (H x). left. reflexivity.
Qed.

Lemma utils_no_closing_tag (content : string) :
  Str.contains content "</md>" = false ->
  Str.contains content "</code>" = false ->
  Utils.parse_tagged_content content = [].
Proof.
  intros Hm Hc. apply no_cells. intros c H.
  apply utils_cells_complete in H.
  destruct H as [(body & Ho & _)|(body & Ho & _)].
  - apply occurs_suffix_part, occurs_suffix_part, occurs_contains in Ho.
    congruence.
  - apply occurs_suffix_part, occurs_suffix_part, occurs_contains in Ho.
    congruence.
Qed.

Lemma utils_no_opening_tag (content : string) :
  Str.contains content "<md>" = false ->
  Str.contains content "<code>" = false ->
  Utils.parse_tagged_content content = [].
Proof.
  intros Hm Hc. apply no_cells. intros c H.
  apply utils_cells_complete in H.
  destruct H as [(body & Ho & _)|(body & Ho & _)].
  - apply occurs_prefix_part, occurs_contains in Ho. congruence.
  - apply occurs_prefix_part, occurs_contains in Ho. congruence.
Qed.

(** *** Texts that end in an open region *)

Lemma length_drop (n : nat) (s : string) :
  String.length (Str.drop n s) = String.length s - n.
Proof.
  revert n. induction s as [|c s IH]; intros [|n]; simpl; auto.
Qed.

Lemma length_append (a b : string) :
  String.length (a ++ b) = String.length a + String.length b.
Proof. induction a as [|c a IH]; simpl; [reflexivity | rewrite IH; reflexivity]. Qed.

Lemma drop_drop (n k : nat) (s : string) :
  Str.drop k (Str.drop n s) = Str.drop (n + k) s.
Proof.
  revert n. induction s as [|c s IH]; intros [|n]; simpl; auto.
  - destruct k; reflexivity.
Qed.

Lemma drop_app_le (k : nat) (a t : string) :
  k <= String.length a -> Str.drop k (a ++ t) = Str.drop k a ++ t.
Proof.
  revert k. induction a as [|c a IH]; intros [|k] H; simpl in *;
    try reflexivity; try lia.
  apply IH. lia.
Qed.

Lemma drop_app_ge (k : nat) (a t : string) :
  String.length a <= k ->
  Str.drop k (a ++ t) = Str.drop (k - String.length a) t.
Proof.
  revert k. induction a as [|c a IH]; intros k H; simpl in *.
  - rewrite Nat.sub_0_r. reflexivity.
  - destruct k as [|k]; [lia |]. simpl. apply IH. lia.
Qed.

Lemma take_app_le (j : nat) (a t : string) :
  j <= String.length a -> Str.take j (a ++ t) = Str.take j a.
Proof.
  revert j. induction a as [|c a IH]; intros [|j] H; simpl in *.
  - destruct t; reflexivity.
  - lia.
  - reflexivity.
  - rewrite IH by lia. reflexivity.
Qed.

Lemma startswith_length (p s : string) :
  Str.startswith s p = true -> String.length p <= String.length s.
Proof.
  unfold Str.startswith. revert s.
  induction p as [|c p IH]; intros [|d s] H; simpl in *;
    try lia; try discriminate.
  destruct (ascii_dec c d); [|discriminate]. apply IH in H. lia.
Qed.

Lemma startswith_extend (p a t : string) :
  Str.startswith a p = true -> Str.startswith (a ++ t) p = true.
Proof.
  unfold Str.startswith. revert a.
  induction p as [|c p IH]; intros [|d a] H; simpl in *;
    try discriminate; try (destruct t; reflexivity); try reflexivity.
  destruct (ascii_dec c d); [apply IH; exact H | discriminate].
Qed.

Lemma startswith_restrict (p a t : string) :
  Str.startswith (a ++ t) p = true ->
  String.length p <= String.length a ->
  Str.startswith a p = true.
Proof.
  unfold Str.startswith. revert a.
  induction p as [|c p IH]; intros [|d a] H Hl; simpl in *;
    try reflexivity; try lia.
  destruct (ascii_dec c d); [apply IH; [exact H | lia] | discriminate].
Qed.

Lemma startswith_straddle (p q t : string) :
  Str.startswith (q ++ t) p = true ->
  String.length q <= String.length p ->
  Str.startswith t (Str.drop (String.length q) p) = true.
Proof.
  unfold Str.startswith. revert p.
  induction q as [|d q IH]; intros p H Hl; simpl in *.
  - destruct p; exact H.
  - destruct p as [|c p]; simpl in *; [lia |].
    destruct (ascii_dec c d); [apply IH; [exact H | lia] | discriminate].
Qed.

Lemma find_absent (sub : string) :
  forall s : string,
    (forall k, Str.startswith (Str.drop k s) sub = false) ->
    Str.find s sub = None.
Proof.
  induction s as [|c s IH]; intros H;
    pose proof (H 0) as H0; cbn [Str.drop] in H0; cbn [Str.find]; rewrite H0.
  - reflexivity.
  - rewrite IH; [reflexivity |]. intros k. apply (H (S k)).
Qed.

Lemma confined_tail (sub : string) (c : ascii) (a t : string) :
  confined sub (String c a) t -> confined sub a t.
Proof.
  intros H k Hk. specialize (H (S k) Hk). simpl in H. lia.
Qed.

Lemma confined_drop (sub : string) (n : nat) (a t : string) :
  n <= String.length a ->
  confined sub a t -> confined sub (Str.drop n a) t.
Proof.
  intros Hn H k Hk. rewrite <- drop_app_le in Hk by exact Hn.
  rewrite drop_drop in Hk. apply H in Hk. rewrite length_drop. lia.
Qed.

Lemma find_confined (sub a t : string) :
  sub <> "" -> confined sub a t -> Str.find (a ++ t) sub = Str.find a sub.
Proof.
  intros Hne. induction a as [|c a IH]; intros H.
  - simpl. rewrite find_absent.
    + cbn [Str.find]. destruct sub; [congruence | reflexivity].
    + intros k. destruct (Str.startswith (Str.drop k t) sub) eqn:E;
        [|reflexivity].
      apply (H k) in E. destruct sub; [congruence | simpl in E; lia].
  - cbn [append Str.find].
    assert (Hs : Str.startswith (String c (a ++ t)) sub
                 = Str.startswith (String c a) sub).
    { destruct (Str.startswith (String c (a ++ t)) sub) eqn:E.
      - symmetry. apply (startswith_restrict sub (String c a) t E).
        apply (H 0) in E. simpl in E. simpl. lia.
      - destruct (Str.startswith (String c a) sub) eqn:E'; [|reflexivity].
        apply (startswith_extend sub (String c a) t) in E'.
        cbn [append] in E'. congruence. }
    rewrite Hs, IH; [reflexivity | eapply confined_tail; exact H].
Qed.

Lemma region_confined (open close a t : string) :
  close <> "" -> confined close a t ->
  Re.region open close (a ++ t) = Re.region open close a.
Proof.
  intros Hne H. unfold Re.region.
  destruct (Str.startswith a open) eqn:Ea.
  - rewrite (startswith_extend open a t Ea).
    pose proof (startswith_length _ _ Ea) as Hl.
    rewrite drop_app_le by exact Hl.
    rewrite find_confined by (auto using confined_drop).
    destruct (Str.find (Str.drop (String.length open) a) close) as [j|] eqn:Ej;
      [|reflexivity].
    apply find_Some in Ej. destruct Ej as (_ & _ & Hj).
    rewrite take_app_le by lia. reflexivity.
  - destruct (Str.startswith (a ++ t) open) eqn:Eat; [|reflexivity].
    assert (Hlt : String.length a < String.length open).
    { destruct (Nat.le_gt_cases (String.length open) (String.length a))
        as [Hle|Hgt]; [|exact Hgt].
      rewrite (startswith_restrict open a t Eat Hle) in Ea. discriminate. }
    rewrite find_absent; [reflexivity |].
    intros k. rewrite drop_drop.
    destruct (Str.startswith (Str.drop (String.length open + k) (a ++ t)) close)
      eqn:E; [|reflexivity].
    apply H in E. lia.
Qed.

Lemma finditer_confined (open close : string) :
  close <> "" ->
  forall (a t : string) (skip : nat),
    confined close a t ->
    Re.finditer_from (Re.region open close) (a ++ t) skip
    = Re.finditer_from (Re.region open close) a skip.
Proof.
  intros Hne. induction a as [|c a IH]; intros t skip H.
  - assert (Hnone : forall x, (forall k, Str.startswith (Str.drop k x) close = false) ->
                              Re.region open close x = None).
    { intros x Hx. unfold Re.region.
      destruct (Str.startswith x open); [|reflexivity].
      rewrite find_absent; [reflexivity |].
      intros k. rewrite drop_drop. apply Hx. }
    assert (Ht : forall k, Str.startswith (Str.drop k t) close = false).
    { intros k. destruct (Str.startswith (Str.drop k t) close) eqn:E;
        [|reflexivity].
      apply (H k) in E. destruct close; [congruence | simpl in E; lia]. }
    cbn [append].
    assert (Hall : forall x skip,
               (forall k, Str.startswith (Str.drop k x) close = false) ->
               Re.finditer_from (Re.region open close) x skip = []).
    { induction x as [|d x IHx]; intros sk Hx.
      - destruct sk; simpl; [rewrite (Hnone "" Hx) |]; reflexivity.
      - destruct sk; cbn [Re.finditer_from].
        + rewrite (Hnone _ Hx). apply IHx. intros k. apply (Hx (S k)).
        + apply IHx. intros k. apply (Hx (S k)). }
    rewrite (Hall t skip Ht). symmetry. apply Hall.
    intros k. destruct k; simpl; unfold Str.startswith;
      destruct close; simpl; congruence.
  - destruct skip as [|skip]; cbn [append Re.finditer_from].
    + change (String c (a ++ t)) with (String c a ++ t).
      rewrite (region_confined open close (String c a) t Hne H).
      destruct (Re.region open close (String c a)) as [[len g]|];
        rewrite IH by (eapply confined_tail; exact H); reflexivity.
    + apply IH. eapply confined_tail; exact H.
Qed.

Lemma confined_intro (sub t : string) :
  (forall j, Str.startswith (Str.drop j t) sub = false) ->
  (forall n, 0 < n < String.length sub ->
             Str.startswith t (Str.drop n sub) = false) ->
  forall a : string, confined sub a t.
Proof.
  intros H1 H2 a k Hk.
  destruct (Nat.le_gt_cases (String.length a) k) as [Hge|Hlt].
  - rewrite drop_app_ge in Hk by exact Hge. rewrite H1 in Hk. discriminate.
  - rewrite drop_app_le in Hk by lia.
    destruct (Nat.le_gt_cases (k + String.length sub) (String.length a))
      as [Hok|Hbad]; [exact Hok |].
    apply startswith_straddle in Hk; [|rewrite length_drop; lia].
    rewrite H2 in Hk; [discriminate |]. rewrite length_drop. lia.
Qed.

Lemma blank_drop (n : nat) (w : string) :
  blank w = true -> blank (Str.drop n w) = true.
Proof.
  unfold blank. revert n. induction w as [|c w IH]; intros [|n] H; simpl in *;
    try reflexivity; try exact H.
  apply andb_true_iff in H. apply IH, H.
Qed.

Lemma blank_startswith (w p : string) (c : ascii) :
  blank w = true -> Str.isspace c = false ->
  Str.startswith w (String c p) = false.
Proof.
  unfold blank, Str.startswith. intros Hw Hc.
  destruct w as [|d w]; simpl in *; [reflexivity |].
  destruct (ascii_dec c d) as [->|]; [|reflexivity].
  rewrite Hc in Hw. discriminate.
Qed.

Lemma solid_drop (n : nat) (s : string) :
  solid s = true -> n < String.length s ->
  exists c rest, Str.drop n s = String c rest /\ Str.isspace c = false.
Proof.
  unfold solid. revert n. induction s as [|c s IH]; intros n H Hn;
    simpl in *; [lia |].
  apply andb_true_iff in H. destruct H as [Hc Hs].
  destruct n as [|n].
  - exists c, s. split; [reflexivity |]. apply negb_true_iff, Hc.
  - apply IH; [exact Hs | lia].
Qed.

Lemma confined_blank (sub w : string) :
  solid sub = true -> sub <> "" -> blank w = true ->
  forall a : string, confined sub a w.
Proof.
  intros Hs Hne Hw. apply confined_intro.
  - intros j. destruct (solid_drop 0 sub Hs) as (c & rest & Hd & Hc).
    { destruct sub; [congruence | simpl; lia]. }
    simpl in Hd. rewrite Hd.
    apply blank_startswith; [apply blank_drop, Hw | exact Hc].
  - intros n Hn. destruct (solid_drop n sub Hs) as (c & rest & Hd & Hc);
      [lia |].
    rewrite Hd. apply blank_startswith; assumption.
Qed.

Lemma rstrip_split (x : string) :
  exists w : string, blank w = true /\ x = Str.rstrip x ++ w.
Proof.
  induction x as [|c x (w & Hw & IH)]; [exists ""; split; reflexivity |].
  cbn [Str.rstrip]. destruct (Str.rstrip x) eqn:E.
  - destruct (Str.isspace c) eqn:Ec.
    + exists (String c x). split; [|reflexivity].
      simpl in IH. subst w. unfold blank in *. simpl. rewrite Ec. exact Hw.
    + exists w. split; [exact Hw |]. simpl. simpl in IH. congruence.
  - exists w. split; [exact Hw |]. simpl. simpl in IH. congruence.
Qed.

Lemma lstrip_split (x : string) :
  exists w : string, blank w = true /\ x = w ++ Str.lstrip x.
Proof.
  induction x as [|c x (w & Hw & IH)]; [exists ""; split; reflexivity |].
  cbn [Str.lstrip]. destruct (Str.isspace c) eqn:Ec.
  - exists (String c w). split.
    + unfold blank in *. simpl. rewrite Ec. exact Hw.
    + simpl. congruence.
  - exists "". split; reflexivity.
Qed.

Lemma finditer_blank_prefix (open close : string) (c0 : ascii) (rest : string) :
  open = String c0 rest -> Str.isspace c0 = false ->
  forall w x : string,
    blank w = true ->
    Re.finditer (Re.region open close) (w ++ x)
    = Re.finditer (Re.region open close) x.
Proof.
  intros -> Hc. unfold Re.finditer.
  induction w as [|d w IH]; intros x Hw; [reflexivity |].
  unfold blank in Hw. simpl in Hw. apply andb_true_iff in Hw.
  destruct Hw as [Hd Hw].
  cbn [append Re.finditer_from].
  assert (Hr : Re.region (String c0 rest) close (String d (w ++ x)) = None).
  { unfold Re.region, Str.startswith. simpl.
    destruct (ascii_dec c0 d) as [->|]; [congruence | reflexivity]. }
  rewrite Hr. apply IH. exact Hw.
Qed.

Lemma finditer_strip (open close : string) (c0 : ascii) (rest : string) :
  open = String c0 rest -> Str.isspace c0 = false ->
  solid close = true -> close <> "" ->
  forall x : string,
    Re.finditer (Re.region open close) (Str.strip x)
    = Re.finditer (Re.region open close) x.
Proof.
  intros Ho Hc Hs Hne x. unfold Str.strip.
  destruct (lstrip_split x) as (w1 & Hw1 & H1).
  destruct (rstrip_split (Str.lstrip x)) as (w2 & Hw2 & H2).
  rewrite H1 at 2.
  rewrite (finditer_blank_prefix open close c0 rest Ho Hc w1 _ Hw1).
  rewrite H2 at 2. unfold Re.finditer. symmetry.
  apply finditer_confined; [exact Hne |].
  apply confined_blank; assumption.
Qed.

Lemma scan_cells_strip (x : string) : scan_cells (Str.strip x) = scan_cells x.
Proof.
  unfold scan_cells, Utils.md_cells, Utils.code_cells.
  rewrite (finditer_strip "<md>" "</md>" "<"%char "md>");
    try reflexivity; try discriminate.
  rewrite (finditer_strip "<code>" "</code>" "<"%char "code>");
    try reflexivity; discriminate.
Qed.

Lemma scan_cells_blank_prefix (w x : string) :
  blank w = true -> scan_cells (w ++ x) = scan_cells x.
Proof.
  intros Hw. unfold scan_cells, Utils.md_cells, Utils.code_cells.
  rewrite (finditer_blank_prefix "<md>" "</md>" "<"%char "md>");
    try reflexivity; try exact Hw.
  rewrite (finditer_blank_prefix "<code>" "</code>" "<"%char "code>");
    try reflexivity; exact Hw.
Qed.

Lemma scan_cells_confined (a t : string) :
  confined "</md>" a t -> confined "</code>" a t ->
  scan_cells (a ++ t) = scan_cells a.
Proof.
  intros Hm Hc. unfold scan_cells, Utils.md_cells, Utils.code_cells, Re.finditer.
  rewrite (finditer_confined "<md>" "</md>") by (discriminate || exact Hm).
  rewrite (finditer_confined "<code>" "</code>") by (discriminate || exact Hc).
  reflexivity.
Qed.

Lemma find_blank_prefix (sub : string) (c0 : ascii) (rest : string) :
  sub = String c0 rest -> Str.isspace c0 = false ->
  forall w x : string,
    blank w = true ->
    Str.find (w ++ x) sub
    = option_map (fun i => String.length w + i) (Str.find x sub).
Proof.
  intros -> Hc. induction w as [|d w IH]; intros x Hw.
  - simpl. destruct (Str.find x (String c0 rest)); reflexivity.
  - unfold blank in Hw. simpl in Hw. apply andb_true_iff in Hw.
    destruct Hw as [Hd Hw]. cbn [append Str.find].
    assert (Hs : Str.startswith (String d (w ++ x)) (String c0 rest) = false).
    { unfold Str.startswith. simpl.
      destruct (ascii_dec c0 d) as [->|]; [congruence | reflexivity]. }
    rewrite Hs, (IH x Hw).
    destruct (Str.find x (String c0 rest)); reflexivity.
Qed.

Lemma take_app_ge (i : nat) (w x : string) :
  Str.take (String.length w + i) (w ++ x) = w ++ Str.take i x.
Proof.
  induction w as [|c w IH]; simpl; [reflexivity | rewrite IH; reflexivity].
Qed.

(** The strips of [parse_tagged_content] do not change what the patterns
    match: the cells are those of the text before the completion marker. *)
Lemma utils_parse_scan (content : string) :
  Utils.parse_tagged_content content
  = scan_cells (Str.split_head content version_marker).
Proof.
  change (Utils.parse_tagged_content content)
    with (scan_cells (Utils.clean content)).
  unfold Utils.clean, Str.split_head, Str.contains, Str.strip.
  fold version_marker.
  destruct (lstrip_split content) as (w1 & Hw1 & H1).
  destruct (rstrip_split (Str.lstrip content)) as (w2 & Hw2 & H2).
  set (l := Str.lstrip content) in *. set (y := Str.rstrip l) in *.
  clearbody y. clearbody l. subst l. subst content.
  assert (Hf : Str.find (w1 ++ y ++ w2) version_marker
               = option_map (fun i => String.length w1 + i)
                   (Str.find y version_marker)).
  { rewrite (find_blank_prefix version_marker "<"%char "version_complete>")
      by (reflexivity || exact Hw1).
    f_equal. apply find_confined; [discriminate |].
    apply confined_blank; (reflexivity || discriminate || exact Hw2). }
  rewrite Hf.
  destruct (Str.find y version_marker) as [i|] eqn:Ei; cbn [option_map].
  - fold (Str.strip (Str.take i y)). rewrite scan_cells_strip.
    apply find_Some in Ei. destruct Ei as (_ & _ & Hi).
    rewrite take_app_ge, (scan_cells_blank_prefix _ _ Hw1).
    rewrite take_app_le by lia. reflexivity.
  - rewrite (scan_cells_blank_prefix _ _ Hw1).
    symmetry. apply scan_cells_confined;
      apply confined_blank; (reflexivity || discriminate || exact Hw2).
Qed.

Lemma find_app_found (sub a t : string) (i : nat) :
  Str.find a sub = Some i -> Str.find (a ++ t) sub = Some i.
Proof.
  revert i. induction a as [|c a IH]; intros i H.
  - cbn [Str.find] in H. destruct (Str.startswith "" sub) eqn:E;
      [|discriminate].
    injection H as <-. unfold Str.startswith in E.
    destruct sub; [|discriminate E].
    simpl. destruct t; reflexivity.
  - cbn [Str.find] in H. cbn [append Str.find].
    destruct (Str.startswith (String c a) sub) eqn:E.
    + apply (startswith_extend sub (String c a) t) in E.
      cbn [append] in E. rewrite E. exact H.
    + destruct (Str.find a sub) as [j|] eqn:Ej; [|discriminate].
      simpl in H. injection H as <-.
      destruct (Str.startswith (String c (a ++ t)) sub) eqn:E'.
      * exfalso. apply find_Some in Ej. destruct Ej as (_ & _ & Hj).
        rewrite (startswith_restrict sub (String c a) t E') in E;
          [discriminate | simpl; lia].
      * rewrite (IH j eq_refl). reflexivity.
Qed.

Lemma find_app_absent (sub a t : string) :
  Str.find a sub = None ->
  (forall n, 0 < n < String.length sub ->
             Str.startswith t (Str.drop n sub) = false) ->
  Str.find (a ++ t) sub
  = option_map (fun i => String.length a + i) (Str.find t sub).
Proof.
  intros H T2. induction a as [|c a IH].
  - simpl. destruct (Str.find t sub); reflexivity.
  - cbn [Str.find] in H. cbn [append Str.find].
    destruct (Str.startswith (String c a) sub) eqn:E; [discriminate |].
    destruct (Str.find a sub) eqn:Ea; [discriminate |].
    destruct (Str.startswith (String c (a ++ t)) sub) eqn:E'.
    + exfalso.
      destruct (Nat.le_gt_cases (String.length sub) (String.length (String c a)))
        as [Hle|Hgt].
      * rewrite (startswith_restrict sub (String c a) t E' Hle) in E.
        discriminate.
      * apply (startswith_straddle sub (String c a) t) in E'; [|lia].
        rewrite T2 in E'; [discriminate | simpl; simpl in Hgt; lia].
    + rewrite (IH eq_refl). destruct (Str.find t sub); reflexivity.
Qed.

Lemma contains_occurs (s sub : string) :
  Str.contains s sub = true -> occurs sub s.
Proof.
  unfold Str.contains. destruct (Str.find s sub) as [i|] eqn:E;
    [|discriminate].
  intros _. apply find_Some in E. destruct E as (H & _ & _).
  apply startswith_app in H.
  exists (Str.take i s), (Str.drop (String.length sub) (Str.drop i s)).
  rewrite <- H. symmetry. apply take_drop.
Qed.

Lemma contains_part (part s sub : string) :
  occurs part s -> Str.contains s sub = false ->
  Str.contains part sub = false.
Proof.
  intros Hp Hs. destruct (Str.contains part sub) eqn:E; [|reflexivity].
  apply contains_occurs in E.
  rewrite (occurs_contains sub s) in Hs; [discriminate |].
  eapply occurs_trans; eassumption.
Qed.

Lemma open_tag_confined (tag close a b : string) :
  In tag ["<md>"; "<code>"] ->
  In close ["</md>"; "</code>"] ->
  Str.contains b close = false ->
  confined close a (tag ++ b).
Proof.
  intros Ht Hc Hb. revert a.
  destruct Ht as [<-|[<-|[]]]; destruct Hc as [<-|[<-|[]]];
    (apply confined_intro;
     [ intros j; repeat (destruct j as [|j]; [reflexivity |]);
       cbn [append Str.drop]; unfold Str.contains in Hb;
       match type of Hb with
       | (match Str.find ?x ?sub with _ => _ end) = false =>
           destruct (Str.find x sub) eqn:?; [discriminate Hb |];
           eapply find_None; eassumption
       end
     | intros n Hn;
       do 18 (destruct n as [|n];
              [first [reflexivity | simpl in Hn; lia] |]);
       simpl in Hn; lia ]).
Qed.

Lemma find_after_open_tag (tag b : string) :
  In tag ["<md>"; "<code>"] ->
  Str.find (tag ++ b) version_marker
  = option_map (fun i => String.length tag + i) (Str.find b version_marker).
Proof.
  intros [<-|[<-|[]]]; cbn; destruct (Str.find b version_marker);
    reflexivity.
Qed.

Lemma marker_not_straddling (tag b : string) :
  In tag ["<md>"; "<code>"] ->
  forall n, 0 < n < String.length version_marker ->
            Str.startswith (tag ++ b) (Str.drop n version_marker) = false.
Proof.
  intros [<-|[<-|[]]] n Hn;
    do 18 (destruct n as [|n]; [first [reflexivity | simpl in Hn; lia] |]);
    simpl in Hn; lia.
Qed.

(** Appending an open region (an opening tag and a text without closing
    tag) to a text does not change what the parser returns. *)
Lemma utils_open_region_ignored (tag a b : string) :
  In tag ["<md>"; "<code>"] ->
  Str.contains b "</md>" = false ->
  Str.contains b "</code>" = false ->
  Utils.parse_tagged_content (a ++ tag ++ b) = Utils.parse_tagged_content a.
Proof.
  intros Ht Hm Hc. rewrite !utils_parse_scan. unfold Str.split_head.
  destruct (Str.find a version_marker) as [i|] eqn:Ea.
  - rewrite (find_app_found _ _ (tag ++ b) _ Ea).
    apply find_Some in Ea. destruct Ea as (_ & _ & Hi).
    rewrite take_app_le by lia. reflexivity.
  - rewrite (find_app_absent _ _ _ Ea (marker_not_straddling tag b Ht)).
    rewrite (find_after_open_tag tag b Ht).
    destruct (Str.find b version_marker) as [j|] eqn:Eb; cbn [option_map].
    + rewrite take_app_ge, take_app_ge.
      apply scan_cells_confined; apply open_tag_confined;
        try exact Ht; simpl; auto;
        eapply contains_part; try eassumption; apply take_occurs.
    + apply scan_cells_confined; apply open_tag_confined;
        try exact Ht; simpl; auto.
Qed.

(** C1 (counterexample).  On a text with an opening [<code>] tag and no
    closing tag, the parser of [NeuralNotebook_V1.py] emits the open
    region as a code cell. *)
Lemma v1_emits_open_region_counterexample :
  Str.contains open_code_text "<code>" = true /\
  Str.contains open_code_text "</code>" = false /\
  V1.parse_tagged_content open_code_text = [text_cell "code" "x = 1"].
Proof. repeat split. Qed.

(** C1 (amended).  The parser of [notebook_utils.py] emits cells for
    complete regions only: every cell it returns is the trimmed body of an
    [<md>...</md>] or [<code>...</code>] region that occurs in the input
    (the body holding no closing tag of its kind), a text without [</md>]
    yields no markdown cell, a text without [</code>] no code cell, and a
    text with neither yields nothing.  An open region contributes no cell:
    appending an opening tag followed by a text without closing tag to any
    text leaves the result as it was.  Both parsers return the empty list
    on the empty string and on the text [<code>]. *)
Theorem utils_parser_emits_complete_regions_only :
  (forall (content : string) (c : NotebookCell),
     In c (Utils.parse_tagged_content content) ->
     (exists body : string,
        occurs ("<md>" ++ body ++ "</md>") content /\
        Str.contains body "</md>" = false /\
        c = text_cell "markdown" (Str.strip body))
     \/
     (exists body : string,
        occurs ("<code>" ++ body ++ "</code>") content /\
        Str.contains body "</code>" = false /\
        c = text_cell "code"
              (Re.erase Utils.fence_marker (Str.strip body))))
  /\
  (forall content : string,
     (Str.contains content "</md>" = false ->
      Forall (fun c => cell_type c = JStr "code")
             (Utils.parse_tagged_content content)) /\
     (Str.contains content "</code>" = false ->
      Forall (fun c => cell_type c = JStr "markdown")
             (Utils.parse_tagged_content content)) /\
     (Str.contains content "</md>" = false ->
      Str.contains content "</code>" = false ->
      Utils.parse_tagged_content content = []))
  /\
  (forall tag a b : string,
     tag = "<md>" \/ tag = "<code>" ->
     Str.contains b "</md>" = false ->
     Str.contains b "</code>" = false ->
     Utils.parse_tagged_content (a ++ tag ++ b)
     = Utils.parse_tagged_content a)
  /\
  Utils.parse_tagged_content "" = [] /\
  Utils.parse_tagged_content "<code>" = [] /\
  V1.parse_tagged_content "" = [] /\
  V1.parse_tagged_content "<code>" = [].
Proof.
  split; [exact utils_cells_complete |].
  split; [|split; [|repeat split]];
    [|intros tag a b [-> | ->] Hm Hc; apply utils_open_region_ignored;
      simpl; auto].
  intros content. split; [|split].
  - intros Hm. apply Forall_forall. intros c H.
    apply utils_cells_complete in H.
    destruct H as [(body & Ho & _)|(body & _ & _ & ->)]; [|reflexivity].
    apply occurs_suffix_part, occurs_suffix_part, occurs_contains in Ho.
    congruence.
  - intros Hc. apply Forall_forall. intros c H.
    apply utils_cells_complete in H.
    destruct H as [(body & _ & _ & ->)|(body & Ho & _)]; [reflexivity |].
    apply occurs_suffix_part, occurs_suffix_part, occurs_contains in Ho.
    congruence.
  - apply utils_no_closing_tag.
Qed.

Lemma utils_parser_emits_complete_regions_only_witness :
  Utils.parse_tagged_content open_code_text = [] /\
  Forall (fun c => cell_type c = JStr "markdown")
         (Utils.parse_tagged_content ("<md>a</md><code>b")) /\
  Utils.parse_tagged_content ("<md>a</md>" ++ "<code>" ++ "b")
  = Utils.parse_tagged_content "<md>a</md>".
Proof.
  destruct utils_parser_emits_complete_regions_only as (_ & H & Hopen & _).
  split; [|split].
  - apply (proj2 (proj2 (H open_code_text))); reflexivity.
  - apply (proj1 (proj2 (H "<md>a</md><code>b"))). reflexivity.
  - apply Hopen; [right |  |]; reflexivity.
Defined.

(** C2.  On the text with a titled markdown region and a fenced code
    region, the parser of [NeuralNotebook_V1.py] returns the markdown cell
    [# Title] and the code cell [print(1)]; the parser of
    [notebook_utils.py] returns the same markdown cell and a code cell
    whose source keeps the newline that preceded the closing fence. *)
Theorem parse_title_and_print :
  V1.parse_tagged_content title_and_print
  = [text_cell "markdown" "# Title"; text_cell "code" "print(1)"]
  /\
  Utils.parse_tagged_content title_and_print
  = [text_cell "markdown" "# Title"; text_cell "code" ("print(1)" ++ nl)].
Proof. split; reflexivity. Qed.

(** C5 (counterexample).  The untagged text holds neither [<md>] nor
    [<code>], and the parser of [notebook_utils.py] returns no cell for
    it. *)
Lemma utils_untagged_text_counterexample :
  Str.contains untagged_text "<md>" = false /\
  Str.contains untagged_text "<code>" = false /\
  Utils.parse_tagged_content untagged_text = [].
Proof. repeat split. Qed.

(** C5 (amended).  On the untagged text the parser of
    [NeuralNotebook_V1.py] takes its code-fence branch and returns the
    markdown cell [Some text], the code cell [x=1] and the markdown cell
    [More text].  The parser of [notebook_utils.py] has no such branch: it
    returns no cell for any text that holds neither [<md>] nor [<code>]. *)
Theorem parse_untagged_text :
  Str.contains untagged_text "<md>" = false /\
  Str.contains untagged_text "<code>" = false /\
  V1.parse_tagged_content untagged_text
  = [text_cell "markdown" "Some text"; text_cell "code" "x=1";
     text_cell "markdown" "More text"]
  /\
  (forall content : string,
     Str.contains content "<md>" = false ->
     Str.contains content "<code>" = false ->
     Utils.parse_tagged_content content = []).
Proof.
  split; [reflexivity |]. split; [reflexivity |]. split; [reflexivity |].
  exact utils_no_opening_tag.
Qed.

Lemma parse_untagged_text_witness :
  Utils.parse_tagged_content "plain words" = [].
Proof.
  apply (proj2 (proj2 (proj2 parse_untagged_text))); reflexivity.
Defined.

(** * Further properties *)

(** ** Effects of the document operations *)

Lemma nth_error_list_insert_lt {A : Type} (i j : nat) (x : A) (l : list A) :
  i <= length l -> j < i ->
  nth_error (list_insert i x l) j = nth_error l j.
Proof.
  intros Hi Hj. unfold list_insert.
  rewrite nth_error_app1 by (rewrite length_firstn; lia).
  rewrite nth_error_firstn. apply Nat.ltb_lt in Hj. rewrite Hj. reflexivity.
Qed.

Lemma nth_error_list_insert_eq {A : Type} (i : nat) (x : A) (l : list A) :
  i <= length l -> nth_error (list_insert i x l) i = Some x.
Proof.
  intros Hi. unfold list_insert.
  rewrite nth_error_app2 by (rewrite length_firstn; lia).
  rewrite length_firstn, Nat.min_l by lia. rewrite Nat.sub_diag. reflexivity.
Qed.

Lemma nth_error_list_insert_gt {A : Type} (i j : nat) (x : A) (l : list A) :
  i <= length l -> i <= j ->
  nth_error (list_insert i x l) (S j) = nth_error l j.
Proof.
  intros Hi Hj. unfold list_insert.
  rewrite nth_error_app2 by (rewrite length_firstn; lia).
  rewrite length_firstn, Nat.min_l by lia.
  replace (S j - i) with (S (j - i)) by lia. cbn [nth_error].
  rewrite nth_error_skipn. f_equal. lia.
Qed.

Lemma length_list_insert {A : Type} (i : nat) (x : A) (l : list A) :
  length (list_insert i x l) = S (length l).
Proof.
  unfold list_insert. rewrite length_app. cbn [length].
  rewrite length_firstn, length_skipn. lia.
Qed.

(** X1. [add_cell] always adds exactly one cell and keeps the others in
    order: with an index in range the cell lands at that index and the
    cells from there on move up by one; with no index, or an index out of
    range (negative, or [len(cells)] and beyond), it lands at the end. *)
Theorem add_cell_places_cell
    (doc : NotebookDocument) (cell : NotebookCell) (index : option Z) :
  let old := cells doc in
  let new := cells (add_cell doc cell index) in
  length new = S (length old) /\
  metadata (add_cell doc cell index) = metadata doc /\
  (forall i : Z,
     index = Some i -> (0 <= i < Z.of_nat (length old))%Z ->
     nth_error new (Z.to_nat i) = Some cell /\
     (forall j, j < Z.to_nat i -> nth_error new j = nth_error old j) /\
     (forall j, Z.to_nat i <= j -> nth_error new (S j) = nth_error old j))
  /\
  ((index = None \/
    exists i : Z, index = Some i /\
                  (i < 0 \/ Z.of_nat (length old) <= i)%Z) ->
   new = (old ++ [cell])%list).
Proof.
  cbn zeta. unfold add_cell. repeat split.
  - destruct index as [i|]; [destruct (in_range i (cells doc))|];
      cbn [with_cells cells];
      rewrite ?length_list_insert, ?length_app; simpl; lia.
  - destruct index as [i|]; [destruct (in_range i (cells doc))|]; reflexivity.
  - subst index. apply in_range_spec in H0. rewrite H0.
    cbn [with_cells cells]. apply nth_error_list_insert_eq.
    apply in_range_spec in H0. lia.
  - subst index. pose proof H0 as Hr. apply in_range_spec in H0. rewrite H0.
    cbn [with_cells cells]. intros. apply nth_error_list_insert_lt; lia.
  - subst index. pose proof H0 as Hr. apply in_range_spec in H0. rewrite H0.
    cbn [with_cells cells]. intros. apply nth_error_list_insert_gt; lia.
  - intros [->|(i & -> & Hi)]; [reflexivity |].
    apply in_range_false in Hi. rewrite Hi. reflexivity.
Qed.

Lemma add_cell_places_cell_witness :
  nth_error (cells (add_cell sample_doc (text_cell "code" "y") (Some 1%Z))) 1
  = Some (text_cell "code" "y") /\
  cells (add_cell sample_doc (text_cell "code" "y") (Some 7%Z))
  = (cells sample_doc ++ [text_cell "code" "y"])%list.
Proof.
  split.
  - apply (proj1 (proj2 (proj2 (add_cell_places_cell sample_doc
             (text_cell "code" "y") (Some 1%Z)))) 1%Z eq_refl).
    simpl. lia.
  - apply (proj2 (proj2 (proj2 (add_cell_places_cell sample_doc
             (text_cell "code" "y") (Some 7%Z))))).
    right. exists 7%Z. split; [reflexivity | right; simpl; lia].
Defined.


Lemma map_list_update_fresh (st : nat -> NotebookCell)
    (f : NotebookCell -> NotebookCell) (r : nat) (refs : list nat) :
  ~ In r refs ->
  map (fun r' => if Nat.eqb r' r then f (st r') else st r') refs
  = map st refs.
Proof.
  intros Hn. apply map_ext_in. intros a Ha.
  destruct (Nat.eqb a r) eqn:E; [|reflexivity].
  apply Nat.eqb_eq in E. subst a. contradiction.
Qed.

Lemma map_list_update_once (st : nat -> NotebookCell)
    (f : NotebookCell -> NotebookCell) (r : nat) (refs : list nat) :
  NoDup refs ->
  forall i : nat,
    nth_error refs i = Some r ->
    map (fun r' => if Nat.eqb r' r then f (st r') else st r') refs
    = list_update i f (map st refs).
Proof.
  induction 1 as [|a refs Ha Hnd IH]; intros i Hi;
    [destruct i; discriminate Hi |].
  destruct i as [|i]; cbn [nth_error] in Hi; cbn [map list_update].
  - injection Hi as ->. rewrite Nat.eqb_refl.
    rewrite map_list_update_fresh by exact Ha. reflexivity.
  - assert (Hne : Nat.eqb a r = false).
    { apply Nat.eqb_neq. intros ->. apply Ha.
      eapply nth_error_In. exact Hi. }
    rewrite Hne, (IH i Hi). reflexivity.
Qed.

(** X2. [update_cell] with an index in range assigns the new source (a
    list as it is, anything else as a one-element list) to the cell
    object at that index and touches nothing else: the list of cells and
    the metadata stay, every other object keeps its state, and the object
    keeps its type, outputs and metadata.  A position shows the new source
    exactly when it lists that same object, so a cell object listed twice
    changes at both positions.  When no object is listed twice, this is
    the replacement of the source at the one index, as [update_cell] on
    cells held by value computes it. *)
Theorem update_cell_changes_object
    (d : ObjectDocument) (index : Z) (content : json) (r : nat) :
  (0 <= index < Z.of_nat (length (cell_refs d)))%Z ->
  nth_error (cell_refs d) (Z.to_nat index) = Some r ->
  let d' := fst (Objects.update_cell d index content) in
  snd (Objects.update_cell d index content) = true /\
  cell_refs d' = cell_refs d /\
  object_metadata d' = object_metadata d /\
  object_state d' r
  = {| cell_type := cell_type (object_state d r);
       source := as_list content;
       outputs := outputs (object_state d r);
       cell_metadata := cell_metadata (object_state d r) |} /\
  (forall r' : nat, r' <> r -> object_state d' r' = object_state d r') /\
  (forall (j r' : nat),
     nth_error (cell_refs d) j = Some r' ->
     nth_error (cells (by_value d')) j
     = Some (if Nat.eqb r' r
             then set_source (object_state d r) content
             else object_state d r')) /\
  (NoDup (cell_refs d) ->
   by_value d' = fst (update_cell (by_value d) index content)).
Proof.
  intros Hr Hn. cbn zeta. unfold Objects.update_cell.
  assert (Hg : ((0 <=? index)
                && (index <? Z.of_nat (length (cell_refs d))))%Z = true).
  { apply andb_true_iff. split; [apply Z.leb_le | apply Z.ltb_lt]; lia. }
  rewrite Hg, Hn. cbn [fst snd cell_refs object_metadata object_state].
  split; [reflexivity |]. split; [reflexivity |]. split; [reflexivity |].
  split; [rewrite Nat.eqb_refl; reflexivity |].
  split.
  { intros r' Hne. apply Nat.eqb_neq in Hne. rewrite Hne. reflexivity. }
  split.
  - intros j r' Hj. unfold by_value. cbn [cells cell_refs object_state].
    rewrite nth_error_map, Hj. cbn [option_map].
    destruct (Nat.eqb r' r) eqn:E; [|reflexivity].
    apply Nat.eqb_eq in E. subst r'. reflexivity.
  - intros Hnd. unfold by_value, update_cell.
    cbn [cells metadata cell_refs object_state object_metadata].
    assert (Hi : in_range index (map (object_state d) (cell_refs d)) = true)
      by (apply in_range_spec; rewrite length_map; exact Hr).
    rewrite Hi. cbn [fst]. unfold with_cells. cbn [cells metadata].
    rewrite <- (map_list_update_once (object_state d)
                  (fun c => set_source c content) r (cell_refs d) Hnd _ Hn).
    reflexivity.
Qed.

Lemma update_cell_changes_object_witness :
  cells (by_value (fst (Objects.update_cell shared_doc 0 (JStr "# New"))))
  = [text_cell "markdown" "# New"; text_cell "markdown" "# New";
     text_cell "code" "x = 1"] /\
  cells (fst (update_cell (by_value shared_doc) 0 (JStr "# New")))
  = [text_cell "markdown" "# New"; text_cell "markdown" "# Title";
     text_cell "code" "x = 1"].
Proof.
  destruct (update_cell_changes_object shared_doc 0 (JStr "# New") 0
              ltac:(simpl; lia) eq_refl)
    as (_ & _ & _ & _ & _ & Hpos & _).
  split; [|reflexivity].
  apply nth_error_ext. intros [|[|[|j]]].
  - rewrite (Hpos 0 0 eq_refl). reflexivity.
  - rewrite (Hpos 1 0 eq_refl). reflexivity.
  - rewrite (Hpos 2 1 eq_refl). reflexivity.
  - reflexivity.
Defined.

(** X3. [delete_cell] with an index in range removes exactly the cell at
    that index: the cells before it stay where they are, the cells after
    it move down by one, and the count drops by one. *)
Theorem delete_cell_removes_cell (doc : NotebookDocument) (index : Z) :
  (0 <= index < Z.of_nat (length (cells doc)))%Z ->
  let doc' := fst (delete_cell doc index) in
  S (length (cells doc')) = length (cells doc) /\
  (forall j, j < Z.to_nat index ->
             nth_error (cells doc') j = nth_error (cells doc) j) /\
  (forall j, Z.to_nat index <= j ->
             nth_error (cells doc') j = nth_error (cells doc) (S j)) /\
  metadata doc' = metadata doc.
Proof.
  intros Hr. cbn zeta. unfold delete_cell.
  pose proof Hr as Hb. apply in_range_spec in Hb. rewrite Hb.
  cbn [fst with_cells cells metadata]. unfold list_del.
  assert (Hf : length (firstn (Z.to_nat index) (cells doc)) = Z.to_nat index)
    by (rewrite length_firstn; lia).
  repeat split.
  - rewrite length_app, Hf, length_skipn. lia.
  - intros j Hj. rewrite nth_error_app1 by lia.
    rewrite nth_error_firstn. apply Nat.ltb_lt in Hj. rewrite Hj. reflexivity.
  - intros j Hj. rewrite nth_error_app2 by lia.
    rewrite Hf, nth_error_skipn. f_equal. lia.
Qed.

Lemma delete_cell_removes_cell_witness :
  nth_error (cells (fst (delete_cell sample_doc 0))) 0
  = Some (text_cell "code" "x = 1").
Proof.
  apply (proj1 (proj2 (proj2 (delete_cell_removes_cell sample_doc 0
                                ltac:(simpl; lia)))) 0).
  simpl. lia.
Defined.

Lemma list_del_middle {A : Type} (pre post : list A) (x : A) :
  list_del (length pre) (pre ++ x :: post)%list = (pre ++ post)%list.
Proof.
  unfold list_del. induction pre as [|y pre IH]; [reflexivity |].
  cbn [length app firstn]. rewrite skipn_cons. cbn [app]. f_equal. exact IH.
Qed.

Lemma list_del_insert {A : Type} (i : nat) (x : A) (l : list A) :
  i <= length l -> list_del i (list_insert i x l) = l.
Proof.
  intros Hi. unfold list_insert.
  replace i with (length (firstn i l)) at 1
    by (rewrite length_firstn; lia).
  rewrite list_del_middle. apply firstn_skipn.
Qed.

(** X4. Deleting a cell right after adding it restores the document:
    after [add_cell(cell, i)] with [i] in range, [delete_cell(i)] gives
    the document back; after an append, [delete_cell(len(cells))] (the old
    length) does. *)
Theorem delete_after_add_restores
    (doc : NotebookDocument) (cell : NotebookCell) :
  (forall i : Z,
     (0 <= i < Z.of_nat (length (cells doc)))%Z ->
     delete_cell (add_cell doc cell (Some i)) i = (doc, true))
  /\
  (forall index : option Z,
     (index = None \/
      exists i : Z, index = Some i /\
                    (i < 0 \/ Z.of_nat (length (cells doc)) <= i)%Z) ->
     delete_cell (add_cell doc cell index) (Z.of_nat (length (cells doc)))
     = (doc, true)).
Proof.
  split.
  - intros i Hr. unfold add_cell. pose proof Hr as Hb.
    apply in_range_spec in Hb. rewrite Hb. unfold delete_cell.
    cbn [with_cells cells].
    assert (Hr' : in_range i (list_insert (Z.to_nat i) cell (cells doc)) = true)
      by (apply in_range_spec; rewrite length_list_insert; lia).
    rewrite Hr'. unfold with_cells. cbn [cells metadata].
    rewrite list_del_insert by lia. destruct doc; reflexivity.
  - intros index H.
    assert (Ha : add_cell doc cell index = with_cells doc (cells doc ++ [cell])%list).
    { unfold add_cell. destruct H as [->|(i & -> & Hi)]; [reflexivity |].
      apply in_range_false in Hi. rewrite Hi. reflexivity. }
    rewrite Ha. unfold delete_cell. cbn [with_cells cells].
    assert (Hr : in_range (Z.of_nat (length (cells doc))) (cells doc ++ [cell])%list
                 = true)
      by (apply in_range_spec; rewrite length_app; simpl; lia).
    rewrite Hr. unfold with_cells, list_del. cbn [cells metadata].
    rewrite Nat2Z.id, firstn_app, firstn_all, Nat.sub_diag, firstn_0,
      app_nil_r.
    rewrite skipn_all2 by (rewrite length_app; simpl; lia).
    rewrite app_nil_r. destruct doc; reflexivity.
Qed.

Lemma delete_after_add_restores_witness :
  delete_cell (add_cell sample_doc (text_cell "code" "y") (Some 1%Z)) 1
  = (sample_doc, true) /\
  delete_cell (add_cell sample_doc (text_cell "code" "y") None) 2
  = (sample_doc, true).
Proof.
  split.
  - apply (proj1 (delete_after_add_restores sample_doc (text_cell "code" "y"))).
    simpl. lia.
  - apply (proj2 (delete_after_add_restores sample_doc (text_cell "code" "y"))
             None).
    left. reflexivity.
Defined.

(** ** Saving and loading *)

Lemma cell_of_json_to_dict (c : NotebookCell) :
  persistable c -> cell_of_json (cell_to_dict c) = Ok c.
Proof.
  destruct c as [ty src outs md]. unfold persistable, cell_to_dict.
  cbn [cell_type outputs source cell_metadata]. intros Hp.
  destruct (Py.eq_str ty "code") eqn:E;
    rewrite cell_of_json_dict; unfold field_or;
    cbn -[Py.truthy]; do 2 f_equal.
  - destruct Hp as [->|[_ Ht]]; [reflexivity |]. rewrite Ht. reflexivity.
  - destruct Hp as [->|[Hc _]]; [reflexivity | congruence].
Qed.

Lemma load_cells_to_dict (cs : list NotebookCell) :
  Forall persistable cs ->
  forall doc : NotebookDocument,
    load_cells doc (map cell_to_dict cs)
    = Ok (with_cells doc (cells doc ++ cs)).
Proof.
  induction 1 as [|c cs Hc _ IH]; intros doc.
  - simpl. rewrite app_nil_r, with_cells_same. reflexivity.
  - cbn [map load_cells]. rewrite (cell_of_json_to_dict c Hc). cbn [bind].
    rewrite IH. unfold add_cell, with_cells. cbn [cells metadata].
    rewrite <- app_assoc. reflexivity.
Qed.

(** X5. Saving and loading again gives the document back.  For a
    document whose cells carry outputs only as code cells (the outputs
    being a non-empty value or the empty list), [from_json] applied to
    what [to_dict] of [NeuralNotebook_V1.py] emits returns the same
    document; with [to_dict] of [notebook_utils.py] and string sources it
    returns the document without its blank cells. *)
Theorem to_dict_from_json_round_trip (doc : NotebookDocument) :
  Forall persistable (cells doc) ->
  (exists d : json,
     V1.to_dict doc = Ok d /\ from_json_data d = Ok doc)
  /\
  (Forall str_source (cells doc) ->
   exists d : json,
     Utils.to_dict doc = Ok d /\
     from_json_data d
     = Ok (with_cells doc
             (filter (fun c => negb (blank (source_text c))) (cells doc)))).
Proof.
  intros Hp. split.
  - eexists. split; [reflexivity |].
    rewrite from_json_data_dict. unfold field_or. cbn [Py.dict_lookup].
    cbn -[load_cells cell_to_dict]. rewrite (load_cells_to_dict _ Hp).
    destruct doc; reflexivity.
  - intros Hs. unfold Utils.to_dict. rewrite (dict_cells_str _ Hs).
    cbn [bind]. eexists. split; [reflexivity |].
    rewrite from_json_data_dict. unfold field_or. cbn [Py.dict_lookup].
    cbn -[load_cells cell_to_dict filter blank source_text].
    rewrite load_cells_to_dict; [reflexivity |].
    apply Forall_forall. intros c Hc. apply filter_In in Hc.
    destruct Hc as [Hc _]. revert c Hc. apply Forall_forall. exact Hp.
Qed.

Lemma to_dict_from_json_round_trip_witness :
  (exists d : json,
     V1.to_dict draft_doc = Ok d /\ from_json_data d = Ok draft_doc)
  /\
  (exists d : json,
     Utils.to_dict draft_doc = Ok d /\
     from_json_data d
     = Ok (with_cells draft_doc [text_cell "markdown" "# Title"])).
Proof.
  assert (Hp : Forall persistable (cells draft_doc))
    by (repeat constructor).
  destruct (to_dict_from_json_round_trip draft_doc Hp) as [H1 H2].
  split; [exact H1 |].
  apply H2. repeat constructor; eexists; reflexivity.
Defined.

Lemma load_cells_Ok (items : list json) :
  forall doc doc' : NotebookDocument,
    load_cells doc items = Ok doc' ->
    Forall (fun item => is_dict item = true) items.
Proof.
  induction items as [|item items IH]; intros doc doc' H; [constructor |].
  cbn [load_cells] in H.
  destruct item; try discriminate H.
  constructor; [reflexivity |].
  rewrite cell_of_json_dict in H. cbn [bind] in H. eapply IH. exact H.
Qed.

Lemma load_cells_Raise (items : list json) :
  forall (doc : NotebookDocument) (e : exn),
    load_cells doc items = Raise e -> e = AttributeError.
Proof.
  induction items as [|item items IH]; intros doc e H; [discriminate H |].
  cbn [load_cells] in H.
  destruct item; try (cbn in H; congruence).
  rewrite cell_of_json_dict in H. cbn [bind] in H. eapply IH. exact H.
Qed.

(** X6. [from_json] succeeds exactly on a JSON object whose [cells]
    value (the empty list when absent) can be iterated and yields only
    objects.  Otherwise it raises [AttributeError] (the top-level value or
    a cell is not an object) or [TypeError] ([cells] is [null], a boolean
    or a number); no field is checked beyond that. *)
Theorem from_json_succeeds_iff (data : json) :
  ((exists doc : NotebookDocument, from_json_data data = Ok doc) <->
   (exists (d : list (string * json)) (items : list json),
      data = JDict d /\
      Py.iterate (field_or d "cells" (JList [])) = Ok items /\
      Forall (fun item => is_dict item = true) items))
  /\
  (forall e : exn,
     from_json_data data = Raise e -> e = AttributeError \/ e = TypeError).
Proof.
  split; [split|].
  - intros [doc H]. destruct data; try discriminate H.
    rewrite from_json_data_dict in H.
    destruct (Py.iterate (field_or d "cells" (JList []))) as [items|e] eqn:E;
      [|discriminate H].
    cbn [bind] in H. exists d, items.
    split; [reflexivity |]. split; [exact E |].
    eapply load_cells_Ok. exact H.
  - intros (d & items & -> & Hi & Hd).
    rewrite from_json_data_dict, Hi. cbn [bind].
    destruct (load_cells_dicts items Hd
                {| cells := [];
                   metadata := field_or d "metadata" default_metadata |})
      as (cs & Hl & _).
    eexists. exact Hl.
  - intros e H. destruct data; try (cbn in H; left; congruence).
    rewrite from_json_data_dict in H.
    destruct (Py.iterate (field_or d "cells" (JList []))) as [items|e'] eqn:E.
    + cbn [bind] in H. left. eapply load_cells_Raise. exact H.
    + cbn [bind] in H. injection H as <-. right.
      unfold Py.iterate in E.
      destruct (field_or d "cells" (JList [])); congruence.
Qed.

Lemma from_json_succeeds_iff_witness :
  (exists doc : NotebookDocument,
     from_json_data notebook_with_markdown_outputs = Ok doc) /\
  (from_json_data (JDict [("cells", JInt 3)]) = Raise TypeError ->
   TypeError = AttributeError \/ TypeError = TypeError).
Proof.
  split.
  - apply (proj2 (proj1 (from_json_succeeds_iff
                           notebook_with_markdown_outputs))).
    eexists _, _. split; [reflexivity |]. split; [reflexivity |].
    repeat constructor.
  - apply (proj2 (from_json_succeeds_iff (JDict [("cells", JInt 3)]))).
Defined.

(** ** Documents whose sources are strings *)

Lemma join_empty_Ok (src : list json) (t : string) :
  Py.join_empty src = Ok t -> Forall (fun x => exists s, x = JStr s) src.
Proof.
  revert t. induction src as [|x src IH]; intros t H; [constructor |].
  destruct x; try discriminate H. cbn [Py.join_empty] in H.
  destruct (Py.join_empty src) as [r|] eqn:E; [|discriminate H].
  constructor; [eexists; reflexivity | eapply IH; reflexivity].
Qed.

Lemma plain_entries_Ok (cs : list NotebookCell) :
  forall (i : nat) (es : list string),
    plain_entries i cs = Ok es -> Forall str_source cs.
Proof.
  induction cs as [|c cs IH]; intros i es H; [constructor |].
  cbn [plain_entries] in H. unfold plain_entry in H.
  destruct (Py.join_empty (source c)) as [t|] eqn:E; [|discriminate H].
  cbn [bind] in H.
  destruct (plain_entries (S i) cs) as [es'|] eqn:E'; [|discriminate H].
  constructor; [eapply join_empty_Ok; exact E | eapply IH; exact E'].
Qed.

Lemma plain_entries_Raise (cs : list NotebookCell) :
  forall (i : nat) (e : exn),
    plain_entries i cs = Raise e -> e = TypeError.
Proof.
  assert (Hj : forall src e, Py.join_empty src = Raise e -> e = TypeError).
  { induction src as [|x src IH]; intros e H; [discriminate H |].
    destruct x; try (cbn in H; congruence).
    cbn [Py.join_empty] in H.
    destruct (Py.join_empty src) eqn:E; [discriminate H |].
    cbn in H. injection H as <-. apply IH. reflexivity. }
  induction cs as [|c cs IH]; intros i e H; [discriminate H |].
  cbn [plain_entries] in H. unfold plain_entry in H.
  destruct (Py.join_empty (source c)) as [t|e'] eqn:E.
  - cbn [bind] in H.
    destruct (plain_entries (S i) cs) as [es'|e''] eqn:E'; [discriminate H |].
    cbn in H. injection H as <-. eapply IH. exact E'.
  - cbn in H. injection H as <-. eapply Hj. exact E.
Qed.

(** X7. [to_plain_text] returns a text exactly when every element of
    every cell source is a string; otherwise the join raises
    [TypeError].  The text then has one entry per cell. *)
Theorem to_plain_text_succeeds_iff (doc : NotebookDocument) :
  ((exists t : string, to_plain_text doc = Ok t) <->
   Forall str_source (cells doc))
  /\
  (forall e : exn, to_plain_text doc = Raise e -> e = TypeError).
Proof.
  split; [split|].
  - intros [t H]. unfold to_plain_text in H.
    destruct (plain_entries 0 (cells doc)) as [es|] eqn:E; [|discriminate H].
    eapply plain_entries_Ok. exact E.
  - intros H. unfold to_plain_text. rewrite (plain_entries_str _ H).
    eexists. reflexivity.
  - intros e H. unfold to_plain_text in H.
    destruct (plain_entries 0 (cells doc)) as [es|e'] eqn:E; [discriminate H |].
    cbn in H. injection H as <-. eapply plain_entries_Raise. exact E.
Qed.

Lemma to_plain_text_succeeds_iff_witness :
  exists t : string, to_plain_text draft_doc = Ok t.
Proof.
  apply (proj2 (proj1 (to_plain_text_succeeds_iff draft_doc))).
  repeat constructor; eexists; reflexivity.
Defined.

Lemma text_cell_str_source (ty text : string) : str_source (text_cell ty text).
Proof. repeat constructor. eexists. reflexivity. Qed.

Lemma utils_parse_str_source (content : string) :
  Forall str_source (Utils.parse_tagged_content content).
Proof.
  unfold Utils.parse_tagged_content, Utils.md_cells, Utils.code_cells.
  apply Forall_app. split; apply Forall_map, Forall_forall; intros;
    apply text_cell_str_source.
Qed.

Lemma v1_parse_str_source (content : string) :
  Forall str_source (V1.parse_tagged_content content).
Proof.
  unfold V1.parse_tagged_content.
  assert (Hflush : forall st, Forall str_source (V1.out st) ->
                              Forall str_source (V1.flush st)).
  { intros st H. unfold V1.flush.
    destruct (V1.current_type st); [|exact H].
    destruct (V1.current_content st); [exact H |].
    apply Forall_app. split; [exact H |].
    constructor; [apply text_cell_str_source | constructor]. }
  destruct (Str.contains content "<md>" || Str.contains content "<code>").
  - unfold V1.tagged_cells. apply Hflush.
    apply fold_left_keeps with
      (P := fun st => Forall str_source (V1.out st)); [|constructor].
    intros st part H. unfold V1.tagged_step.
    repeat match goal with
           | |- context [if ?b then _ else _] => destruct b
           | |- context [match V1.current_type ?s with _ => _ end] =>
               destruct (V1.current_type s) eqn:?
           end; cbn [V1.out]; auto.
  - unfold V1.fallback_cells.
    apply fold_left_keeps with (P := Forall str_source); [|constructor].
    intros acc part H. unfold V1.fallback_step.
    repeat match goal with
           | |- context [if ?b then _ else _] => destruct b
           end; auto; apply Forall_app; split; auto;
      (constructor; [apply text_cell_str_source | constructor]).
Qed.

Lemma add_cell_str_source
    (doc : NotebookDocument) (cell : NotebookCell) (index : option Z) :
  Forall str_source (cells doc) -> str_source cell ->
  Forall str_source (cells (add_cell doc cell index)).
Proof.
  intros H Hc. unfold add_cell.
  assert (Happ : Forall str_source (cells doc ++ [cell]))
    by (apply Forall_app; split; [exact H | repeat constructor; exact Hc]).
  destruct index as [j|]; [|exact Happ].
  destruct (in_range j (cells doc)); [|exact Happ].
  cbn [with_cells cells]. unfold list_insert. apply Forall_app. split.
  - apply Forall_firstn_keep, H.
  - constructor; [exact Hc | apply Forall_skipn_keep, H].
Qed.

Lemma delete_cell_str_source (doc : NotebookDocument) (i : Z) :
  Forall str_source (cells doc) ->
  Forall str_source (cells (fst (delete_cell doc i))).
Proof.
  intros H. unfold delete_cell. destruct (in_range i (cells doc)); [|exact H].
  cbn [fst with_cells cells]. unfold list_del. apply Forall_app. split.
  - apply Forall_firstn_keep, H.
  - apply Forall_skipn_keep, H.
Qed.

Lemma add_cells_str_source (new_cells : list NotebookCell) :
  forall (doc : NotebookDocument) (g : Z) (i : nat),
    Forall str_source (cells doc) -> Forall str_source new_cells ->
    Forall str_source (cells (add_cells doc g i new_cells)).
Proof.
  induction new_cells as [|x l IH]; intros doc g i Hd Hl; [exact Hd |].
  cbn [add_cells]. inversion Hl; subst.
  apply IH; [apply add_cell_str_source |]; assumption.
Qed.

Lemma parse_and_update_cells_notebook
    (parse : string -> list NotebookCell) (app app' : NotebookApp)
    (text : string) :
  parse_and_update_cells parse app text = Ok app' ->
  notebook app' = notebook app \/
  exists g : Z,
    notebook app'
    = add_cells (fst (delete_cell (notebook app) g)) g 0 (parse text).
Proof.
  unfold parse_and_update_cells. destruct (parse text) as [|c new] eqn:E.
  - intros H. left. congruence.
  - destruct (generating_cell_index app) as [g|]; [|discriminate].
    intros H. right. exists g. injection H as H. rewrite <- H. reflexivity.
Qed.

(** X8. Documents keep sources made of strings: [add_cell] of such a
    cell, [update_cell] with a string or a list of strings,
    [delete_cell], and [parse_and_update_cells] with either parser
    preserve the property, so [to_plain_text] never raises on a document
    built with them. *)
Theorem str_sources_preserved
    (doc : NotebookDocument) (cell : NotebookCell) (index : option Z)
    (i : Z) (content : json) :
  Forall str_source (cells doc) ->
  (str_source cell -> Forall str_source (cells (add_cell doc cell index))) /\
  (str_content content ->
   Forall str_source (cells (fst (update_cell doc i content)))) /\
  Forall str_source (cells (fst (delete_cell doc i))) /\
  (forall (app app' : NotebookApp) (text : string),
     notebook app = doc ->
     (parse_and_update_cells Utils.parse_tagged_content app text = Ok app' \/
      parse_and_update_cells V1.parse_tagged_content app text = Ok app') ->
     Forall str_source (cells (notebook app')) /\
     exists t : string, to_plain_text (notebook app') = Ok t).
Proof.
  intros H. split; [|split; [|split]].
  - intros Hc. apply add_cell_str_source; assumption.
  - intros Hc. unfold update_cell.
    destruct (in_range i (cells doc)); [|exact H].
    cbn [fst with_cells cells].
    assert (Hall : forall l k,
               Forall str_source l ->
               Forall str_source
                 (list_update k (fun c => set_source c content) l)).
    { induction l as [|x l IH]; intros [|k] Hl; simpl; auto;
        inversion Hl; subst; constructor; auto. }
    apply Hall, H.
  - apply delete_cell_str_source, H.
  - intros app app' text Hn Hrun.
    assert (Hgen : forall parse,
               (forall s, Forall str_source (parse s)) ->
               parse_and_update_cells parse app text = Ok app' ->
               Forall str_source (cells (notebook app'))).
    { intros parse Hparse Hr.
      apply parse_and_update_cells_notebook in Hr.
      destruct Hr as [->|[g ->]]; [rewrite Hn; exact H |].
      apply add_cells_str_source; [|apply Hparse].
      apply delete_cell_str_source. rewrite Hn. exact H. }
    assert (Hs : Forall str_source (cells (notebook app'))).
    { destruct Hrun as [Hr|Hr];
        [apply (Hgen _ utils_parse_str_source Hr)
        | apply (Hgen _ v1_parse_str_source Hr)]. }
    split; [exact Hs |].
    unfold to_plain_text. rewrite (plain_entries_str _ Hs). eexists.
    reflexivity.
Qed.

Lemma str_sources_preserved_witness :
  Forall str_source
    (cells (add_cell sample_doc (text_cell "code" "y") (Some 0%Z))) /\
  Forall str_source (cells (fst (update_cell sample_doc 0 (JStr "z")))).
Proof.
  assert (Hs : Forall str_source (cells sample_doc))
    by (repeat constructor; eexists; reflexivity).
  destruct (str_sources_preserved sample_doc (text_cell "code" "y")
              (Some 0%Z) 0%Z (JStr "z") Hs) as (Ha & Hu & _).
  split.
  - apply Ha. apply text_cell_str_source.
  - apply Hu. repeat constructor. eexists. reflexivity.
Defined.

(** ** More on the parser of [notebook_utils.py] *)

(** X9. The cells come grouped by kind, not in the order of the text:
    [parse_tagged_content] returns all markdown cells first, then all code
    cells, whatever the order of the regions. *)
Theorem utils_parse_markdown_first (content : string) :
  (exists md code : list NotebookCell,
     Utils.parse_tagged_content content = (md ++ code)%list /\
     Forall (fun c => cell_type c = JStr "markdown") md /\
     Forall (fun c => cell_type c = JStr "code") code) /\
  (forall (i j : nat) (c1 c2 : NotebookCell),
     nth_error (Utils.parse_tagged_content content) i = Some c1 ->
     nth_error (Utils.parse_tagged_content content) j = Some c2 ->
     cell_type c1 = JStr "code" -> cell_type c2 = JStr "markdown" ->
     j < i).
Proof.
  assert (Hm : Forall (fun c => cell_type c = JStr "markdown")
                 (Utils.md_cells (Utils.clean content)))
    by (apply Forall_map, Forall_forall; reflexivity).
  assert (Hc : Forall (fun c => cell_type c = JStr "code")
                 (Utils.code_cells (Utils.clean content)))
    by (apply Forall_map, Forall_forall; reflexivity).
  split.
  - exists (Utils.md_cells (Utils.clean content)),
           (Utils.code_cells (Utils.clean content)).
    split; [reflexivity | split; assumption].
  - intros i j c1 c2 H1 H2 T1 T2.
    unfold Utils.parse_tagged_content in H1, H2.
    set (md := Utils.md_cells (Utils.clean content)) in *.
    set (code := Utils.code_cells (Utils.clean content)) in *.
    destruct (Nat.lt_ge_cases i (length md)) as [Hi|Hi].
    + rewrite nth_error_app1 in H1 by exact Hi.
      apply nth_error_In in H1.
      rewrite Forall_forall in Hm. apply Hm in H1. congruence.
    + destruct (Nat.lt_ge_cases j (length md)) as [Hj|Hj]; [lia |].
      rewrite nth_error_app2 in H2 by exact Hj.
      apply nth_error_In in H2.
      rewrite Forall_forall in Hc. apply Hc in H2. congruence.
Qed.

Lemma utils_parse_markdown_first_witness :
  Utils.parse_tagged_content "<code>a</code><md>b</md>"
  = [text_cell "markdown" "b"; text_cell "code" "a"] /\ 0 < 1.
Proof.
  split; [reflexivity |].
  apply (proj2 (utils_parse_markdown_first "<code>a</code><md>b</md>")
           1 0 (text_cell "code" "a") (text_cell "markdown" "b"));
    reflexivity.
Defined.

Lemma marker_after_marker (b : string) :
  forall n, 0 < n < String.length version_marker ->
            Str.startswith (version_marker ++ b) (Str.drop n version_marker)
            = false.
Proof.
  intros n Hn;
    do 18 (destruct n as [|n]; [first [reflexivity | simpl in Hn; lia] |]);
    simpl in Hn; lia.
Qed.

(** X10. Whatever follows the first [<version_complete>] is ignored:
    a text, the marker and any further text parse like the text alone. *)
Theorem utils_parse_ignores_after_marker (a b : string) :
  Utils.parse_tagged_content (a ++ "<version_complete>" ++ b)
  = Utils.parse_tagged_content a.
Proof.
  fold version_marker. rewrite !utils_parse_scan. unfold Str.split_head.
  destruct (Str.find a version_marker) as [i|] eqn:Ea.
  - rewrite (find_app_found _ _ (version_marker ++ b) _ Ea).
    apply find_Some in Ea. destruct Ea as (_ & _ & Hi).
    rewrite take_app_le by lia. reflexivity.
  - rewrite (find_app_absent _ _ _ Ea (marker_after_marker b)).
    assert (Hf : Str.find (version_marker ++ b) version_marker = Some 0).
    { destruct (version_marker ++ b) eqn:E; [discriminate E |].
      cbn [Str.find]. rewrite <- E, startswith_self. reflexivity. }
    rewrite Hf. cbn [option_map]. rewrite take_app_ge. cbn [Str.take].
    rewrite append_nil_r. reflexivity.
Qed.

(** X11. White space around the text does not matter: a text between
    two blank texts parses like the text alone. *)
Theorem utils_parse_ignores_outer_space (w1 w2 content : string) :
  blank w1 = true -> blank w2 = true ->
  Utils.parse_tagged_content (w1 ++ content ++ w2)
  = Utils.parse_tagged_content content.
Proof.
  intros H1 H2. rewrite !utils_parse_scan. unfold Str.split_head.
  rewrite (find_blank_prefix version_marker "<"%char "version_complete>")
    by (reflexivity || exact H1).
  assert (Hc : forall sub, solid sub = true -> sub <> "" ->
                           confined sub content w2)
    by (intros; apply confined_blank; assumption).
  rewrite find_confined by (discriminate || (apply Hc; [reflexivity | discriminate])).
  destruct (Str.find content version_marker) as [i|] eqn:Ei;
    cbn [option_map].
  - apply find_Some in Ei. destruct Ei as (_ & _ & Hi).
    rewrite take_app_ge, (scan_cells_blank_prefix _ _ H1).
    rewrite take_app_le by lia. reflexivity.
  - rewrite (scan_cells_blank_prefix _ _ H1).
    apply scan_cells_confined; apply Hc; (reflexivity || discriminate).
Qed.

Lemma utils_parse_ignores_outer_space_witness :
  Utils.parse_tagged_content (nl ++ "<md>a</md>" ++ " ")
  = Utils.parse_tagged_content "<md>a</md>".
Proof.
  apply utils_parse_ignores_outer_space; reflexivity.
Defined.

Lemma find_none_contains (s sub : string) :
  Str.contains s sub = false -> Str.find s sub = None.
Proof.
  unfold Str.contains. destruct (Str.find s sub); [discriminate | reflexivity].
Qed.

Lemma finditer_absent (open close : string) :
  forall (x : string) (skip : nat),
    Str.find x close = None ->
    Re.finditer_from (Re.region open close) x skip = [].
Proof.
  assert (Hnone : forall x, Str.find x close = None ->
                            Re.region open close x = None).
  { intros x Hx. unfold Re.region.
    destruct (Str.startswith x open); [|reflexivity].
    rewrite find_absent; [reflexivity |].
    intros k. rewrite drop_drop. apply find_None. exact Hx. }
  induction x as [|c x IH]; intros skip Hx.
  - destruct skip; simpl; [rewrite (Hnone "" Hx) |]; reflexivity.
  - assert (Hx' : Str.find x close = None).
    { apply find_absent. intros k.
      apply (find_None close _ Hx (S k)). }
    destruct skip; cbn [Re.finditer_from].
    + rewrite (Hnone _ Hx). apply IH, Hx'.
    + apply IH, Hx'.
Qed.

Lemma finditer_skip_all (m : string -> option (nat * string)) :
  forall (x : string) (skip : nat),
    String.length x < skip -> Re.finditer_from m x skip = [].
Proof.
  induction x as [|c x IH]; intros [|skip] H; simpl in *; try lia;
    try reflexivity.
  apply IH. lia.
Qed.

Lemma finditer_skip_exact (m : string -> option (nat * string)) :
  m "" = None ->
  forall (x : string) (skip : nat),
    String.length x <= skip -> Re.finditer_from m x skip = [].
Proof.
  intros Hm. induction x as [|c x IH]; intros [|skip] H; simpl in *;
    try lia; try reflexivity.
  - rewrite Hm. reflexivity.
  - apply IH. lia.
Qed.

Lemma region_whole (open close body : string) :
  close <> "" ->
  Str.find body close = None ->
  (forall n, 0 < n < String.length close ->
             Str.startswith close (Str.drop n close) = false) ->
  Re.finditer (Re.region open close) (open ++ body ++ close) = [body].
Proof.
  intros Hne Hb Hself. unfold Re.finditer.
  assert (Hr : Re.region open close (open ++ body ++ close)
               = Some (String.length open + String.length body
                       + String.length close, body)).
  { unfold Re.region. rewrite startswith_self, drop_app.
    assert (Hf : Str.find (body ++ close) close = Some (String.length body)).
    { replace (body ++ close) with (body ++ close ++ "")
        by (rewrite append_nil_r; reflexivity).
      rewrite (find_app_absent close body (close ++ "") Hb).
      - destruct (close ++ "") eqn:E.
        + destruct close; [congruence | discriminate E].
        + cbn [Str.find]. rewrite <- E, startswith_self. cbn [option_map].
          f_equal. lia.
      - intros n Hn. rewrite append_nil_r. apply Hself, Hn. }
    rewrite Hf.
    replace (String.length body) with (String.length body + 0) at 2 by lia.
    rewrite take_app_ge. cbn [Str.take]. rewrite append_nil_r. reflexivity. }
  destruct (open ++ body ++ close) as [|c rest] eqn:E.
  - exfalso. apply (f_equal String.length) in E.
    rewrite !length_append in E. destruct close; [congruence |].
    simpl in E. lia.
  - cbn [Re.finditer_from]. rewrite Hr. f_equal.
    apply finditer_skip_exact.
    + clear - Hne. unfold Re.region.
      destruct open; destruct close; try congruence; reflexivity.
    + apply (f_equal String.length) in E. rewrite !length_append in E.
      simpl in E. lia.
Qed.

(** X12. A text that is one complete region yields exactly one cell:
    [<md>body</md>] gives the markdown cell with the trimmed body, and
    [<code>body</code>] the code cell with the trimmed body after the
    removal of the fence markers, provided the body holds no closing tag
    and no completion marker. *)
Theorem utils_parse_single_region (body : string) :
  Str.contains body "</md>" = false ->
  Str.contains body "</code>" = false ->
  Str.contains body "<version_complete>" = false ->
  Utils.parse_tagged_content ("<md>" ++ body ++ "</md>")
  = [text_cell "markdown" (Str.strip body)]
  /\
  Utils.parse_tagged_content ("<code>" ++ body ++ "</code>")
  = [text_cell "code" (Re.erase Utils.fence_marker (Str.strip body))].
Proof.
  intros Hm Hc Hv.
  apply find_none_contains in Hm. apply find_none_contains in Hc.
  apply find_none_contains in Hv.
  assert (Hfind : forall tag close sub : string,
             In tag ["<md>"; "<code>"] -> In close ["</md>"; "</code>"] ->
             In sub ["</md>"; "</code>"; "<version_complete>"] ->
             sub <> close ->
             Str.find (tag ++ body ++ close) sub = None).
  { intros tag close sub Ht Hcl Hs Hneq.
    assert (Hb : Str.find body sub = None)
      by (destruct Hs as [<-|[<-|[<-|[]]]]; assumption).
    assert (Ha : Str.find (tag ++ body) sub = None).
    { destruct Ht as [<-|[<-|[]]]; destruct Hs as [<-|[<-|[<-|[]]]];
        cbn; rewrite Hb; reflexivity. }
    rewrite <- append_assoc.
    rewrite (find_app_absent sub (tag ++ body) close Ha).
    - destruct Hcl as [<-|[<-|[]]]; destruct Hs as [<-|[<-|[<-|[]]]];
        try congruence; reflexivity.
    - intros n Hn.
      destruct Hcl as [<-|[<-|[]]]; destruct Hs as [<-|[<-|[<-|[]]]];
        do 18 (destruct n as [|n];
               [first [reflexivity | simpl in Hn; lia] |]);
        simpl in Hn; lia. }
  assert (Hself : forall close, In close ["</md>"; "</code>"] ->
             forall n, 0 < n < String.length close ->
                       Str.startswith close (Str.drop n close) = false).
  { intros close Hcl n Hn. destruct Hcl as [<-|[<-|[]]];
      do 8 (destruct n as [|n]; [first [reflexivity | simpl in Hn; lia] |]);
      simpl in Hn; lia. }
  split; rewrite utils_parse_scan; unfold Str.split_head;
    fold version_marker; unfold version_marker;
    rewrite Hfind by (simpl; auto; discriminate);
    unfold scan_cells, Utils.md_cells, Utils.code_cells, Re.finditer.
  - rewrite (finditer_absent "<code>" "</code>")
      by (apply Hfind; simpl; auto; discriminate).
    fold (Re.finditer (Re.region "<md>" "</md>") ("<md>" ++ body ++ "</md>")).
    rewrite region_whole; try assumption; try discriminate;
      [reflexivity | apply Hself; simpl; auto].
  - rewrite (finditer_absent "<md>" "</md>")
      by (apply Hfind; simpl; auto; discriminate).
    fold (Re.finditer (Re.region "<code>" "</code>")
            ("<code>" ++ body ++ "</code>")).
    rewrite region_whole; try assumption; try discriminate;
      [reflexivity | apply Hself; simpl; auto].
Qed.

Lemma utils_parse_single_region_witness :
  Utils.parse_tagged_content ("<md>" ++ " hello " ++ "</md>")
  = [text_cell "markdown" "hello"]
  /\
  Utils.parse_tagged_content ("<code>" ++ "x = 1" ++ "</code>")
  = [text_cell "code" "x = 1"].
Proof.
  split.
  - apply (proj1 (utils_parse_single_region " hello "
                    eq_refl eq_refl eq_refl)).
  - apply (proj2 (utils_parse_single_region "x = 1"
                    eq_refl eq_refl eq_refl)).
Defined.

(** ** Shape of the parsed cells *)

Lemma rstrip_head (c : ascii) (s : string) :
  Str.isspace c = false ->
  exists r, Str.rstrip (String c s) = String c r.
Proof.
  intros Hc. cbn [Str.rstrip]. destruct (Str.rstrip s); rewrite ?Hc;
    eexists; reflexivity.
Qed.

Lemma rstrip_cons (c d : ascii) (s r : string) :
  Str.rstrip s = String d r -> Str.rstrip (String c s) = String c (String d r).
Proof. intros H. cbn [Str.rstrip]. rewrite H. reflexivity. Qed.

Lemma rstrip_idempotent (s : string) : Str.rstrip (Str.rstrip s) = Str.rstrip s.
Proof.
  induction s as [|c s IH]; [reflexivity |].
  destruct (Str.rstrip s) as [|d r] eqn:E.
  - cbn [Str.rstrip]. rewrite E.
    destruct (Str.isspace c) eqn:Ec; [reflexivity |].
    cbn [Str.rstrip]. rewrite Ec. reflexivity.
  - rewrite (rstrip_cons c d s r E). apply rstrip_cons. exact IH.
Qed.

Lemma strip_idempotent (s : string) : Str.strip (Str.strip s) = Str.strip s.
Proof.
  unfold Str.strip.
  assert (Hl : Str.lstrip s = "" \/
               exists c r, Str.lstrip s = String c r /\ Str.isspace c = false).
  { induction s as [|c s IH]; [left; reflexivity |].
    cbn [Str.lstrip]. destruct (Str.isspace c) eqn:Ec; [exact IH |].
    right. exists c, s. split; [reflexivity | exact Ec]. }
  destruct Hl as [->|(c & r & -> & Hc)]; [reflexivity |].
  destruct (rstrip_head c r Hc) as [r' Hr]. rewrite Hr.
  cbn [Str.lstrip]. rewrite Hc, <- Hr. apply rstrip_idempotent.
Qed.

Lemma strip_not_blank (s : string) :
  String.eqb (Str.strip s) "" = false -> blank (Str.strip s) = false.
Proof.
  intros H. rewrite <- strip_empty, strip_idempotent. exact H.
Qed.

Lemma blank_join_pieces (pieces : list string) :
  pieces <> [] ->
  Forall (fun p => blank p = false) pieces ->
  blank (Str.join nl pieces) = false.
Proof.
  intros Hne H. destruct H as [|p rest Hp _]; [congruence |].
  unfold Str.join. cbn [String.concat]. destruct rest; [exact Hp |].
  rewrite blank_app, Hp. reflexivity.
Qed.

(** X13. Every cell either parser returns is a plain
    [NotebookCell(kind, text)] with kind [markdown] or [code]: one string
    as source, no outputs, empty metadata.  The markdown cells of the
    [notebook_utils.py] parser carry a trimmed text. *)
Theorem parsers_build_plain_cells (content : string) :
  Forall parsed_cell (Utils.parse_tagged_content content) /\
  Forall parsed_cell (V1.parse_tagged_content content) /\
  (forall (c : NotebookCell) (text : string),
     In c (Utils.parse_tagged_content content) ->
     c = text_cell "markdown" text -> Str.strip text = text) /\
  (forall ty text : string,
     source (text_cell ty text) = [JStr text] /\
     outputs (text_cell ty text) = JList [] /\
     cell_metadata (text_cell ty text) = JDict []).
Proof.
  split; [|split; [|split]].
  - unfold Utils.parse_tagged_content, Utils.md_cells, Utils.code_cells.
    apply Forall_app. split; apply Forall_map, Forall_forall; intros;
      eexists _, _; split; try reflexivity; auto.
  - unfold V1.parse_tagged_content.
    assert (Hflush : forall st,
               Forall parsed_cell (V1.out st) /\
               (forall ty, V1.current_type st = Some ty ->
                           ty = "markdown" \/ ty = "code") ->
               Forall parsed_cell (V1.flush st)).
    { intros st [H Ht]. unfold V1.flush.
      destruct (V1.current_type st) as [ty|]; [|exact H].
      destruct (V1.current_content st); [exact H |].
      apply Forall_app. split; [exact H |].
      constructor; [|constructor]. eexists _, _. split; [reflexivity |].
      apply Ht. reflexivity. }
    destruct (Str.contains content "<md>" || Str.contains content "<code>").
    + unfold V1.tagged_cells. apply Hflush.
      apply fold_left_keeps with
        (P := fun st => Forall parsed_cell (V1.out st) /\
                        (forall ty, V1.current_type st = Some ty ->
                                    ty = "markdown" \/ ty = "code")).
      * intros st part Hst. pose proof (Hflush st Hst) as Hf.
        destruct Hst as [H Ht]. unfold V1.tagged_step.
        destruct (negb (String.eqb (Str.strip part) ""));
          [|split; assumption].
        destruct (String.eqb part "<md>");
          [split; cbn; auto; intros ty Hty; injection Hty as <-; auto |].
        destruct (String.eqb part "<code>");
          [split; cbn; auto; intros ty Hty; injection Hty as <-; auto |].
        destruct (negb (Str.startswith part "</")); [|split; assumption].
        destruct (V1.current_type st) as [ty0|] eqn:Ety;
          [|split; [assumption | rewrite Ety; discriminate]].
        split; cbn [V1.out V1.current_type]; [exact H |].
        first [exact Ht | rewrite Ety in Ht; exact Ht | rewrite Ety; exact Ht].
      * split; [constructor | intros ty Hty; discriminate Hty].
    + unfold V1.fallback_cells.
      apply fold_left_keeps with (P := Forall parsed_cell); [|constructor].
      intros acc part H. unfold V1.fallback_step.
      repeat match goal with
             | |- context [if ?b then _ else _] => destruct b
             end; auto; apply Forall_app; split; auto;
        (constructor; [|constructor]); eexists _, _; split;
        try reflexivity; auto.
  - intros c text Hin ->.
    unfold Utils.parse_tagged_content, Utils.md_cells, Utils.code_cells in Hin.
    apply in_app_or in Hin. destruct Hin as [Hin|Hin];
      apply in_map_iff in Hin; destruct Hin as (body & Hb & _).
    + injection Hb as <-. apply strip_idempotent.
    + discriminate Hb.
  - intros ty text. repeat split.
Qed.

Lemma parsers_build_plain_cells_witness :
  Str.strip "b" = "b".
Proof.
  apply (proj1 (proj2 (proj2 (parsers_build_plain_cells "<md> b </md>")))
           (text_cell "markdown" "b") "b");
    [left |]; reflexivity.
Defined.

(** ** More on the parser of [NeuralNotebook_V1.py] *)

(** X14. The parser of [NeuralNotebook_V1.py] never returns a cell
    with an empty or blank text: regions and segments without text are
    dropped. *)
Theorem v1_parse_never_blank (content : string) :
  Forall filled_cell (V1.parse_tagged_content content).
Proof.
  unfold V1.parse_tagged_content.
  set (ok := fun st : V1.scan =>
               Forall filled_cell (V1.out st) /\
               (forall ty, V1.current_type st = Some ty ->
                           ty = "markdown" \/ ty = "code") /\
               Forall (fun p => blank p = false) (V1.current_content st)).
  assert (Hflush : forall st, ok st -> Forall filled_cell (V1.flush st)).
  { intros st (H & Ht & Hp). unfold V1.flush.
    destruct (V1.current_type st) as [ty|]; [|exact H].
    destruct (V1.current_content st) as [|p ps] eqn:Ec; [exact H |].
    apply Forall_app. split; [exact H |].
    constructor; [|constructor]. eexists _, _. split; [reflexivity |].
    split; [apply Ht; reflexivity |].
    apply blank_join_pieces; [discriminate | exact Hp]. }
  destruct (Str.contains content "<md>" || Str.contains content "<code>").
  - unfold V1.tagged_cells. apply Hflush.
    apply fold_left_keeps with (P := ok).
    + intros st part Hst. pose proof (Hflush st Hst) as Hf.
      destruct Hst as (H & Ht & Hp). unfold V1.tagged_step.
      destruct (negb (String.eqb (Str.strip part) "")) eqn:En;
        [|repeat split; assumption].
      apply negb_true_iff in En.
      destruct (String.eqb part "<md>");
        [repeat split; cbn; auto; intros ty Hty; injection Hty as <-; auto |].
      destruct (String.eqb part "<code>");
        [repeat split; cbn; auto; intros ty Hty; injection Hty as <-; auto |].
      destruct (negb (Str.startswith part "</"));
        [|repeat split; assumption].
      destruct (V1.current_type st) as [ty|] eqn:Ety;
        [|repeat split; try assumption; rewrite Ety; discriminate].
      repeat split; cbn [V1.out V1.current_type V1.current_content].
      * exact H.
      * first [exact Ht | rewrite Ety in Ht; exact Ht | rewrite Ety; exact Ht].
      * apply Forall_app. split; [exact Hp |].
        constructor; [apply strip_not_blank, En | constructor].
    + repeat split; cbn; [constructor | discriminate | constructor].
  - unfold V1.fallback_cells.
    apply fold_left_keeps with (P := Forall filled_cell); [|constructor].
    intros acc part H. unfold V1.fallback_step.
    destruct (negb (String.eqb (Str.strip part) "")) eqn:En0; [|exact H].
    apply negb_true_iff in En0.
    destruct (Str.startswith part "```python").
    + destruct (negb (String.eqb (Str.strip _) "")) eqn:En; [|exact H].
      apply negb_true_iff in En.
      apply Forall_app. split; [exact H |]. constructor; [|constructor].
      eexists _, _. split; [reflexivity |]. split; [auto |].
      apply strip_not_blank, En.
    + apply Forall_app. split; [exact H |]. constructor; [|constructor].
      eexists _, _. split; [reflexivity |]. split; [auto |].
      apply strip_not_blank, En0.
Qed.

Lemma split_no_match (m : string -> option nat) :
  forall s : string,
    (forall k, m (Str.drop k s) = None) ->
    Re.split m s = [s].
Proof.
  unfold Re.split.
  assert (H : forall s, (forall k, m (Str.drop k s) = None) ->
                        Re.split_from m s 0 = (s, [])).
  { induction s as [|c s IH]; intros Hk; [reflexivity |].
    cbn [Re.split_from]. rewrite (Hk 0 : m (String c s) = None).
    rewrite IH; [reflexivity |]. intros k. apply (Hk (S k)). }
  intros s Hs. rewrite (H s Hs). reflexivity.
Qed.

(** X15. Plain prose becomes one markdown cell: a text without [<md>],
    [<code>] and [```python] is returned by the parser of
    [NeuralNotebook_V1.py] as a single markdown cell holding the trimmed
    text, or as no cell when the text is blank. *)
Theorem v1_parse_plain_prose (content : string) :
  Str.contains content "<md>" = false ->
  Str.contains content "<code>" = false ->
  Str.contains content "```python" = false ->
  V1.parse_tagged_content content
  = if blank content then [] else [text_cell "markdown" (Str.strip content)].
Proof.
  intros Hm Hc Hf. unfold V1.parse_tagged_content. rewrite Hm, Hc.
  cbn [orb]. unfold V1.fallback_cells.
  apply find_none_contains in Hf.
  rewrite split_no_match.
  - cbn [fold_left]. unfold V1.fallback_step.
    rewrite (find_None _ _ Hf 0 : Str.startswith content "```python" = false).
    rewrite strip_empty. destruct (blank content); reflexivity.
  - intros k. unfold V1.fenced_block, Re.region.
    rewrite (find_None _ _ Hf k). reflexivity.
Qed.

Lemma v1_parse_plain_prose_witness :
  V1.parse_tagged_content " Some notes. "
  = [text_cell "markdown" "Some notes."].
Proof.
  apply (v1_parse_plain_prose " Some notes. "); reflexivity.
Defined.

(** ** Selection in the window *)

(** X16. The window keeps its selection valid: [new_notebook] and
    [update_status_bar] leave a selection that is absent or names a
    cell, and [add_cell] and [delete_current_cell] preserve that.  After
    [add_cell] with a cell selected, the new cell sits right after it and
    is the selected one. *)
Theorem window_selection_stays_valid (w : Window) (cell_type : string) :
  selection_ok (App.new_notebook w) /\
  selection_ok (App.update_status_bar w) /\
  (selection_ok w ->
   selection_ok (App.add_cell w cell_type) /\
   selection_ok (fst (App.delete_current_cell w)) /\
   length (cells (notebook (notebook_app (App.add_cell w cell_type))))
   = S (length (cells (notebook (notebook_app w)))) /\
   (forall cur : Z,
      current_editing_cell w = Some cur ->
      current_editing_cell (App.add_cell w cell_type) = Some (cur + 1)%Z /\
      exists text : string,
        nth_error (cells (notebook (notebook_app (App.add_cell w cell_type))))
                  (Z.to_nat (cur + 1))
        = Some (text_cell cell_type text))).
Proof.
  split; [|split].
  - unfold selection_ok. cbn. lia.
  - unfold selection_ok, App.update_status_bar.
    destruct (current_editing_cell w) as [cur|] eqn:E; [|rewrite E; exact I].
    destruct (in_range cur (cells (notebook (notebook_app w)))) eqn:Er.
    + rewrite E. apply in_range_spec. exact Er.
    + cbn. exact I.
  - intros Hok. unfold selection_ok in Hok.
    split; [|split; [|split]].
    + unfold selection_ok, App.add_cell.
      destruct (current_editing_cell w) as [cur|] eqn:E.
      * cbn [current_editing_cell notebook_app with_notebook notebook].
        unfold add_cell. destruct (in_range (cur + 1) _);
          cbn [with_cells cells];
          rewrite ?length_list_insert, ?length_app; simpl; lia.
      * cbn [with_app current_editing_cell]. rewrite E. exact I.
    + unfold selection_ok, App.delete_current_cell.
      destruct (current_editing_cell w) as [cur|] eqn:E;
        [|cbn [fst]; rewrite E; exact I].
      pose proof Hok as Hr. apply in_range_spec in Hr. rewrite Hr.
      unfold delete_cell. rewrite Hr.
      cbn [fst current_editing_cell notebook_app with_notebook notebook with_cells
           cells].
      rewrite length_list_del by lia.
      destruct (0 <? Z.of_nat (length (cells (notebook (notebook_app w))) - 1))%Z
        eqn:E0; [|exact I].
      apply Z.ltb_lt in E0. lia.
    + unfold App.add_cell.
      destruct (current_editing_cell w) as [cur|];
        cbn [notebook_app with_app with_notebook notebook]; unfold add_cell;
        try destruct (in_range (cur + 1) _);
        cbn [with_cells cells];
        rewrite ?length_list_insert, ?length_app; simpl; lia.
    + intros cur E. rewrite E in Hok. unfold App.add_cell. rewrite E.
      cbn [current_editing_cell notebook_app with_notebook notebook].
      split; [reflexivity |]. eexists.
      unfold add_cell.
      destruct (in_range (cur + 1) (cells (notebook (notebook_app w)))) eqn:Er;
        cbn [with_cells cells].
      * apply nth_error_list_insert_eq. apply in_range_spec in Er. lia.
      * apply in_range_false in Er.
        rewrite nth_error_app2 by lia.
        replace (Z.to_nat (cur + 1) - length (cells (notebook (notebook_app w))))
          with 0 by lia.
        reflexivity.
Qed.

Lemma window_selection_stays_valid_witness :
  selection_ok (App.add_cell (App.new_notebook
                                (mkWindow sample_app None "single" "llama3" 0))
                             "code") /\
  current_editing_cell
    (App.add_cell (App.new_notebook
                     (mkWindow sample_app None "single" "llama3" 0)) "code")
  = Some 1%Z.
Proof.
  pose (w := App.new_notebook (mkWindow sample_app None "single" "llama3" 0)).
  assert (Hok : selection_ok w) by (unfold selection_ok; cbn; lia).
  destruct (proj2 (proj2 (window_selection_stays_valid w "code")) Hok)
    as (Ha & _ & _ & Hc).
  split; [exact Ha |]. apply (Hc 0%Z). reflexivity.
Defined.

(** ** Updates of the placeholder *)

Lemma add_cells_append (new_cells : list NotebookCell) :
  forall (doc : NotebookDocument) (g : Z) (i : nat),
    (Z.of_nat (length (cells doc)) <= g + Z.of_nat i)%Z ->
    add_cells doc g i new_cells
    = with_cells doc (cells doc ++ new_cells)%list.
Proof.
  induction new_cells as [|c rest IH]; intros doc g i H.
  - cbn [add_cells]. rewrite app_nil_r, with_cells_same. reflexivity.
  - cbn [add_cells].
    assert (Ha : add_cell doc c (Some (g + Z.of_nat i)%Z)
                 = with_cells doc (cells doc ++ [c])%list).
    { unfold add_cell.
      assert (Hr : in_range (g + Z.of_nat i) (cells doc) = false)
        by (apply in_range_false; lia).
      rewrite Hr. reflexivity. }
    rewrite Ha, IH.
    + unfold with_cells. cbn [cells metadata]. rewrite <- app_assoc.
      reflexivity.
    + cbn [with_cells cells]. rewrite length_app. simpl. lia.
Qed.

(** X17. With a placeholder index that names no cell any more (at or
    beyond the end of the list), [parse_and_update_cells] deletes nothing
    and appends the parsed cells at the end, in order. *)
Theorem parse_and_update_cells_stale_index
    (parse : string -> list NotebookCell) (a : NotebookApp)
    (content : string) (g : Z) :
  generating_cell_index a = Some g ->
  (Z.of_nat (length (cells (notebook a))) <= g)%Z ->
  parse content <> [] ->
  exists a' : NotebookApp,
    parse_and_update_cells parse a content = Ok a' /\
    cells (notebook a') = (cells (notebook a) ++ parse content)%list /\
    generating_cell_index a'
    = Some (g + Z.of_nat (length (parse content)) - 1)%Z.
Proof.
  intros Hg Hr Hne. unfold parse_and_update_cells. rewrite Hg.
  destruct (parse content) as [|c new] eqn:Ep; [congruence |].
  eexists. split; [reflexivity |].
  cbn [notebook generating_cell_index]. split; [|f_equal; lia].
  unfold delete_cell.
  assert (Hf : in_range g (cells (notebook a)) = false)
    by (apply in_range_false; lia).
  rewrite Hf. cbn [fst]. rewrite add_cells_append by lia. reflexivity.
Qed.

Lemma parse_and_update_cells_stale_index_witness :
  exists a' : NotebookApp,
    parse_and_update_cells Utils.parse_tagged_content
      {| notebook := sample_doc; generating_cell_index := Some 5%Z;
         derive_mode_in_progress := false |} "<md>a</md>" = Ok a' /\
    cells (notebook a') = (cells sample_doc ++ [text_cell "markdown" "a"])%list.
Proof.
  destruct (parse_and_update_cells_stale_index Utils.parse_tagged_content
              {| notebook := sample_doc; generating_cell_index := Some 5%Z;
                 derive_mode_in_progress := false |} "<md>a</md>" 5%Z
              eq_refl ltac:(simpl; lia) ltac:(discriminate))
    as (a' & Hrun & Hcells & _).
  exists a'. split; [exact Hrun | exact Hcells].
Defined.

(** X18. Two updates in a row: the second replaces only the last cell
    the first one inserted.  After updates that parse to [first] and then
    to [second] (both non-empty), the cells are the old ones before the
    placeholder, [first] without its last cell, [second], and the old
    cells after the placeholder.  When each update parses to one cell the
    second simply replaces the first. *)
Theorem parse_and_update_cells_twice
    (parse : string -> list NotebookCell) (a : NotebookApp)
    (content1 content2 : string) (g : Z) :
  generating_cell_index a = Some g ->
  (0 <= g < Z.of_nat (length (cells (notebook a))))%Z ->
  parse content1 <> [] ->
  parse content2 <> [] ->
  exists a1 a2 : NotebookApp,
    parse_and_update_cells parse a content1 = Ok a1 /\
    parse_and_update_cells parse a1 content2 = Ok a2 /\
    cells (notebook a2)
    = (firstn (Z.to_nat g) (cells (notebook a))
       ++ removelast (parse content1) ++ parse content2
       ++ skipn (S (Z.to_nat g)) (cells (notebook a)))%list /\
    generating_cell_index a2
    = Some (g + Z.of_nat (length (parse content1))
            + Z.of_nat (length (parse content2)) - 2)%Z.
Proof.
  intros Hg Hr Hn1 Hn2.
  set (old := cells (notebook a)) in *.
  set (p1 := parse content1) in *. set (p2 := parse content2) in *.
  assert (Hl1 : 0 < length p1) by (destruct p1; [congruence | simpl; lia]).
  pose proof (parse_and_update_cells_cells parse a content1 g Hg Hr Hn1)
    as H1.
  fold p1 old in H1.
  eexists. eexists. split; [exact H1 |].
  set (a1 := {| notebook := _; generating_cell_index := _;
                derive_mode_in_progress := derive_mode_in_progress a |})
    in *.
  set (g1 := (g + (Z.of_nat (length p1) - 1))%Z).
  assert (Hf : length (firstn (Z.to_nat g) old) = Z.to_nat g)
    by (rewrite length_firstn; lia).
  assert (Hr1 : (0 <= g1 < Z.of_nat (length (cells (notebook a1))))%Z).
  { unfold a1, g1. cbn [notebook with_cells cells].
    rewrite !length_app, Hf, length_skipn. lia. }
  pose proof (parse_and_update_cells_cells parse a1 content2 g1 eq_refl
                Hr1 Hn2) as H2.
  fold p2 in H2. split; [exact H2 |].
  cbn [notebook generating_cell_index with_cells cells].
  split; [|f_equal; unfold g1; lia].
  unfold a1. cbn [notebook with_cells cells].
  assert (Hp1 : p1 = (removelast p1 ++ [last p1 (text_cell "" "")])%list)
    by (apply app_removelast_last; exact Hn1).
  assert (Hlr : length (removelast p1) = length p1 - 1).
  { rewrite Hp1 at 2. rewrite length_app. simpl. lia. }
  set (pre := firstn (Z.to_nat g) old) in *.
  set (post := skipn (S (Z.to_nat g)) old).
  set (x := last p1 (text_cell "" "")) in *.
  assert (Hk : Z.to_nat g1 = length (pre ++ removelast p1)%list).
  { rewrite length_app, Hf, Hlr. unfold g1. lia. }
  assert (Hshape : (pre ++ p1 ++ post)%list
                   = ((pre ++ removelast p1) ++ x :: post)%list).
  { rewrite Hp1 at 1. rewrite <- !app_assoc. reflexivity. }
  fold g1. rewrite Hshape, Hk.
  rewrite firstn_app, firstn_all, Nat.sub_diag, firstn_0, app_nil_r.
  change (x :: post) with ([x] ++ post)%list.
  rewrite (app_assoc (pre ++ removelast p1)%list [x] post).
  replace (S (length (pre ++ removelast p1)%list))
    with (length ((pre ++ removelast p1) ++ [x])%list)
    by (rewrite (length_app _ [x]); simpl; lia).
  rewrite skipn_app, skipn_all, Nat.sub_diag, skipn_0. cbn [List.app].
  rewrite <- !app_assoc. reflexivity.
Qed.

Lemma parse_and_update_cells_twice_witness :
  exists a1 a2 : NotebookApp,
    parse_and_update_cells Utils.parse_tagged_content sample_app
      "<md>a</md><code>b</code>" = Ok a1 /\
    parse_and_update_cells Utils.parse_tagged_content a1
      "<md>a</md><code>b</code>" = Ok a2 /\
    cells (notebook a2)
    = [text_cell "markdown" "# Title"; text_cell "markdown" "a";
       text_cell "markdown" "a"; text_cell "code" "b";
       text_cell "code" "x = 1"].
Proof.
  destruct (parse_and_update_cells_twice Utils.parse_tagged_content
              sample_app "<md>a</md><code>b</code>"
              "<md>a</md><code>b</code>" 1%Z eq_refl
              ltac:(simpl; lia) ltac:(discriminate) ltac:(discriminate))
    as (a1 & a2 & H1 & H2 & Hc & _).
  exists a1, a2. split; [exact H1 | split; [exact H2 |]].
  rewrite Hc. reflexivity.
Defined.

(** ** Results and errors of a generation, [NeuralNotebook_V1.py] *)

Lemma parse_and_update_cells_Ok
    (parse : string -> list NotebookCell) (a : NotebookApp)
    (content : string) (g : Z) :
  generating_cell_index a = Some g ->
  exists a' : NotebookApp, parse_and_update_cells parse a content = Ok a'.
Proof.
  intros Hg. unfold parse_and_update_cells. rewrite Hg.
  destruct (parse content); eexists; reflexivity.
Qed.

(** The state [handle_ollama_result] writes: the update never fails once
    the index is there, and a text that ends in [...] goes into the
    placeholder. *)
Lemma v1_result_state (w : Window) (result : string) :
  (exists w' : Window, V1App.handle_ollama_result w result = Ok w') /\
  (generating_cell_index (notebook_app w) = None ->
   V1App.handle_ollama_result w result = Ok w) /\
  (forall g : Z,
     generating_cell_index (notebook_app w) = Some g ->
     generation_mode w = "derive" ->
     derive_mode_in_progress (notebook_app w) = true ->
     Str.contains result "<version_complete>" = false ->
     endswith (Str.strip result) "..." = true ->
     exists w' : Window,
       V1App.handle_ollama_result w result = Ok w' /\
       notebook (notebook_app w')
       = fst (update_cell (notebook (notebook_app w)) g (JStr result)) /\
       generating_cell_index (notebook_app w') = Some g /\
       derive_mode_in_progress (notebook_app w') = true).
Proof.
  split; [|split].
  - unfold V1App.handle_ollama_result.
    destruct (generating_cell_index (notebook_app w)) as [g|] eqn:Eg;
      [|eexists; reflexivity].
    repeat match goal with
           | |- context [if ?b then _ else _] => destruct b
           end;
      try (destruct (parse_and_update_cells_Ok V1.parse_tagged_content
                       (notebook_app w) result g Eg) as [a' ->];
           eexists; reflexivity);
      try (destruct (parse_and_update_cells_Ok V1.parse_tagged_content
                       (notebook_app w)
                       (Str.split_head result "<version_complete>") g Eg)
             as [a' ->]; eexists; reflexivity);
      eexists; reflexivity.
  - intros Hn. unfold V1App.handle_ollama_result. rewrite Hn. reflexivity.
  - intros g Hg Hm Hd Hc He. unfold V1App.handle_ollama_result.
    rewrite Hg, Hm, Hd, Hc, He. cbn [String.eqb andb negb].
    eexists. split; [reflexivity |].
    cbn [notebook_app with_app with_notebook notebook generating_cell_index
         derive_mode_in_progress].
    auto.
Qed.

(** ** The refresh of the editor *)

Lemma shown_cells_str (cs : list NotebookCell) :
  Forall str_source cs ->
  exists shown : list (string * string), shown_cells cs = Ok shown.
Proof.
  induction 1 as [|c cs Hc _ [shown IH]]; [eexists; reflexivity |].
  cbn [shown_cells]. rewrite (join_empty_str _ Hc), IH. cbn [bind].
  eexists. reflexivity.
Qed.

Lemma join_empty_Raise (src : list json) (e : exn) :
  Py.join_empty src = Raise e -> e = TypeError.
Proof.
  induction src as [|x src IH]; [discriminate |].
  cbn [Py.join_empty].
  destruct x; try (intros H; injection H as <-; reflexivity).
  destruct (Py.join_empty src); cbn [bind]; [discriminate |].
  intros H. injection H as <-. apply IH. reflexivity.
Qed.

Lemma update_editor_Raise (doc : NotebookDocument) (e : exn) :
  update_editor doc = Raise e ->
  e = TypeError /\ ~ Forall str_source (cells doc).
Proof.
  unfold update_editor. intros H. split.
  - revert H. induction (cells doc) as [|c cs IH]; [discriminate |].
    cbn [shown_cells].
    destruct (Py.join_empty (source c)) eqn:Ej; cbn [bind].
    + destruct (shown_cells cs); cbn [bind]; [discriminate |].
      intros H. injection H as <-. apply IH. reflexivity.
    + intros H. injection H as <-. eapply join_empty_Raise. exact Ej.
  - intros Hs. destruct (shown_cells_str _ Hs) as [shown Hok]. congruence.
Qed.

Lemma update_cell_str_source
    (doc : NotebookDocument) (index : Z) (content : json) :
  Forall str_source (cells doc) -> str_content content ->
  Forall str_source (cells (fst (update_cell doc index content))).
Proof.
  intros Hd Hc. unfold update_cell.
  destruct (in_range index (cells doc)); [|exact Hd].
  cbn [fst with_cells cells]. apply list_update_Forall; [|exact Hd].
  intros c _. exact Hc.
Qed.

Lemma parse_and_update_cells_str_source
    (a a' : NotebookApp) (content : string) :
  Forall str_source (cells (notebook a)) ->
  parse_and_update_cells V1.parse_tagged_content a content = Ok a' ->
  Forall str_source (cells (notebook a')).
Proof.
  intros Hs Hrun.
  destruct (parse_and_update_cells_notebook _ _ _ _ Hrun) as [-> | [g ->]];
    [exact Hs |].
  apply add_cells_str_source;
    [apply delete_cell_str_source; exact Hs | apply v1_parse_str_source].
Qed.

Lemma v1_result_state_str_source (w w' : Window) (result : string) :
  Forall str_source (cells (notebook (notebook_app w))) ->
  V1App.handle_ollama_result w result = Ok w' ->
  Forall str_source (cells (notebook (notebook_app w'))).
Proof.
  intros Hs. unfold V1App.handle_ollama_result.
  destruct (generating_cell_index (notebook_app w)) as [g|];
    [|intros H; injection H as <-; exact Hs].
  repeat match goal with
         | |- context [if ?b then _ else _] => destruct b
         end;
    try (match goal with
         | |- context [parse_and_update_cells ?p ?a ?c] =>
             destruct (parse_and_update_cells p a c) as [a'|e] eqn:Ep;
             cbn [bind]; [|discriminate];
             intros H; injection H as <-;
             cbn [notebook_app with_app notebook];
             exact (parse_and_update_cells_str_source _ _ _ Hs Ep)
         end).
  intros H. injection H as <-.
  cbn [notebook_app with_app with_notebook notebook].
  apply update_cell_str_source; [exact Hs |].
  repeat constructor. eexists. reflexivity.
Qed.

(** X19. [handle_ollama_result] of [NeuralNotebook_V1.py] raises nothing
    but the [TypeError] of its closing refresh of the editor, and that
    only when a source of the notebook it leaves holds something else
    than strings: without a placeholder index it returns at once and
    changes nothing, and on a notebook whose sources are strings it never
    raises and leaves such a notebook.  In derive mode a text without
    completion marker that ends in [...] is written into the placeholder
    as its source, and nothing else changes. *)
Theorem v1_handle_ollama_result_raises_on_refresh_only
    (w : Window) (result : string) :
  (generating_cell_index (notebook_app w) = None ->
   Slot.handle_ollama_result w result = (w, None)) /\
  (forall e : exn,
     snd (Slot.handle_ollama_result w result) = Some e ->
     e = TypeError /\
     ~ Forall str_source
         (cells (notebook
                   (notebook_app (fst (Slot.handle_ollama_result w result))))))
  /\
  (Forall str_source (cells (notebook (notebook_app w))) ->
   snd (Slot.handle_ollama_result w result) = None /\
   Forall str_source
     (cells (notebook
               (notebook_app (fst (Slot.handle_ollama_result w result))))))
  /\
  (forall g : Z,
     generating_cell_index (notebook_app w) = Some g ->
     generation_mode w = "derive" ->
     derive_mode_in_progress (notebook_app w) = true ->
     Str.contains result "<version_complete>" = false ->
     endswith (Str.strip result) "..." = true ->
     let w' := fst (Slot.handle_ollama_result w result) in
     notebook (notebook_app w')
     = fst (update_cell (notebook (notebook_app w)) g (JStr result)) /\
     generating_cell_index (notebook_app w') = Some g /\
     derive_mode_in_progress (notebook_app w') = true).
Proof.
  destruct (v1_result_state w result) as ([w1 Hrun] & _ & Hdots).
  split; [|split; [|split]].
  - intros Hn. unfold Slot.handle_ollama_result. rewrite Hn. reflexivity.
  - intros e. unfold Slot.handle_ollama_result.
    destruct (generating_cell_index (notebook_app w)); [|discriminate].
    rewrite Hrun.
    destruct (update_editor (notebook (notebook_app w1))) eqn:Eu;
      cbn [fst snd]; [discriminate |].
    intros H. injection H as <-. apply update_editor_Raise. exact Eu.
  - intros Hs.
    pose proof (v1_result_state_str_source w w1 result Hs Hrun) as Hs1.
    unfold Slot.handle_ollama_result.
    destruct (generating_cell_index (notebook_app w));
      [|split; [reflexivity | exact Hs]].
    rewrite Hrun. destruct (shown_cells_str _ Hs1) as [shown Hok].
    unfold update_editor. rewrite Hok. split; [reflexivity | exact Hs1].
  - intros g Hg Hm Hd Hc He. cbn zeta.
    destruct (Hdots g Hg Hm Hd Hc He) as (w2 & Hrun2 & Hnb & Hi & Hf).
    unfold Slot.handle_ollama_result. rewrite Hg, Hrun2.
    destruct (update_editor (notebook (notebook_app w2))); cbn [fst];
      auto.
Qed.

Lemma v1_handle_ollama_result_raises_on_refresh_only_witness :
  Slot.handle_ollama_result
    (mkWindow sample_app None "derive" "llama3" 0) "Thinking..."
  = (mkWindow
       {| notebook :=
            fst (update_cell (notebook sample_app) 1 (JStr "Thinking..."));
          generating_cell_index := Some 1%Z;
          derive_mode_in_progress := true |}
       None "derive" "llama3" 0, None).
Proof.
  pose (w := mkWindow sample_app None "derive" "llama3" 0).
  destruct (v1_handle_ollama_result_raises_on_refresh_only w "Thinking...")
    as (_ & _ & Hstr & Hdots).
  destruct Hstr as [Hnone _].
  { repeat constructor; eexists; reflexivity. }
  destruct (Hdots 1%Z eq_refl eq_refl eq_refl eq_refl eq_refl)
    as (Hnb & Hi & Hf).
  destruct (Slot.handle_ollama_result w "Thinking...") as [w' e] eqn:E.
  cbn [fst snd] in *. subst e. reflexivity.
Defined.

(** X20. In derive mode the completion marker ends the session:
    [handle_ollama_result] on a text that holds [<version_complete>]
    clears [derive_mode_in_progress], and only the text before the first
    marker reaches the cells, so the same text with anything appended has
    the same effect. *)
Theorem v1_completion_marker_ends_derive
    (w : Window) (result more : string) (g : Z) :
  generating_cell_index (notebook_app w) = Some g ->
  generation_mode w = "derive" ->
  derive_mode_in_progress (notebook_app w) = true ->
  Str.contains result "<version_complete>" = true ->
  (exists (w' : Window) (a : NotebookApp),
     V1App.handle_ollama_result w result = Ok w' /\
     derive_mode_in_progress (notebook_app w') = false /\
     parse_and_update_cells V1.parse_tagged_content (notebook_app w)
       (Str.split_head result "<version_complete>") = Ok a /\
     notebook (notebook_app w') = notebook a) /\
  V1App.handle_ollama_result w (result ++ more)
  = V1App.handle_ollama_result w result.
Proof.
  intros Hg Hm Hd Hc. split.
  - unfold V1App.handle_ollama_result. rewrite Hg, Hm, Hd, Hc.
    cbn [String.eqb andb].
    destruct (parse_and_update_cells_Ok V1.parse_tagged_content (notebook_app w)
                (Str.split_head result "<version_complete>") g Hg)
      as [a Ha].
    rewrite Ha. cbn [bind]. eexists _, a. repeat split.
  - assert (Hc' : Str.contains (result ++ more) "<version_complete>" = true).
    { apply occurs_contains. apply contains_occurs in Hc.
      destruct Hc as (x & y & ->). exists x, (y ++ more).
      rewrite !append_assoc. reflexivity. }
    assert (Hs : Str.split_head (result ++ more) "<version_complete>"
                 = Str.split_head result "<version_complete>").
    { unfold Str.split_head. unfold Str.contains in Hc.
      destruct (Str.find result "<version_complete>") as [i|] eqn:Ei;
        [|discriminate Hc].
      rewrite (find_app_found _ _ more _ Ei).
      apply find_Some in Ei. destruct Ei as (_ & _ & Hi).
      apply take_app_le. lia. }
    unfold V1App.handle_ollama_result. rewrite Hg, Hm, Hd, Hc, Hc', Hs.
    reflexivity.
Qed.

Lemma v1_completion_marker_ends_derive_witness :
  V1App.handle_ollama_result (mkWindow sample_app None "derive" "llama3" 0)
    ("<md>a</md><version_complete>" ++ "Done")
  = V1App.handle_ollama_result (mkWindow sample_app None "derive" "llama3" 0)
      "<md>a</md><version_complete>".
Proof.
  apply (proj2 (v1_completion_marker_ends_derive
                  (mkWindow sample_app None "derive" "llama3" 0)
                  "<md>a</md><version_complete>" "Done" 1%Z
                  eq_refl eq_refl eq_refl eq_refl)).
Defined.

Lemma handle_error_after_append
    (a : NotebookApp) (cell : NotebookCell) (msg : string) :
  handle_ollama_error (append_placeholder a cell) msg
  = {| notebook := notebook a;
       generating_cell_index := None;
       derive_mode_in_progress := false |}.
Proof.
  unfold handle_ollama_error, append_placeholder.
  cbn [generating_cell_index notebook derive_mode_in_progress].
  assert (Hd : fst (delete_cell (add_cell (notebook a) cell None)
                      (Z.of_nat (length (cells (add_cell (notebook a) cell
                                                  None))) - 1))
               = notebook a).
  { cbn [add_cell with_cells cells]. rewrite length_app. cbn [length].
    replace (Z.of_nat (length (cells (notebook a)) + 1) - 1)%Z
      with (Z.of_nat (length (cells (notebook a)))) by lia.
    unfold delete_cell. cbn [with_cells cells].
    assert (Hr : in_range (Z.of_nat (length (cells (notebook a))))
                   (cells (notebook a) ++ [cell]) = true)
      by (apply in_range_spec; rewrite length_app; simpl; lia).
    rewrite Hr. cbn [fst]. unfold with_cells. cbn [cells metadata].
    rewrite Nat2Z.id.
    replace (cells (notebook a) ++ [cell])%list
      with (cells (notebook a) ++ cell :: [])%list by reflexivity.
    rewrite list_del_middle, app_nil_r. destruct (notebook a); reflexivity. }
  rewrite Hd. destruct (derive_mode_in_progress a); reflexivity.
Qed.

(** The error handler on the state an entry point left: the placeholder
    is the cell it removes. *)
Lemma v1_entry_then_error
    (w : Window) (cell_type msg : string) :
  (selection_ok w ->
   exists g : Z,
     generating_cell_index (notebook_app (V1App.generate_with_ollama w cell_type))
     = Some g /\
     (exists text : string,
        nth_error
          (cells (notebook (notebook_app (V1App.generate_with_ollama w cell_type))))
          (Z.to_nat g)
        = Some (text_cell cell_type text)) /\
     handle_ollama_error (notebook_app (V1App.generate_with_ollama w cell_type)) msg
     = {| notebook := notebook (notebook_app w);
          generating_cell_index := None;
          derive_mode_in_progress := false |})
  /\
  handle_ollama_error (notebook_app (V1App.continue_derive_mode w)) msg
  = {| notebook := notebook (notebook_app w);
       generating_cell_index := None;
       derive_mode_in_progress := false |}
  /\
  (forall prompt : string,
     1 < length (cells (notebook (notebook_app w))) ->
     handle_ollama_error
       (notebook_app (V1App.generate_in_derive_mode w (Some prompt) true)) msg
     = {| notebook := notebook (notebook_app w);
          generating_cell_index := None;
          derive_mode_in_progress := false |}).
Proof.
  split; [|split; [apply handle_error_after_append |]].
  2: { intros prompt Hlen. unfold V1App.generate_in_derive_mode.
       destruct (derive_mode_in_progress (notebook_app w));
         [apply handle_error_after_append |].
       assert (Hn : (Z.of_nat (length (cells (notebook (notebook_app w)))) <=? 1)%Z
                    = false) by (apply Z.leb_gt; lia).
       rewrite Hn. cbn [notebook_app]. rewrite handle_error_after_append.
       reflexivity. }
  intros Hok. unfold selection_ok in Hok. unfold V1App.generate_with_ollama.
  destruct (current_editing_cell w) as [cur|] eqn:Ec.
  - exists (cur + 1)%Z. cbn [notebook_app generating_cell_index notebook].
    set (cell := text_cell cell_type _).
    set (old := cells (notebook (notebook_app w))) in *.
    assert (Hadd : add_cell (notebook (notebook_app w)) cell (Some (cur + 1)%Z)
                   = with_cells (notebook (notebook_app w))
                       (firstn (Z.to_nat (cur + 1)) old
                        ++ cell :: skipn (Z.to_nat (cur + 1)) old)).
    { replace (cur + 1)%Z
        with (Z.of_nat (length (firstn (Z.to_nat (cur + 1)) old))) at 1
        by (rewrite length_firstn; lia).
      apply add_cell_at. symmetry. apply firstn_skipn. }
    assert (Hf : length (firstn (Z.to_nat (cur + 1)) old)
                 = Z.to_nat (cur + 1))
      by (rewrite length_firstn; lia).
    split; [reflexivity |]. split.
    + eexists. rewrite Hadd. cbn [with_cells cells].
      rewrite nth_error_app2 by lia. rewrite Hf, Nat.sub_diag. reflexivity.
    + unfold handle_ollama_error.
      cbn [generating_cell_index notebook derive_mode_in_progress].
      rewrite Hadd. unfold delete_cell. cbn [with_cells cells].
      assert (Hr : in_range (cur + 1)
                     (firstn (Z.to_nat (cur + 1)) old
                      ++ cell :: skipn (Z.to_nat (cur + 1)) old) = true).
      { apply in_range_spec. rewrite length_app, Hf. simpl. lia. }
      rewrite Hr. cbn [fst]. unfold with_cells. cbn [cells metadata].
      assert (Hdel : list_del (Z.to_nat (cur + 1))
                       (firstn (Z.to_nat (cur + 1)) old
                        ++ cell :: skipn (Z.to_nat (cur + 1)) old)
                     = old).
      { rewrite <- Hf at 1. rewrite list_del_middle. apply firstn_skipn. }
      rewrite Hdel.
      assert (Hdoc : {| cells := old; metadata := metadata (notebook (notebook_app w)) |}
                     = notebook (notebook_app w))
        by (unfold old; destruct (notebook (notebook_app w)); reflexivity).
      rewrite Hdoc. destruct (derive_mode_in_progress (notebook_app w)); reflexivity.
  - cbn [with_app notebook_app]. unfold append_placeholder at 1 2.
    cbn [generating_cell_index notebook]. eexists. split; [reflexivity |].
    split.
    + eexists. cbn [add_cell with_cells cells]. rewrite length_app.
      cbn [length].
      rewrite nth_error_app2 by lia.
      replace (Z.to_nat (Z.of_nat (length (cells (notebook (notebook_app w))) + 1) - 1)
               - length (cells (notebook (notebook_app w)))) with 0 by lia.
      reflexivity.
    + apply handle_error_after_append.
Qed.

Lemma slot_error_agrees (a : NotebookApp) (msg : string) :
  Forall str_source (cells (notebook (handle_ollama_error a msg))) ->
  Slot.handle_ollama_error a msg = (handle_ollama_error a msg, None).
Proof.
  unfold Slot.handle_ollama_error, handle_ollama_error. cbv beta zeta.
  destruct (generating_cell_index a) as [g|] eqn:Eg;
    [|rewrite ?Eg; reflexivity].
  cbn [notebook generating_cell_index derive_mode_in_progress].
  intros Hs.
  assert (Hd : Forall str_source (cells (fst (delete_cell (notebook a) g))))
    by (destruct (derive_mode_in_progress a); exact Hs).
  destruct (shown_cells_str _ Hd) as [shown Hok].
  unfold update_editor. rewrite Hok. reflexivity.
Qed.

(** X21. A request of [NeuralNotebook_V1.py] that fails before any
    result has been handled, on a notebook whose sources are strings:
    [handle_ollama_error], run on the state the entry point left, raises
    nothing, removes the placeholder the entry point inserted and leaves
    the notebook from before the request, with the index cleared and
    derive mode off.  This holds after [generate_with_ollama] in single
    mode (the selection being absent or on a cell), after
    [continue_derive_mode], and after [generate_in_derive_mode] building
    on a notebook of more than one cell.  The selection is not moved
    back: [generate_with_ollama] advanced it to the placeholder and there
    it stays, so it names a cell afterwards only if the selected cell was
    not the last one. *)
Theorem v1_early_failure_restores_notebook
    (w : Window) (cell_type msg : string) :
  Forall str_source (cells (notebook (notebook_app w))) ->
  let restored :=
    {| notebook := notebook (notebook_app w);
       generating_cell_index := None;
       derive_mode_in_progress := false |} in
  (selection_ok w ->
   let w1 := V1App.generate_with_ollama w cell_type in
   (exists (g : Z) (text : string),
      generating_cell_index (notebook_app w1) = Some g /\
      nth_error (cells (notebook (notebook_app w1))) (Z.to_nat g)
      = Some (text_cell cell_type text)) /\
   Slot.handle_ollama_error (notebook_app w1) msg = (restored, None) /\
   current_editing_cell w1
   = option_map (fun cur => (cur + 1)%Z) (current_editing_cell w) /\
   (selection_ok
      (with_app w1 (fst (Slot.handle_ollama_error (notebook_app w1) msg)))
    <->
    forall cur : Z,
      current_editing_cell w = Some cur ->
      (cur + 1 < Z.of_nat (length (cells (notebook (notebook_app w)))))%Z))
  /\
  Slot.handle_ollama_error (notebook_app (V1App.continue_derive_mode w)) msg
  = (restored, None)
  /\
  (forall prompt : string,
     1 < length (cells (notebook (notebook_app w))) ->
     Slot.handle_ollama_error
       (notebook_app (V1App.generate_in_derive_mode w (Some prompt) true)) msg
     = (restored, None)).
Proof.
  intros Hs. cbn zeta.
  destruct (v1_entry_then_error w cell_type msg) as (Hgen & Hcont & Hnew).
  assert (Hslot : forall a : NotebookApp,
             handle_ollama_error a msg
             = {| notebook := notebook (notebook_app w);
                  generating_cell_index := None;
                  derive_mode_in_progress := false |} ->
             Slot.handle_ollama_error a msg
             = ({| notebook := notebook (notebook_app w);
                   generating_cell_index := None;
                   derive_mode_in_progress := false |}, None)).
  { intros a Ha. rewrite slot_error_agrees; rewrite Ha; [reflexivity |].
    exact Hs. }
  split; [|split].
  - intros Hok. destruct (Hgen Hok) as (g & Hg & [text Ht] & Herr).
    split; [exists g, text; split; assumption |].
    split; [apply Hslot; exact Herr |].
    assert (Hcur : current_editing_cell
                     (V1App.generate_with_ollama w cell_type)
                   = option_map (fun cur => (cur + 1)%Z)
                       (current_editing_cell w)).
    { unfold V1App.generate_with_ollama.
      destruct (current_editing_cell w) as [cur|] eqn:E; [reflexivity |].
      cbn [with_app current_editing_cell option_map]. exact E. }
    split; [exact Hcur |].
    rewrite (Hslot _ Herr). cbn [fst]. unfold selection_ok in *.
    cbn [with_app current_editing_cell notebook_app notebook].
    rewrite Hcur.
    destruct (current_editing_cell w) as [cur|]; cbn [option_map].
    + split; [intros H c Hc; injection Hc as <-; lia |].
      intros H. specialize (H cur eq_refl). lia.
    + split; [intros _ c Hc; discriminate Hc | intros _; exact I].
  - apply Hslot. exact Hcont.
  - intros prompt Hlen. apply Hslot. apply Hnew. exact Hlen.
Qed.

Lemma v1_early_failure_restores_notebook_witness :
  Slot.handle_ollama_error
    (notebook_app (V1App.generate_with_ollama sample_window "code")) "timeout"
  = ({| notebook := sample_doc;
        generating_cell_index := None;
        derive_mode_in_progress := false |}, None) /\
  ~ selection_ok
      (with_app (V1App.generate_with_ollama sample_window "code")
         (fst (Slot.handle_ollama_error
                 (notebook_app
                    (V1App.generate_with_ollama sample_window "code"))
                 "timeout"))).
Proof.
  destruct (v1_early_failure_restores_notebook sample_window "code" "timeout")
    as (Hgen & _ & _).
  { repeat constructor; eexists; reflexivity. }
  destruct Hgen as (_ & Herr & _ & Hsel).
  { unfold selection_ok. simpl. lia. }
  split; [exact Herr |].
  intros Hok. pose proof (proj1 Hsel Hok 1%Z eq_refl) as Hlt.
  simpl in Hlt. lia.
Defined.



(** ** The JSON text inside a response *)

Lemma lstrip_app_solid (c : ascii) (a b : string) :
  Str.isspace c = false ->
  Str.lstrip (a ++ String c b) = Str.lstrip a ++ String c b.
Proof.
  intros Hc. induction a as [|d a IH]; cbn [append Str.lstrip].
  - rewrite Hc. reflexivity.
  - destruct (Str.isspace d); [exact IH | reflexivity].
Qed.

Lemma rstrip_app_solid (c : ascii) (a b : string) :
  Str.isspace c = false ->
  Str.rstrip (a ++ String c b) = a ++ String c (Str.rstrip b).
Proof.
  intros Hc. induction a as [|d a IH]; cbn [append Str.rstrip].
  - destruct (Str.rstrip b); [rewrite Hc |]; reflexivity.
  - rewrite IH. destruct a; reflexivity.
Qed.

Lemma rfind_absent (sub : string) :
  forall s : string,
    (forall k, Str.startswith (Str.drop k s) sub = false) ->
    Str.rfind s sub = None.
Proof.
  induction s as [|c s IH]; intros H;
    pose proof (H 0) as H0; cbn [Str.drop] in H0; cbn [Str.rfind].
  - rewrite H0. reflexivity.
  - rewrite IH; [rewrite H0; reflexivity |]. intros k. apply (H (S k)).
Qed.

Lemma rfind_char_app (c : ascii) (a q : string) :
  Str.contains q (String c "") = false ->
  Str.rfind (a ++ String c q) (String c "") = Some (String.length a).
Proof.
  intros Hq.
  assert (Hn : Str.rfind q (String c "") = None).
  { apply rfind_absent. apply find_None. unfold Str.contains in Hq.
    destruct (Str.find q (String c "")); [discriminate | reflexivity]. }
  induction a as [|d a IH]; cbn [append Str.rfind String.length].
  - rewrite Hn.
    pose proof (startswith_self (String c "") q) as Hs.
    cbn [append] in Hs. rewrite Hs. reflexivity.
  - rewrite IH. reflexivity.
Qed.

Lemma find_char_app (c : ascii) (p t : string) :
  Str.contains p (String c "") = false ->
  Str.find (p ++ String c t) (String c "") = Some (String.length p).
Proof.
  intros Hp. unfold Str.contains in Hp.
  destruct (Str.find p (String c "")) eqn:E; [discriminate |].
  rewrite (find_app_absent _ _ _ E).
  - assert (H0 : Str.find (String c t) (String c "") = Some 0).
    { pose proof (startswith_self (String c "") t) as Hs.
      cbn [append] in Hs. cbn [Str.find]. rewrite Hs. reflexivity. }
    rewrite H0. simpl. f_equal. lia.
  - intros n Hn. simpl in Hn. lia.
Qed.

Lemma extract_json_object (pre body post : string) :
  Str.contains pre "{" = false ->
  Str.contains post "}" = false ->
  extract_json (pre ++ "{" ++ body ++ "}" ++ post) = Some ("{" ++ body ++ "}").
Proof.
  intros Hpre Hpost.
  assert (Hs : Str.strip (pre ++ "{" ++ body ++ "}" ++ post)
               = Str.lstrip pre ++ "{" ++ body ++ "}" ++ Str.rstrip post).
  { unfold Str.strip.
    change ("{" ++ body ++ "}" ++ post)
      with (String "{" (body ++ "}" ++ post)).
    rewrite lstrip_app_solid by reflexivity.
    replace (Str.lstrip pre ++ String "{" (body ++ "}" ++ post))
      with ((Str.lstrip pre ++ "{" ++ body) ++ String "}" post)
      by (rewrite !append_assoc; reflexivity).
    rewrite rstrip_app_solid by reflexivity.
    rewrite !append_assoc. reflexivity. }
  assert (Hp' : Str.contains (Str.lstrip pre) "{" = false)
    by (apply (contains_part _ pre); [apply lstrip_occurs | exact Hpre]).
  assert (Hq' : Str.contains (Str.rstrip post) "}" = false)
    by (apply (contains_part _ post); [apply rstrip_occurs | exact Hpost]).
  set (p := Str.lstrip pre) in *. set (q := Str.rstrip post) in *.
  unfold extract_json. rewrite Hs.
  assert (Hf : Str.find (p ++ "{" ++ body ++ "}" ++ q) "{"
               = Some (String.length p))
    by (apply (find_char_app "{" p (body ++ "}" ++ q) Hp')).
  assert (Hr : Str.rfind (p ++ "{" ++ body ++ "}" ++ q) "}"
               = Some (String.length p + 1 + String.length body)).
  { replace (p ++ "{" ++ body ++ "}" ++ q)
      with ((p ++ "{" ++ body) ++ String "}" q)
      by (rewrite !append_assoc; reflexivity).
    rewrite (rfind_char_app "}" _ q Hq').
    rewrite !length_append. simpl. f_equal. lia. }
  rewrite Hf, Hr. cbn [Str.index_Z].
  assert (Hg : ((0 <=? Z.of_nat (String.length p))
                && (Z.of_nat (String.length p)
                    <? Z.of_nat (String.length p + 1 + String.length body)
                       + 1))%Z = true).
  { apply andb_true_iff. split; [apply Z.leb_le | apply Z.ltb_lt]; lia. }
  rewrite Hg. f_equal. unfold Str.slice.
  rewrite Nat2Z.id, drop_app.
  replace (Z.to_nat (Z.of_nat (String.length p + 1 + String.length body) + 1)
           - String.length p)
    with (String.length ("{" ++ body ++ "}") + 0)
    by (rewrite !length_append; simpl; lia).
  replace ("{" ++ body ++ "}" ++ q) with (("{" ++ body ++ "}") ++ q)
    by (rewrite !append_assoc; reflexivity).
  rewrite take_app_ge. destruct q; simpl; rewrite append_nil_r; reflexivity.
Qed.

(** X23. The structure request tolerates text around the JSON object.
    When the response is an object in braces with text before it that
    holds no opening brace and text after it that holds no closing brace,
    [generate_notebook_structure] hands exactly the object to
    [json.loads], and so returns what it returns for the object alone. *)
Theorem structure_response_tolerates_prose
    (loads : string -> result json) (capitalize : string -> string)
    (pre body post prompt : string) :
  Str.contains pre "{" = false ->
  Str.contains post "}" = false ->
  extract_json (pre ++ "{" ++ body ++ "}" ++ post)
  = Some ("{" ++ body ++ "}") /\
  generate_notebook_structure loads capitalize
    (Ok (pre ++ "{" ++ body ++ "}" ++ post)) prompt
  = generate_notebook_structure loads capitalize
      (Ok ("{" ++ body ++ "}")) prompt.
Proof.
  intros Hpre Hpost.
  pose proof (extract_json_object pre body post Hpre Hpost) as H.
  pose proof (extract_json_object "" body "" eq_refl eq_refl) as H0.
  cbn [append] in H0.
  split; [exact H |].
  unfold generate_notebook_structure. cbn [append]. cbn [append] in H.
  rewrite H, H0. reflexivity.
Qed.

Lemma structure_response_tolerates_prose_witness :
  extract_json
    ("Here is the plan: " ++ "{" ++ "'title': 'T', 'sections': []" ++ "}"
     ++ " Enjoy.")
  = Some ("{" ++ "'title': 'T', 'sections': []" ++ "}").
Proof.
  apply (proj1 (structure_response_tolerates_prose
                  (fun _ => Raise JSONDecodeError) (fun s => s)
                  "Here is the plan: " "'title': 'T', 'sections': []"
                  " Enjoy." "" eq_refl eq_refl)).
Defined.

(** ** A stream of results *)

Lemma last_default {A : Type} (l : list A) (a d d' : A) :
  last (a :: l) d = last (a :: l) d'.
Proof.
  revert a. induction l as [|b l IH]; intros a; [reflexivity |].
  change (last (b :: l) d = last (b :: l) d'). apply IH.
Qed.

Lemma last_app_default {A : Type} (p c : list A) (x : A) :
  last (p ++ c)%list x = last c (last p x).
Proof.
  destruct c as [|a c]; [rewrite app_nil_r; reflexivity |].
  rewrite (last_default c a (last p x) x).
  induction p as [|y p IH]; [reflexivity |].
  cbn [List.app]. rewrite <- IH. destruct p; reflexivity.
Qed.

Lemma handle_results_cells (parse : string -> list NotebookCell)
    (results : list string) :
  forall (a : NotebookApp) (pre acc post : list NotebookCell)
         (x : NotebookCell),
    cells (notebook a) = (pre ++ acc ++ x :: post)%list ->
    generating_cell_index a = Some (Z.of_nat (length pre + length acc)) ->
    exists a' : NotebookApp,
      handle_results (parse_and_update_cells parse) a results = Ok a' /\
      cells (notebook a')
      = (pre
         ++ (acc ++ concat (map (fun r => removelast (parse r)) results))
         ++ last (concat (map parse results)) x :: post)%list /\
      generating_cell_index a'
      = Some (Z.of_nat
                (length pre + length acc
                 + length (concat (map (fun r => removelast (parse r))
                                       results)))).
Proof.
  induction results as [|r rest IH]; intros a pre acc post x Hc Hg.
  - exists a. cbn [handle_results map concat last]. rewrite app_nil_r.
    split; [reflexivity |]. split; [exact Hc |]. rewrite Hg. f_equal. simpl.
    lia.
  - cbn [handle_results map concat].
    destruct (parse r) as [|c p] eqn:Ep.
    + assert (Hrun : parse_and_update_cells parse a r = Ok a)
        by (unfold parse_and_update_cells; rewrite Ep; reflexivity).
      rewrite Hrun. cbn [bind removelast List.app].
      apply (IH a pre acc post x Hc Hg).
    + set (g := Z.of_nat (length pre + length acc)) in *.
      assert (Hr : (0 <= g < Z.of_nat (length (cells (notebook a))))%Z).
      { rewrite Hc, !length_app. cbn [length]. unfold g. lia. }
      assert (Hne : parse r <> []) by (rewrite Ep; discriminate).
      rewrite (parse_and_update_cells_cells parse a r g Hg Hr Hne).
      cbn [bind]. rewrite Ep.
      set (a1 := {| notebook := _ |}).
      assert (Hf : firstn (Z.to_nat g) (cells (notebook a))
                   = (pre ++ acc)%list).
      { rewrite Hc, app_assoc. unfold g. rewrite Nat2Z.id.
        rewrite <- length_app. rewrite firstn_app, firstn_all.
        rewrite Nat.sub_diag. cbn [firstn]. apply app_nil_r. }
      assert (Hs : skipn (S (Z.to_nat g)) (cells (notebook a)) = post).
      { rewrite Hc, app_assoc. unfold g. rewrite Nat2Z.id.
        rewrite <- length_app.
        replace (S (length (pre ++ acc)%list))
          with (length ((pre ++ acc) ++ [x])%list)
          by (rewrite (length_app (pre ++ acc) [x]); simpl; lia).
        replace ((pre ++ acc) ++ x :: post)%list
          with (((pre ++ acc) ++ [x]) ++ post)%list
          by (rewrite <- !app_assoc; reflexivity).
        rewrite skipn_app, skipn_all, Nat.sub_diag. reflexivity. }
      assert (Hsplit : (c :: p) = (removelast (c :: p) ++ [last (c :: p) x])%list)
        by (apply app_removelast_last; discriminate).
      destruct (IH a1 pre (acc ++ removelast (c :: p))%list post
                  (last (c :: p) x)) as (a' & Hrun & Hcells & Hidx).
      * unfold a1. cbn [notebook with_cells cells]. rewrite Hf, Hs.
        rewrite Hsplit at 1. rewrite <- !app_assoc. reflexivity.
      * unfold a1. cbn [generating_cell_index]. f_equal.
        rewrite length_app.
        assert (Hl : length (c :: p)
                     = length (removelast (c :: p)) + 1).
        { rewrite Hsplit at 1. rewrite length_app. reflexivity. }
        unfold g. lia.
      * exists a'. split; [exact Hrun |]. split.
        -- rewrite Hcells. rewrite last_app_default.
           rewrite <- !app_assoc. reflexivity.
        -- rewrite Hidx. f_equal. rewrite !length_app. lia.
Qed.



(** ** The worker *)

Lemma concat_empty_cons (x : string) (l : list string) :
  String.concat "" (x :: l) = x ++ String.concat "" l.
Proof.
  destruct l; cbn [String.concat]; [rewrite append_nil_r |]; reflexivity.
Qed.

Lemma concat_empty_app (l1 l2 : list string) :
  String.concat "" (l1 ++ l2)%list
  = String.concat "" l1 ++ String.concat "" l2.
Proof.
  induction l1 as [|x l1 IH]; [reflexivity |].
  change ((x :: l1) ++ l2)%list with (x :: (l1 ++ l2))%list.
  rewrite !concat_empty_cons, IH, append_assoc. reflexivity.
Qed.

Lemma closes_cell_app (acc content : string) :
  closes_cell content = true -> closes_cell (acc ++ content) = true.
Proof.
  unfold closes_cell. intros H. apply orb_true_iff in H.
  apply orb_true_iff.
  destruct H as [H | H]; [left | right];
    apply occurs_contains; apply contains_occurs in H;
    destruct H as (x & y & ->); exists (acc ++ x), y;
    rewrite !append_assoc; reflexivity.
Qed.

Lemma section_loop_spec (contents : list string) :
  forall complete_result : string,
    String.concat "" (fst (section_loop complete_result contents))
    ++ snd (section_loop complete_result contents)
    = complete_result ++ String.concat "" contents /\
    Forall (fun e => closes_cell e = true)
           (fst (section_loop complete_result contents)) /\
    (fst (section_loop complete_result contents) = [] <->
     Forall (fun p => closes_cell p = false) contents).
Proof.
  induction contents as [|content rest IH]; intros acc.
  - cbn [section_loop fst snd String.concat]. rewrite append_nil_r.
    split; [reflexivity |]. split; [constructor |].
    split; intros _; [constructor | reflexivity].
  - cbn [section_loop]. fold (closes_cell content).
    rewrite concat_empty_cons.
    destruct (closes_cell content) eqn:Ec.
    + destruct (IH "") as (H1 & H2 & _).
      destruct (section_loop "" rest) as [emitted left].
      cbn [fst snd] in *. rewrite concat_empty_cons, append_assoc, H1.
      cbn [append]. rewrite append_assoc.
      split; [reflexivity |]. split.
      * constructor; [apply closes_cell_app; exact Ec | exact H2].
      * split; [discriminate |]. intros H. inversion H as [|? ? Hc _].
        congruence.
    + destruct (IH (acc ++ content)) as (H1 & H2 & H3).
      rewrite H1, append_assoc. split; [reflexivity |].
      split; [exact H2 |]. rewrite H3. split; intros H.
      * constructor; assumption.
      * inversion H; assumption.
Qed.

Lemma section_text_kept (section : json) (chat : stream) :
  titled section ->
  failure chat = None ->
  exists (emitted : list string) (left : string),
    generate_section section chat = Ok (emitted, left) /\
    String.concat "" emitted ++ left = whole_text chat.
Proof.
  intros [title Ht] Hf. unfold generate_section. rewrite Ht, Hf.
  cbn [bind].
  pose proof (section_loop_spec (parts chat) "") as H.
  destruct (section_loop "" (parts chat)) as [emitted left].
  exists emitted, left. split; [reflexivity | apply H].
Qed.

(** X25. [generate_section] loses no text and emits on closing tags
    only.  For a section with a title and a response that does not fail,
    the emitted texts followed by the returned text are the streamed
    text, part by part; every emitted text holds [</md>] or [</code>];
    and nothing is emitted exactly when no single part holds one of the
    two tags in full, whatever the text as a whole holds. *)
Theorem generate_section_keeps_text (section : json) (chat : stream) :
  titled section ->
  failure chat = None ->
  exists (emitted : list string) (left : string),
    generate_section section chat = Ok (emitted, left) /\
    String.concat "" emitted ++ left = whole_text chat /\
    Forall (fun e => closes_cell e = true) emitted /\
    (emitted = [] <->
     Forall (fun p => closes_cell p = false) (parts chat)).
Proof.
  intros [title Ht] Hf. unfold generate_section. rewrite Ht, Hf.
  cbn [bind].
  pose proof (section_loop_spec (parts chat) "") as H.
  destruct (section_loop "" (parts chat)) as [emitted left].
  exists emitted, left. split; [reflexivity | exact H].
Qed.

Lemma generate_section_keeps_text_witness :
  exists (emitted : list string) (left : string),
    generate_section (JDict [("title", JStr "Setup")])
      (mkStream ["<md>Intro</m"; "d>"; "<code>x</code>"; "tail"] None)
    = Ok (emitted, left) /\
    String.concat "" emitted ++ left
    = "<md>Intro</md><code>x</code>tail".
Proof.
  destruct (generate_section_keeps_text
              (JDict [("title", JStr "Setup")])
              (mkStream ["<md>Intro</m"; "d>"; "<code>x</code>"; "tail"]
                        None))
    as (emitted & left & Hrun & Hall & _).
  - exists (JStr "Setup"). reflexivity.
  - reflexivity.
  - exists emitted, left. split; [exact Hrun | exact Hall].
Defined.

Lemma concat_chars (s : string) :
  String.concat "" (map Py.str (Py.chars s)) = s.
Proof.
  induction s as [|c s IH]; [reflexivity |].
  cbn [Py.chars map]. rewrite concat_empty_cons, IH. reflexivity.
Qed.

Lemma result_texts_ready (texts : list string) :
  result_texts (map result_ready texts) = texts.
Proof.
  induction texts as [|t texts IH]; [reflexivity |].
  unfold result_texts in *. cbn [map flat_map List.app]. rewrite IH.
  reflexivity.
Qed.

Lemma sections_loop_spec (chats : nat -> stream) (sections : list json) :
  forall i : nat,
    Forall titled sections ->
    (forall k, i <= k < i + length sections -> failure (chats k) = None) ->
    exists texts : list string,
      sections_loop sections chats i = (map result_ready texts, None) /\
      String.concat "" texts
      = String.concat ""
          (map (fun k => whole_text (chats k)) (seq i (length sections))).
Proof.
  induction sections as [|section rest IH]; intros i Ht Hf.
  - exists []. split; reflexivity.
  - inversion Ht as [|? ? Hs Hrest]; subst.
    destruct (section_text_kept section (chats i) Hs)
      as (emitted & left & Hrun & Hall).
    { apply Hf. cbn [length]. lia. }
    destruct (IH (S i) Hrest) as (later & Hloop & Hlater).
    { intros k Hk. apply Hf. cbn [length]. lia. }
    exists (emitted ++ map Py.str (Py.chars left) ++ later)%list.
    cbn [sections_loop]. rewrite Hrun, Hloop. split.
    + rewrite !map_app. reflexivity.
    + cbn [length seq map].
      rewrite concat_empty_cons, !concat_empty_app, concat_chars, Hlater.
      rewrite <- append_assoc, Hall. reflexivity.
Qed.

(** X26. Derive mode delivers all the text, once and in order.  When
    the structure lists sections that all have a title and no request
    fails, [generate_content] emits the structure and then result texts
    only, and these texts put together are the streamed texts of the
    sections, one section after the other. *)
Theorem derive_mode_delivers_all_text
    (loads : string -> result json) (capitalize : string -> string)
    (describe : exn -> string) (structure_chat : result string)
    (chats : nat -> stream) (prompt : string) (sections : list json) :
  subscript (generate_notebook_structure loads capitalize structure_chat
               prompt) "sections" = Ok (JList sections) ->
  Forall titled sections ->
  (forall k, k < length sections -> failure (chats k) = None) ->
  exists texts : list string,
    generate_content loads capitalize describe structure_chat chats prompt
      true
    = structure_ready
        (generate_notebook_structure loads capitalize structure_chat prompt)
      :: map result_ready texts /\
    String.concat "" texts
    = String.concat ""
        (map (fun k => whole_text (chats k)) (seq 0 (length sections))).
Proof.
  intros Hs Ht Hf.
  destruct (sections_loop_spec chats sections 0 Ht) as (texts & Hloop & Hall).
  { intros k Hk. apply Hf. lia. }
  exists texts. split; [|exact Hall].
  unfold generate_content. rewrite Hs. cbn [bind Py.iterate].
  rewrite Hloop. cbn [error_signal]. rewrite app_nil_r. reflexivity.
Qed.

Lemma derive_mode_delivers_all_text_witness :
  exists texts : list string,
    generate_content (fun _ => Raise JSONDecodeError) (fun s => s)
      (fun _ => "error") (Raise (OtherError "offline"))
      (fun _ => mkStream ["<md>Hi</md>"; "bye"] None) "demo" true
    = structure_ready (main_structure (fun s => s) "demo")
      :: map result_ready texts /\
    String.concat "" texts = "<md>Hi</md>bye".
Proof.
  destruct (derive_mode_delivers_all_text
              (fun _ => Raise JSONDecodeError) (fun s => s)
              (fun _ => "error") (Raise (OtherError "offline"))
              (fun _ => mkStream ["<md>Hi</md>"; "bye"] None) "demo"
              [JDict
                 [("title", JStr "Main Section");
                  ("type", JStr "section");
                  ("cells",
                   JList [JDict [("type", JStr "markdown");
                                 ("content", JStr ("# " ++ "demo"))]])]]
              eq_refl)
    as (texts & Hrun & Hall).
  - constructor; [|constructor]. exists (JStr "Main Section"). reflexivity.
  - intros k _. reflexivity.
  - exists texts. split; [exact Hrun | exact Hall].
Defined.

(** X27. In derive mode the text [generate_section] returns is
    delivered one character per signal.  For a structure with one titled
    section whose response does not fail and has no part with a closing
    tag, the signals after the structure are the characters of the
    streamed text, each in a [result_ready] of its own. *)
Theorem derive_mode_returns_text_by_character
    (loads : string -> result json) (capitalize : string -> string)
    (describe : exn -> string) (structure_chat : result string)
    (chats : nat -> stream) (prompt : string) (section : json) :
  subscript (generate_notebook_structure loads capitalize structure_chat
               prompt) "sections" = Ok (JList [section]) ->
  titled section ->
  failure (chats 0) = None ->
  Forall (fun p => closes_cell p = false) (parts (chats 0)) ->
  generate_content loads capitalize describe structure_chat chats prompt true
  = structure_ready
      (generate_notebook_structure loads capitalize structure_chat prompt)
    :: map result_ready (map Py.str (Py.chars (whole_text (chats 0)))).
Proof.
  intros Hs Ht Hf Hp.
  destruct (section_text_kept section (chats 0) Ht Hf)
    as (emitted & left & Hrun & Hall).
  assert (He : emitted = []).
  { destruct Ht as [title Htitle]. unfold generate_section in Hrun.
    rewrite Htitle, Hf in Hrun. cbn [bind] in Hrun.
    pose proof (section_loop_spec (parts (chats 0)) "") as (_ & _ & Hiff).
    destruct (section_loop "" (parts (chats 0))) as [em lf].
    injection Hrun as <- <-. apply Hiff. exact Hp. }
  subst emitted. cbn [String.concat append] in Hall. subst left.
  unfold generate_content. rewrite Hs. cbn [bind Py.iterate sections_loop].
  rewrite Hrun. cbn [map List.app error_signal]. rewrite !app_nil_r.
  reflexivity.
Qed.

Lemma derive_mode_returns_text_by_character_witness :
  generate_content (fun _ => Raise JSONDecodeError) (fun s => s)
    (fun _ => "error") (Raise (OtherError "offline"))
    (fun _ => mkStream ["<md>Hi</m"; "d>"] None) "demo" true
  = structure_ready (main_structure (fun s => s) "demo")
    :: map result_ready
         ["<"; "m"; "d"; ">"; "H"; "i"; "<"; "/"; "m"; "d"; ">"].
Proof.
  apply (derive_mode_returns_text_by_character
           (fun _ => Raise JSONDecodeError) (fun s => s)
           (fun _ => "error") (Raise (OtherError "offline"))
           (fun _ => mkStream ["<md>Hi</m"; "d>"] None) "demo"
           (JDict
              [("title", JStr "Main Section");
               ("type", JStr "section");
               ("cells",
                JList [JDict [("type", JStr "markdown");
                              ("content", JStr ("# " ++ "demo"))]])])
           eq_refl).
  - exists (JStr "Main Section"). reflexivity.
  - reflexivity.
  - repeat constructor.
Defined.

Lemma emit_cumulative_nth (contents : list string) :
  forall (result : string) (k : nat),
    k < length contents ->
    nth_error (emit_cumulative result contents) k
    = Some (result ++ String.concat "" (firstn (S k) contents)).
Proof.
  induction contents as [|content rest IH]; intros result k Hk;
    [simpl in Hk; lia |].
  cbn [emit_cumulative]. destruct k as [|k].
  - cbn [nth_error firstn String.concat]. reflexivity.
  - cbn [nth_error]. rewrite IH by (simpl in Hk; lia).
    change (firstn (S (S k)) (content :: rest))
      with (content :: firstn (S k) rest).
    rewrite concat_empty_cons, append_assoc. reflexivity.
Qed.

Lemma length_emit_cumulative (contents : list string) :
  forall result : string,
    length (emit_cumulative result contents) = length contents.
Proof.
  induction contents as [|content rest IH]; intros result;
    [reflexivity |].
  cbn [emit_cumulative length]. rewrite IH. reflexivity.
Qed.

(** X28. Outside derive mode every part of the response is answered
    with the whole text so far: [generate_content] emits one result per
    part, the result at position [k] being the first [k + 1] parts put
    together, so the last one is the complete text; an error signal
    follows exactly when the stream fails. *)
Theorem single_mode_emits_text_so_far
    (loads : string -> result json) (capitalize : string -> string)
    (describe : exn -> string) (structure_chat : result string)
    (chats : nat -> stream) (prompt : string) (k : nat) :
  k < length (parts (chats 0)) ->
  length (result_texts
            (generate_content loads capitalize describe structure_chat chats
               prompt false))
  = length (parts (chats 0)) /\
  nth_error
    (result_texts
       (generate_content loads capitalize describe structure_chat chats
          prompt false)) k
  = Some (String.concat "" (firstn (S k) (parts (chats 0)))) /\
  (failure (chats 0) = None ->
   generate_content loads capitalize describe structure_chat chats prompt
     false
   = map result_ready (emit_cumulative "" (parts (chats 0))) /\
   last (emit_cumulative "" (parts (chats 0))) "" = whole_text (chats 0)).
Proof.
  intros Hk. unfold generate_content.
  assert (Hr : result_texts
                 (map result_ready (emit_cumulative "" (parts (chats 0)))
                  ++ error_signal describe (failure (chats 0)))%list
               = emit_cumulative "" (parts (chats 0))).
  { unfold result_texts. rewrite flat_map_app.
    fold (result_texts
            (map result_ready (emit_cumulative "" (parts (chats 0))))).
    rewrite result_texts_ready.
    destruct (failure (chats 0)); cbn [error_signal flat_map List.app];
      apply app_nil_r. }
  rewrite Hr, length_emit_cumulative.
  split; [reflexivity |]. split.
  - rewrite (emit_cumulative_nth _ "" k Hk). reflexivity.
  - intros Hf. rewrite Hf. cbn [error_signal]. rewrite app_nil_r.
    split; [reflexivity |].
    set (n := length (parts (chats 0))) in *.
    pose proof (emit_cumulative_nth (parts (chats 0)) "" (n - 1)
                  ltac:(unfold n in *; lia)) as Hn.
    replace (S (n - 1)) with n in Hn by lia.
    unfold n in Hn at 2. rewrite firstn_all in Hn. cbn [append] in Hn.
    apply nth_error_split in Hn. destruct Hn as (l1 & l2 & Heq & Hlen).
    assert (Hl2 : l2 = []).
    { pose proof (length_emit_cumulative (parts (chats 0)) "") as Hl.
      rewrite Heq, length_app in Hl. cbn [length] in Hl. fold n in Hl.
      destruct l2; [reflexivity | simpl in Hl; lia]. }
    subst l2. rewrite Heq, last_last. reflexivity.
Qed.

Lemma single_mode_emits_text_so_far_witness :
  nth_error
    (result_texts
       (generate_content (fun _ => Raise JSONDecodeError) (fun s => s)
          (fun _ => "error") (Ok "")
          (fun _ => mkStream ["<md>"; "Hi"; "</md>"] None) "demo" false)) 1
  = Some "<md>Hi".
Proof.
  apply (proj1 (proj2 (single_mode_emits_text_so_far
                         (fun _ => Raise JSONDecodeError) (fun s => s)
                         (fun _ => "error") (Ok "")
                         (fun _ => mkStream ["<md>"; "Hi"; "</md>"] None)
                         "demo" 1 ltac:(simpl; lia)))).
Defined.

(** ** Model names *)

Lemma split_words_solid (s : string) :
  Forall (fun w => w <> "" /\ solid w = true) (split_words s).
Proof.
  induction s as [|c s IH]; [constructor |].
  cbn [split_words]. destruct (Str.isspace c) eqn:Ec; [exact IH |].
  assert (Hone : String c "" <> "" /\ solid (String c "") = true).
  { split; [discriminate |]. unfold solid. simpl. rewrite Ec. reflexivity. }
  destruct s as [|d s']; [constructor; [exact Hone | constructor] |].
  destruct (Str.isspace d); [constructor; assumption |].
  destruct (split_words (String d s')) as [|w ws];
    [constructor; [exact Hone | constructor] |].
  inversion IH as [|? ? [Hw1 Hw2] Hws]; subst.
  constructor; [|exact Hws]. split; [discriminate |].
  unfold solid in *. simpl. rewrite Ec. exact Hw2.
Qed.

Lemma model_names_solid (lines : list string) :
  Forall (fun w => w <> "" /\ solid w = true) (model_names lines).
Proof.
  induction lines as [|line lines IH]; [constructor |].
  unfold model_names in *. cbn [flat_map].
  pose proof (split_words_solid line) as H.
  destruct (split_words line) as [|w ws]; [exact IH |].
  inversion H; subst. constructor; assumption.
Qed.

Lemma solid_no_model (name : string) :
  solid name = true -> no_model name = false.
Proof.
  intros H. unfold no_model. apply orb_false_iff.
  split; apply String.eqb_neq; intros ->; discriminate H.
Qed.

(** X29. The entries [fetch_ollama_models] leaves in the model box are
    either a single notice ([No models found] or [Error loading models])
    or a non-empty list of names, every one of them non-empty and free of
    white space.  A name is therefore never taken for a notice by the test
    [generate_with_ollama] starts with, and a notice never stands beside
    a name. *)
Theorem fetched_models_are_names_or_notice (proc : result (Z * string)) :
  (fetch_ollama_models proc = ["No models found"] \/
   fetch_ollama_models proc = ["Error loading models"] \/
   (fetch_ollama_models proc <> [] /\
    Forall (fun name => name <> "" /\ solid name = true /\
                        no_model name = false)
           (fetch_ollama_models proc))) /\
  (forall name : string,
     In name (fetch_ollama_models proc) -> no_model name = true ->
     fetch_ollama_models proc = [name]).
Proof.
  assert (Hmain :
    fetch_ollama_models proc = ["No models found"] \/
    fetch_ollama_models proc = ["Error loading models"] \/
    (fetch_ollama_models proc <> [] /\
     Forall (fun name => name <> "" /\ solid name = true /\
                         no_model name = false)
            (fetch_ollama_models proc))).
  { unfold fetch_ollama_models.
    destruct proc as [[returncode output]|e]; [|right; left; reflexivity].
    destruct (negb (returncode =? 0)%Z); [right; left; reflexivity |].
    destruct (1 <? length (split_char "010" (Str.strip output)))%nat;
      [|left; reflexivity].
    pose proof (model_names_solid
                  (tl (split_char "010" (Str.strip output)))) as H.
    destruct (model_names (tl (split_char "010" (Str.strip output))))
      as [|m ms]; [left; reflexivity |].
    right; right. split; [discriminate |].
    eapply Forall_impl; [|exact H]. cbn beta. intros name [H1 H2].
    split; [exact H1 |]. split; [exact H2 |]. apply solid_no_model, H2. }
  split; [exact Hmain |].
  intros name Hin Hno.
  destruct Hmain as [H | [H | [_ H]]].
  - rewrite H in *. destruct Hin as [<- | []]. reflexivity.
  - rewrite H in *. destruct Hin as [<- | []]. reflexivity.
  - rewrite Forall_forall in H. destruct (H name Hin) as (_ & _ & Hn).
    congruence.
Qed.

Lemma fetched_models_are_names_or_notice_witness :
  fetch_ollama_models (Ok (0%Z, "NAME ID")) = ["No models found"].
Proof.
  apply (proj2 (fetched_models_are_names_or_notice (Ok (0%Z, "NAME ID")))
           "No models found").
  - left. reflexivity.
  - reflexivity.
Defined.

Lemma lstrip_app_nonblank (h t : string) :
  blank h = false -> Str.lstrip (h ++ t) = Str.lstrip h ++ t.
Proof.
  unfold blank. induction h as [|c h IH]; intros H; [discriminate H |].
  cbn [append Str.lstrip]. simpl in H.
  destruct (Str.isspace c); [apply IH; exact H | reflexivity].
Qed.

Lemma rstrip_app_nonblank (a t : string) :
  blank t = false -> Str.rstrip (a ++ t) = a ++ Str.rstrip t.
Proof.
  intros Ht. induction a as [|c a IH]; [reflexivity |].
  cbn [append Str.rstrip]. rewrite IH.
  destruct (a ++ Str.rstrip t) eqn:E; [|reflexivity].
  assert (Hr : Str.rstrip t = "") by (destruct a; [exact E | discriminate E]).
  apply rstrip_empty in Hr. congruence.
Qed.

Lemma rstrip_app_blank (a t : string) :
  blank t = true -> Str.rstrip (a ++ t) = Str.rstrip a.
Proof.
  intros Ht. induction a as [|c a IH].
  - cbn [append]. apply rstrip_empty. exact Ht.
  - cbn [append Str.rstrip]. rewrite IH. reflexivity.
Qed.

Lemma no_newline_cons (c : ascii) (x : string) :
  Str.contains (String c x) nl = false ->
  Ascii.eqb c "010" = false /\ Str.contains x nl = false.
Proof.
  unfold Str.contains, nl. cbn [Str.find]. unfold Str.startswith.
  cbn [String.prefix].
  destruct (ascii_dec "010" c) as [<- | Hne].
  - destruct x; discriminate.
  - intros H. split.
    + apply Ascii.eqb_neq. congruence.
    + destruct (Str.find x (String "010" "")); [discriminate H | reflexivity].
Qed.

Lemma split_char_line (x : string) :
  Str.contains x nl = false -> split_char "010" x = [x].
Proof.
  induction x as [|c x IH]; intros H; [reflexivity |].
  apply no_newline_cons in H. destruct H as [Hc Hx].
  cbn [split_char]. rewrite Hc, (IH Hx). reflexivity.
Qed.

Lemma split_char_app (x y : string) :
  Str.contains x nl = false ->
  split_char "010" (x ++ nl ++ y) = x :: split_char "010" y.
Proof.
  induction x as [|c x IH]; intros H; [reflexivity |].
  apply no_newline_cons in H. destruct H as [Hc Hx].
  cbn [append split_char]. rewrite Hc.
  change (x ++ String "010" y) with (x ++ nl ++ y).
  rewrite (IH Hx). reflexivity.
Qed.

(** X30. [fetch_ollama_models] never lists the first line.  When
    [ollama list] succeeds and prints a first line that is not blank,
    what that line says has no effect: the entries are the first words of
    the non-blank lines after it, or [No models found] when there are
    none. *)
Theorem fetch_skips_header (header rest : string) :
  Str.contains header nl = false ->
  blank header = false ->
  fetch_ollama_models (Ok (0%Z, header ++ nl ++ rest))
  = match model_names (split_char "010" (Str.rstrip rest)) with
    | [] => ["No models found"]
    | models => models
    end.
Proof.
  intros Hnl Hb. unfold fetch_ollama_models. cbn [Z.eqb negb].
  assert (Hl : Str.contains (Str.lstrip header) nl = false)
    by (apply (contains_part _ header); [apply lstrip_occurs | exact Hnl]).
  assert (Hlb : blank (Str.lstrip header) = false)
    by (rewrite lstrip_blank; exact Hb).
  unfold Str.strip. rewrite (lstrip_app_nonblank _ _ Hb).
  destruct (blank rest) eqn:Er.
  - assert (Ht : blank (nl ++ rest) = true)
      by (rewrite blank_app, Er; reflexivity).
    rewrite (rstrip_app_blank _ _ Ht).
    assert (Hr : Str.contains (Str.rstrip (Str.lstrip header)) nl = false)
      by (apply (contains_part _ (Str.lstrip header));
          [apply rstrip_occurs | exact Hl]).
    rewrite (split_char_line _ Hr). cbn [length Nat.ltb Nat.leb].
    apply rstrip_empty in Er. rewrite Er. reflexivity.
  - assert (Ht : blank (nl ++ rest) = false)
      by (rewrite blank_app, Er; apply andb_false_r).
    rewrite (rstrip_app_nonblank _ _ Ht).
    rewrite (rstrip_app_nonblank nl rest Er).
    rewrite (split_char_app _ _ Hl). cbn [tl length].
    assert (Hlen : (1 <? S (length (split_char "010" (Str.rstrip rest))))%nat
                   = true).
    { apply Nat.ltb_lt.
      destruct (split_char "010" (Str.rstrip rest)) eqn:E; [|simpl; lia].
      destruct (Str.rstrip rest) as [|c r]; [discriminate E |].
      cbn [split_char] in E. destruct (Ascii.eqb c "010");
        [discriminate E |].
      destruct (split_char "010" r); discriminate E. }
    rewrite Hlen. reflexivity.
Qed.

Lemma fetch_skips_header_witness :
  fetch_ollama_models
    (Ok (0%Z, "NAME  ID  SIZE" ++ nl ++ "llama3:latest  365c  4.7 GB" ++ nl
              ++ "phi3:mini  4f2a  2.2 GB" ++ nl))
  = ["llama3:latest"; "phi3:mini"].
Proof.
  rewrite (fetch_skips_header "NAME  ID  SIZE"
             ("llama3:latest  365c  4.7 GB" ++ nl
              ++ "phi3:mini  4f2a  2.2 GB" ++ nl) eq_refl eq_refl).
  reflexivity.
Defined.
